(** * Shuttle VFD driver (shuttle_vfd.c): protocol encoder and state engine

    A shallow embedding of the driver's sysfs handlers and packet builders,
    and the properties of its specification checked against them.

    Conventions
    - bytes ([unsigned char], [char]) are [Z] values in 0..255; a store into an
      [unsigned char] cell is written with its truncation [mod 256];
    - [unsigned long] values (icon masks) are non-negative [Z]; the only
      conversion that wraps, [~DRIVER_ICON_SET], is written out;
    - [int] values are [Z] between [INT_MIN] and [INT_MAX]; additions,
      subtractions and multiplications on them wrap ([int_add], [int_sub],
      [int_mul]);
    - a [char *] is the list of bytes found from the pointer on: [p + k] is
      [skipn k p], [p[k]] is [nth k p 0] (sysfs buffers and string literals
      are NUL terminated, so a read at the end of the list yields 0);
    - the USB device is the trace of the packets handed to [usb_control_msg]
      and of the [dev_err] lines, oldest first. *)

From Stdlib Require Import ZArith List Lia Bool String Ascii Arith DecimalString.
Import ListNotations.
Open Scope Z_scope.

(** [String] also has a [length]; the one meant throughout is the lists'. *)
#[local] Abbreviation length := Datatypes.length.

(** ** Constants (shuttle_vfd.c:53-105) *)

Definition SHUTTLE_VFD_WIDTH : nat := 20.
Definition SHUTTLE_VFD_PACKET_SIZE : nat := 8.
Definition SHUTTLE_VFD_DATA_SIZE : nat := (SHUTTLE_VFD_PACKET_SIZE - 1)%nat.

Definition SHUTTLE_VFD_ICON_CLOCK := Z.shiftl 1 4.
Definition SHUTTLE_VFD_ICON_RADIO := Z.shiftl 1 3.
Definition SHUTTLE_VFD_ICON_MUSIC := Z.shiftl 1 2.
Definition SHUTTLE_VFD_ICON_CD_DVD := Z.shiftl 1 1.
Definition SHUTTLE_VFD_ICON_TELEVISION := Z.shiftl 1 0.
Definition SHUTTLE_VFD_ICON_CAMERA := Z.shiftl 1 9.
Definition SHUTTLE_VFD_ICON_REWIND := Z.shiftl 1 8.
Definition SHUTTLE_VFD_ICON_RECORD := Z.shiftl 1 7.
Definition SHUTTLE_VFD_ICON_PLAY := Z.shiftl 1 6.
Definition SHUTTLE_VFD_ICON_PAUSE := Z.shiftl 1 5.
Definition SHUTTLE_VFD_ICON_STOP := Z.shiftl 1 14.
Definition SHUTTLE_VFD_ICON_FASTFORWARD := Z.shiftl 1 13.
Definition SHUTTLE_VFD_ICON_REVERSE := Z.shiftl 1 12.
Definition SHUTTLE_VFD_ICON_REPEAT := Z.shiftl 1 11.
Definition SHUTTLE_VFD_ICON_MUTE := Z.shiftl 1 10.
Definition SHUTTLE_VFD_ICON_VOL_01 := Z.shiftl 1 15.
Definition SHUTTLE_VFD_ICON_VOL_12 := Z.shiftl 12 15.

Definition SHUTTLE_VFD_BASE_MASK := 0x7FFF.
Definition SHUTTLE_VFD_VOL_MASK := Z.shiftl 0xF 15.
Definition SHUTTLE_VFD_ALL_ICONS := Z.lor 0x7FFF SHUTTLE_VFD_ICON_VOL_12.

Definition DRIVER_ICON_CLEAR := Z.shiftl 1 28.
Definition DRIVER_ICON_SET := Z.shiftl 1 29.

Definition DRIVER_MODE_TEXT := 0.
Definition DRIVER_MODE_CLOCK := 1.

Definition DRIVER_STYLE_TEXT_ALIGN_LEFT := 0.
Definition DRIVER_STYLE_TEXT_ALIGN_RIGHT := 1.
Definition DRIVER_STYLE_TEXT_ALIGN_CENTER := 2.

(** Arithmetic on [int]: 32 bits, two's complement.  The kernel is built
    with [-fno-strict-overflow], so a result out of range wraps around. *)
Definition INT_MIN : Z := - 2 ^ 31.
Definition INT_MAX : Z := 2 ^ 31 - 1.
Definition int_wrap (z : Z) : Z := (z + 2 ^ 31) mod 2 ^ 32 - 2 ^ 31.
Definition int_add (a b : Z) : Z := int_wrap (a + b).
Definition int_sub (a b : Z) : Z := int_wrap (a - b).
Definition int_mul (a b : Z) : Z := int_wrap (a * b).

(** [DEC_AS_HEX(v)] on an [int]: C division and remainder truncate towards
    zero. *)
Definition DEC_AS_HEX (v : Z) : Z := int_add (int_mul (Z.quot v 10) 16) (Z.rem v 10).

(** [EINVAL] of the kernel's errno. *)
Definition EINVAL := 22.

(** ** Bytes, strings and memory *)

(** The bytes of a string literal (without its terminating NUL). *)
Definition cstr (s : string) : list Z :=
  map (fun c => Z.of_nat (nat_of_ascii c)) (list_ascii_of_string s).

(** [a[k] = v] on an [unsigned char] array. *)
Definition store (a : list Z) (k : nat) (v : Z) : list Z :=
  firstn k a ++ [v mod 256] ++ skipn (S k) a.

(** [memset(a + off, c, n)]. *)
Definition memset (a : list Z) (off : nat) (c : Z) (n : nat) : list Z :=
  firstn off a ++ repeat c n ++ skipn (off + n) a.

(** [memcpy(dst + off, src, n)]. *)
Definition memcpy (dst : list Z) (off : nat) (src : list Z) (n : nat) : list Z :=
  firstn off dst ++ firstn n src ++ skipn (off + n) dst.

(** [strlen] of a string literal given by its bytes. *)
Definition strlen (s : list Z) : nat := length s.

(** [strncmp(a, b, n)]: compares at most [n] bytes, stops at a NUL. *)
Fixpoint strncmp (a b : list Z) (n : nat) : Z :=
  match n with
  | O => 0
  | S n' =>
      let ca := hd 0 a in
      let cb := hd 0 b in
      if ca =? cb
      then if ca =? 0 then 0 else strncmp (tl a) (tl b) n'
      else ca - cb
  end.

(** [strcmp(a, b)]: as [strncmp] without a bound; the recursion follows [a],
    whose end is its terminating NUL. *)
Fixpoint strcmp (a b : list Z) : Z :=
  match a with
  | [] => 0 - hd 0 b
  | ca :: a' =>
      let cb := hd 0 b in
      if ca =? cb
      then if ca =? 0 then 0 else strcmp a' (tl b)
      else ca - cb
  end.

(** ** The device (shuttle_vfd.c:150-158) *)

Inductive log_line : Type :=
| ErrNoRtc                      (* "can't get rtc time" *)
| ErrInvalidRtc                 (* "invalid rtc time" *)
| ErrUnknownIcon (l : nat).     (* "unknown icon (l=%ld), ignoring" *)

Record usb_device : Type := mk_usb_device {
  ctrl_out : list (list Z);
  dev_log : list log_line
}.

Record shuttle_vfd : Type := mk_shuttle_vfd {
  udev : usb_device;
  icons_mask : Z;
  mode : Z;
  text_style : Z;
  packet : list Z;
  screen : list Z
}.

Definition upd_udev (vfd : shuttle_vfd) (u : usb_device) : shuttle_vfd :=
  mk_shuttle_vfd u (icons_mask vfd) (mode vfd) (text_style vfd)
                 (packet vfd) (screen vfd).
Definition upd_icons_mask (vfd : shuttle_vfd) (m : Z) : shuttle_vfd :=
  mk_shuttle_vfd (udev vfd) m (mode vfd) (text_style vfd)
                 (packet vfd) (screen vfd).
Definition upd_mode (vfd : shuttle_vfd) (m : Z) : shuttle_vfd :=
  mk_shuttle_vfd (udev vfd) (icons_mask vfd) m (text_style vfd)
                 (packet vfd) (screen vfd).
Definition upd_text_style (vfd : shuttle_vfd) (s : Z) : shuttle_vfd :=
  mk_shuttle_vfd (udev vfd) (icons_mask vfd) (mode vfd) s
                 (packet vfd) (screen vfd).
Definition upd_packet (vfd : shuttle_vfd) (p : list Z) : shuttle_vfd :=
  mk_shuttle_vfd (udev vfd) (icons_mask vfd) (mode vfd) (text_style vfd)
                 p (screen vfd).
Definition upd_screen (vfd : shuttle_vfd) (s : list Z) : shuttle_vfd :=
  mk_shuttle_vfd (udev vfd) (icons_mask vfd) (mode vfd) (text_style vfd)
                 (packet vfd) s.

(** [dev_err(&vfd->udev->dev, ...)]. *)
Definition dev_err (vfd : shuttle_vfd) (e : log_line) : shuttle_vfd :=
  upd_udev vfd (mk_usb_device (ctrl_out (udev vfd)) (dev_log (udev vfd) ++ [e])).

(** The arrays of the structure have their declared sizes. *)
Definition wf_vfd (vfd : shuttle_vfd) : Prop :=
  length (packet vfd) = SHUTTLE_VFD_PACKET_SIZE /\
  length (screen vfd) = SHUTTLE_VFD_WIDTH.

(** ** Packet builders *)

(** [vfd_send_packet] (shuttle_vfd.c:161-181): the eight bytes of
    [vfd->packet] go out on the control pipe.  Every caller drops the
    returned status, and the pause that follows changes no state. *)
Definition vfd_send_packet (vfd : shuttle_vfd) : shuttle_vfd :=
  upd_udev vfd (mk_usb_device
                  (ctrl_out (udev vfd)
                     ++ [firstn SHUTTLE_VFD_PACKET_SIZE (packet vfd)])
                  (dev_log (udev vfd))).

(** [vfd_reset_cursor] (shuttle_vfd.c:184-195). *)
Definition vfd_reset_cursor (vfd : shuttle_vfd) (eraseall : bool) : shuttle_vfd :=
  let vfd := upd_packet vfd (memset (packet vfd) 0 0 SHUTTLE_VFD_PACKET_SIZE) in
  let vfd := upd_packet vfd (store (packet vfd) 0 (Z.shiftl 1 4 + 1)) in
  let vfd :=
    if eraseall
    then upd_packet vfd (store (packet vfd) 1 1)
    else upd_packet vfd (store (packet vfd) 1 2) in
  vfd_send_packet vfd.

(** [struct rtc_time] of <linux/rtc.h>: nine [int] fields. *)
Record rtc_time : Type := mk_rtc_time {
  tm_sec : Z; tm_min : Z; tm_hour : Z; tm_mday : Z; tm_mon : Z;
  tm_year : Z; tm_wday : Z; tm_yday : Z; tm_isdst : Z
}.

(** Every field holds an [int]. *)
Definition int_range (z : Z) : Prop := INT_MIN <= z <= INT_MAX.

Definition rtc_time_ints (tm : rtc_time) : Prop :=
  int_range (tm_sec tm) /\ int_range (tm_min tm) /\ int_range (tm_hour tm) /\
  int_range (tm_mday tm) /\ int_range (tm_mon tm) /\ int_range (tm_year tm) /\
  int_range (tm_wday tm) /\ int_range (tm_yday tm) /\ int_range (tm_isdst tm).

(** [memset(&now, 0, sizeof(now))]. *)
Definition rtc_time_zero : rtc_time := mk_rtc_time 0 0 0 0 0 0 0 0 0.

(** What the RTC class answers: [rtc_class_open] returns NULL, or a device
    on which [rtc_read_time] returns [err] and leaves [tm] in [now]. *)
Inductive rtc_source : Type :=
| RtcAbsent
| RtcDevice (err : Z) (tm : rtc_time).

Section Driver.

(** [rtc_valid_tm] of the kernel's RTC library: 0 for a valid time. *)
Variable rtc_valid_tm : rtc_time -> Z.

(** [vfd_set_clock] (shuttle_vfd.c:199-233). *)
Definition vfd_set_clock (rtc : rtc_source) (vfd : shuttle_vfd) : shuttle_vfd :=
  let now := rtc_time_zero in
  let '(now, vfd) :=
    match rtc with
    | RtcAbsent => (now, dev_err vfd ErrNoRtc)
    | RtcDevice err tm =>
        let now := tm in
        if (err =? 0) && negb (rtc_valid_tm now =? 0)
        then (now, dev_err vfd ErrInvalidRtc)
        else (now, vfd)
    end in
  let vfd := upd_packet vfd (store (packet vfd) 0 (Z.shiftl 0xD 4 + 7)) in
  let vfd := upd_packet vfd (store (packet vfd) 1 (DEC_AS_HEX (tm_sec now))) in
  let vfd := upd_packet vfd (store (packet vfd) 2 (DEC_AS_HEX (tm_min now))) in
  let vfd := upd_packet vfd (store (packet vfd) 3 (DEC_AS_HEX (tm_hour now))) in
  let vfd := upd_packet vfd (store (packet vfd) 4 (tm_wday now)) in
  let vfd := upd_packet vfd (store (packet vfd) 5 (DEC_AS_HEX (tm_mday now))) in
  let vfd := upd_packet vfd (store (packet vfd) 6 (DEC_AS_HEX (int_add (tm_mon now) 1))) in
  let vfd := upd_packet vfd (store (packet vfd) 7 (DEC_AS_HEX (int_sub (tm_year now) 100))) in
  let vfd := vfd_send_packet vfd in
  let vfd := upd_packet vfd (memset (packet vfd) 0 0 SHUTTLE_VFD_PACKET_SIZE) in
  let vfd := upd_packet vfd (store (packet vfd) 0 (Z.shiftl 3 4 + 1)) in
  let vfd := upd_packet vfd (store (packet vfd) 1 3) in
  vfd_send_packet vfd.

(** The loop of [vfd_set_text] (shuttle_vfd.c:241-246): [n] full chunks
    read from [p] on; returns the advanced [p]. *)
Fixpoint vfd_set_text_loop (n : nat) (p : list Z) (vfd : shuttle_vfd)
  : list Z * shuttle_vfd :=
  match n with
  | O => (p, vfd)
  | S n' =>
      let vfd := upd_packet vfd
                   (store (packet vfd) 0
                      (Z.shiftl 9 4 + Z.of_nat SHUTTLE_VFD_DATA_SIZE)) in
      let vfd := upd_packet vfd
                   (memcpy (packet vfd) 1 p SHUTTLE_VFD_DATA_SIZE) in
      let p := skipn SHUTTLE_VFD_DATA_SIZE p in
      vfd_set_text_loop n' p (vfd_send_packet vfd)
  end.

(** [vfd_set_text] (shuttle_vfd.c:236-255). *)
Definition vfd_set_text (vfd : shuttle_vfd) (len : nat) : shuttle_vfd :=
  let '(p, vfd) :=
    vfd_set_text_loop (len / SHUTTLE_VFD_DATA_SIZE) (screen vfd) vfd in
  let len := (len mod SHUTTLE_VFD_DATA_SIZE)%nat in
  if negb (len =? 0)%nat then
    let vfd := upd_packet vfd (memset (packet vfd) 0 0 SHUTTLE_VFD_PACKET_SIZE) in
    let vfd := upd_packet vfd (store (packet vfd) 0 (Z.shiftl 9 4 + Z.of_nat len)) in
    let vfd := upd_packet vfd (memcpy (packet vfd) 1 p len) in
    vfd_send_packet vfd
  else vfd.

(** [vfd_set_icons] (shuttle_vfd.c:258-267). *)
Definition vfd_set_icons (vfd : shuttle_vfd) : shuttle_vfd :=
  let vfd := upd_packet vfd (memset (packet vfd) 0 0 SHUTTLE_VFD_PACKET_SIZE) in
  let vfd := upd_packet vfd (store (packet vfd) 0 (Z.shiftl 7 4 + 4)) in
  let vfd := upd_packet vfd
               (store (packet vfd) 1 (Z.land (Z.shiftr (icons_mask vfd) 15) 0x1F)) in
  let vfd := upd_packet vfd
               (store (packet vfd) 2 (Z.land (Z.shiftr (icons_mask vfd) 10) 0x1F)) in
  let vfd := upd_packet vfd
               (store (packet vfd) 3 (Z.land (Z.shiftr (icons_mask vfd) 5) 0x1F)) in
  let vfd := upd_packet vfd (store (packet vfd) 4 (Z.land (icons_mask vfd) 0x1F)) in
  vfd_send_packet vfd.


(** ** The icon catalog (shuttle_vfd.c:123-147) *)

Record vfd_icons : Type := mk_vfd_icons {
  name : list Z;
  altname : option (list Z);     (* [None] is the NULL pointer *)
  value : Z
}.

Definition icons : list vfd_icons :=
  [ mk_vfd_icons (cstr "clk") (Some (cstr "clock")) SHUTTLE_VFD_ICON_CLOCK;
    mk_vfd_icons (cstr "rad") (Some (cstr "radio")) SHUTTLE_VFD_ICON_RADIO;
    mk_vfd_icons (cstr "mus") (Some (cstr "music")) SHUTTLE_VFD_ICON_MUSIC;
    mk_vfd_icons (cstr "cd") (Some (cstr "dvd")) SHUTTLE_VFD_ICON_CD_DVD;
    mk_vfd_icons (cstr "tv") (Some (cstr "tele")) SHUTTLE_VFD_ICON_TELEVISION;
    mk_vfd_icons (cstr "cam") (Some (cstr "camera")) SHUTTLE_VFD_ICON_CAMERA;
    mk_vfd_icons (cstr "rew") (Some (cstr "rewind")) SHUTTLE_VFD_ICON_REWIND;
    mk_vfd_icons (cstr "rec") (Some (cstr "record")) SHUTTLE_VFD_ICON_RECORD;
    mk_vfd_icons (cstr "pl") (Some (cstr "play")) SHUTTLE_VFD_ICON_PLAY;
    mk_vfd_icons (cstr "pa") (Some (cstr "pause")) SHUTTLE_VFD_ICON_PAUSE;
    mk_vfd_icons (cstr "st") (Some (cstr "stop")) SHUTTLE_VFD_ICON_STOP;
    mk_vfd_icons (cstr "ff") None SHUTTLE_VFD_ICON_FASTFORWARD;
    mk_vfd_icons (cstr "rev") (Some (cstr "reverse")) SHUTTLE_VFD_ICON_REVERSE;
    mk_vfd_icons (cstr "rep") (Some (cstr "repeat")) SHUTTLE_VFD_ICON_REPEAT;
    mk_vfd_icons (cstr "mute") (Some (cstr "vol0")) SHUTTLE_VFD_ICON_MUTE;
    mk_vfd_icons (cstr "all") (Some (cstr "world")) SHUTTLE_VFD_ALL_ICONS;
    mk_vfd_icons (cstr "clear") (Some (cstr "none")) DRIVER_ICON_CLEAR;
    mk_vfd_icons (cstr "=") None DRIVER_ICON_SET ].

(** The [for] loop of [vfd_parse_icons] (shuttle_vfd.c:276-295) over the
    entries that remain; the result is the final [*val] (0 when the loop
    runs off the table).  The two [vol] patterns are tested inside the loop,
    once per entry, as in the source. *)
Fixpoint vfd_parse_icons_loop (tbl : list vfd_icons) (nm : list Z) (count : nat) : Z :=
  match tbl with
  | [] => 0
  | ic :: tbl' =>
      if (strlen (name ic) =? count)%nat && (strncmp nm (name ic) count =? 0)
      then value ic
      else if match altname ic with
              | None => false
              | Some alt =>
                  (strlen alt =? count)%nat && (strncmp nm alt count =? 0)
              end
      then value ic
      else if (count =? 4)%nat && (strncmp nm (cstr "vol") 3 =? 0)
              && ((0x30 <? nth 3 nm 0) && (nth 3 nm 0 <=? 0x39))
      then Z.shiftl (nth 3 nm 0 - 0x30) 15
      else if (count =? 5)%nat && (strncmp nm (cstr "vol1") 4 =? 0)
              && ((0x30 <=? nth 4 nm 0) && (nth 4 nm 0 <=? 0x32))
      then Z.shiftl (nth 4 nm 0 - 0x30 + 10) 15
      else vfd_parse_icons_loop tbl' nm count
  end.

(** [vfd_parse_icons] (shuttle_vfd.c:270-298): the status and [*val]. *)
Definition vfd_parse_icons (nm : list Z) (count : nat) : Z * Z :=
  let val := vfd_parse_icons_loop icons nm count in
  (if val =? 0 then -1 else 0, val).

(** ** Attribute handlers *)

(** [set_vfd_text_handler] (shuttle_vfd.c:302-336); [count] is the number
    of bytes of [buf].  The returned [count] is left out. *)
Definition set_vfd_text_handler (vfd : shuttle_vfd) (buf : list Z) : shuttle_vfd :=
  let count := length buf in
  let vfd :=
    if (count <? SHUTTLE_VFD_WIDTH)%nat
    then upd_screen vfd (memset (screen vfd) 0 0x0 SHUTTLE_VFD_WIDTH)
    else vfd in
  let l := Nat.min count SHUTTLE_VFD_WIDTH in
  let vfd :=
    if text_style vfd =? DRIVER_STYLE_TEXT_ALIGN_RIGHT then
      let vfd := upd_screen vfd
                   (memset (screen vfd) 0 0x20 (SHUTTLE_VFD_WIDTH - l)) in
      upd_screen vfd (memcpy (screen vfd) (SHUTTLE_VFD_WIDTH - l) buf l)
    else if text_style vfd =? DRIVER_STYLE_TEXT_ALIGN_CENTER then
      let vfd := upd_screen vfd (memset (screen vfd) 0 0x20 SHUTTLE_VFD_WIDTH) in
      upd_screen vfd (memcpy (screen vfd) ((SHUTTLE_VFD_WIDTH - l) / 2) buf l)
    else
      upd_screen vfd (memcpy (screen vfd) 0 buf l) in
  if mode vfd =? DRIVER_MODE_TEXT then
    let vfd := vfd_reset_cursor vfd false in
    vfd_set_text vfd SHUTTLE_VFD_WIDTH
  else vfd.

(** The locals of the scanning loop of [set_vfd_icons_handler]: [p] is kept
    as its offset into [buf]. *)
Record icons_scan : Type := mk_icons_scan {
  sc_p : nat;
  sc_l : nat;
  sc_i : nat;
  sc_mask : Z;
  sc_vfd : shuttle_vfd
}.

Definition is_separator (c : Z) : bool :=
  (c =? 44) || (c =? 32) || (c =? 10).      (* ',' ' ' '\n' *)

(** One resolved or rejected token (shuttle_vfd.c:358-362 and 379-383). *)
Definition scan_token (buf : list Z) (p l : nat) (mask : Z) (vfd : shuttle_vfd)
  : Z * shuttle_vfd :=
  let '(ret, tmp) := vfd_parse_icons (skipn p buf) l in
  if ret =? 0 then (Z.lor mask tmp, vfd)
  else (mask, dev_err vfd (ErrUnknownIcon l)).

(** The body of the [while] loop (shuttle_vfd.c:355-375). *)
Definition icons_scan_body (buf : list Z) (st : icons_scan) : icons_scan :=
  let c := nth (sc_l st) (skipn (sc_p st) buf) 0 in
  if is_separator c then
    if (0 <? sc_l st)%nat then
      let '(mask, vfd) :=
        scan_token buf (sc_p st) (sc_l st) (sc_mask st) (sc_vfd st) in
      mk_icons_scan (sc_p st + sc_l st + 1) 0 (sc_i st + 1) mask vfd
    else
      mk_icons_scan (sc_p st + 1) (sc_l st) (sc_i st + 1) (sc_mask st) (sc_vfd st)
  else
    mk_icons_scan (sc_p st) (sc_l st + 1) (sc_i st + 1) (sc_mask st) (sc_vfd st).

(** The guard of the loop (shuttle_vfd.c:354). *)
Definition icons_scan_guard (buf : list Z) (count : nat) (st : icons_scan) : bool :=
  (sc_i st <? count)%nat && negb (nth (sc_i st) buf 0 =? 0).

(** The [while] loop; [i] grows at every turn and the guard fails once it
    reaches [count], so [count] turns are enough (see [icons_scan_loop_exits]). *)
Fixpoint icons_scan_loop (fuel : nat) (buf : list Z) (count : nat) (st : icons_scan)
  : icons_scan :=
  match fuel with
  | O => st
  | S fuel' =>
      if icons_scan_guard buf count st
      then icons_scan_loop fuel' buf count (icons_scan_body buf st)
      else st
  end.

(** The mask accumulated from [buf] (shuttle_vfd.c:351-384), with the
    device carrying the [dev_err] lines. *)
Definition icons_scan_mask (vfd : shuttle_vfd) (buf : list Z) : Z * shuttle_vfd :=
  let count := length buf in
  let st := icons_scan_loop count buf count (mk_icons_scan 0 0 0 0 vfd) in
  if (0 <? sc_l st)%nat
  then scan_token buf (sc_p st) (sc_l st) (sc_mask st) (sc_vfd st)
  else (sc_mask st, sc_vfd st).

(** [~DRIVER_ICON_SET] is an [int] converted to [unsigned long] (64 bits). *)
Definition not_DRIVER_ICON_SET : Z := Z.lnot DRIVER_ICON_SET mod 2 ^ 64.

(** The merge of the accumulated [mask] into [vfd->icons_mask]
    (shuttle_vfd.c:386-399). *)
Definition icons_merge (cur mask : Z) : Z :=
  if negb (Z.land mask DRIVER_ICON_CLEAR =? 0) then 0
  else if negb (Z.land mask DRIVER_ICON_SET =? 0) then
    Z.land mask not_DRIVER_ICON_SET
  else if SHUTTLE_VFD_ICON_VOL_01 <=? mask then
    let mask :=
      if Z.land cur SHUTTLE_VFD_VOL_MASK =? Z.land mask SHUTTLE_VFD_VOL_MASK
      then Z.land mask SHUTTLE_VFD_BASE_MASK
      else mask in
    Z.lxor (Z.land cur SHUTTLE_VFD_BASE_MASK) mask
  else Z.lxor cur mask.

(** [set_vfd_icons_handler] (shuttle_vfd.c:340-404). *)
Definition set_vfd_icons_handler (vfd : shuttle_vfd) (buf : list Z) : shuttle_vfd :=
  let '(mask, vfd) := icons_scan_mask vfd buf in
  let vfd := upd_icons_mask vfd (icons_merge (icons_mask vfd) mask) in
  vfd_set_icons vfd.

(** [isspace] of the kernel's ctype table: TAB..CR, the space and 0xA0. *)
Definition isspace (c : Z) : bool :=
  ((9 <=? c) && (c <=? 13)) || (c =? 32) || (c =? 160).

Fixpoint skip_spaces (s : list Z) : list Z :=
  match s with
  | [] => []
  | c :: s' => if isspace c then skip_spaces s' else s
  end.

(** The bytes a [%<w>s] conversion copies: up to the next white space, the
    terminating NUL or [w] bytes. *)
Fixpoint scan_word (w : nat) (s : list Z) : list Z :=
  match w, s with
  | S w', c :: s' => if (c =? 0) || isspace c then [] else c :: scan_word w' s'
  | _, _ => []
  end.

(** [sscanf(buf, "%5s", cmd)] as the kernel's [vsscanf] does it: nothing is
    converted from the empty string; otherwise leading white space is
    skipped and the word is copied.  Returns the count and [cmd]. *)
Definition sscanf_5s (buf : list Z) : Z * list Z :=
  if hd 0 buf =? 0 then (0, [])
  else (1, scan_word 5 (skip_spaces buf)).

(** [set_vfd_mode_handler] (shuttle_vfd.c:408-439): the returned value and
    the device. *)
Definition set_vfd_mode_handler (rtc : rtc_source) (vfd : shuttle_vfd) (buf : list Z)
  : Z * shuttle_vfd :=
  let count := Z.of_nat (length buf) in
  let '(ret, cmd) := sscanf_5s buf in
  if negb (ret =? 1) then (- EINVAL, vfd)
  else if (strcmp cmd (cstr "clock") =? 0) || (strcmp cmd (cstr "clk") =? 0) then
    let vfd := vfd_reset_cursor vfd true in
    let vfd := upd_mode vfd DRIVER_MODE_CLOCK in
    (count, vfd_set_clock rtc vfd)
  else if (strcmp cmd (cstr "text") =? 0) || (strcmp cmd (cstr "txt") =? 0) then
    let vfd := vfd_reset_cursor vfd true in
    let vfd := upd_mode vfd DRIVER_MODE_TEXT in
    (count, vfd_set_text vfd SHUTTLE_VFD_WIDTH)
  else (- EINVAL, vfd).

(** [set_vfd_text_style_handler] (shuttle_vfd.c:442-467). *)
Definition set_vfd_text_style_handler (vfd : shuttle_vfd) (buf : list Z)
  : Z * shuttle_vfd :=
  let count := Z.of_nat (length buf) in
  let '(ret, cmd) := sscanf_5s buf in
  if negb (ret =? 1) then (- EINVAL, vfd)
  else if (strcmp cmd (cstr "left") =? 0) || (strcmp cmd (cstr "l") =? 0) then
    (count, upd_text_style vfd DRIVER_STYLE_TEXT_ALIGN_LEFT)
  else if (strcmp cmd (cstr "right") =? 0) || (strcmp cmd (cstr "r") =? 0) then
    (count, upd_text_style vfd DRIVER_STYLE_TEXT_ALIGN_RIGHT)
  else if (strcmp cmd (cstr "center") =? 0) || (strcmp cmd (cstr "c") =? 0) then
    (count, upd_text_style vfd DRIVER_STYLE_TEXT_ALIGN_CENTER)
  else (- EINVAL, vfd).

(** What a read handler leaves: the bytes written to [buf] and returned as
    its size, or the index of a read outside [buf]. *)
Inductive show_result : Type :=
| Shown (out : list Z)
| ReadOutside (index : Z).

(** The trimming loop of [get_vfd_text_handler] (shuttle_vfd.c:481-482):
    [buf[sz-1]] is read at every test; with [sz = 0] that is [buf[-1]]. *)
Fixpoint get_text_trim (buf : list Z) (sz : nat) : option nat :=
  match sz with
  | O => None
  | S k =>
      let c := nth k buf 0 in
      if (c =? 0) || (c =? 10) then get_text_trim buf k else Some sz
  end.

(** [get_vfd_text_handler] (shuttle_vfd.c:471-486). *)
Definition get_vfd_text_handler (vfd : shuttle_vfd) : show_result :=
  let buf := firstn SHUTTLE_VFD_WIDTH (screen vfd) in
  match get_text_trim buf SHUTTLE_VFD_WIDTH with
  | None => ReadOutside (-1)
  | Some sz => Shown (firstn sz buf ++ [10])
  end.

(** [sprintf(.., "%ld", v)]. *)
Definition print_ld (v : Z) : list Z := cstr (NilZero.string_of_int (Z.to_int v)).

(** The loop of [get_vfd_icons_handler] (shuttle_vfd.c:498-503). *)
Fixpoint get_icons_loop (tbl : list vfd_icons) (mask : Z) (out : list Z) : list Z :=
  match tbl with
  | [] => out
  | ic :: tbl' =>
      let out :=
        if negb (Z.land (value ic) mask =? 0)
        then out ++ match altname ic with
                    | None => name ic
                    | Some alt => alt
                    end ++ cstr " "
        else out in
      get_icons_loop tbl' mask out
  end.

(** [get_vfd_icons_handler] (shuttle_vfd.c:490-513): the bytes printed. *)
Definition get_vfd_icons_handler (vfd : shuttle_vfd) : list Z :=
  let out := get_icons_loop (firstn (length icons - 3) icons) (icons_mask vfd) [] in
  let out :=
    if SHUTTLE_VFD_ICON_VOL_01 <=? icons_mask vfd
    then out ++ cstr "vol" ++ print_ld (Z.land (Z.shiftr (icons_mask vfd) 15) 0xF)
    else out in
  let out := if (length out =? 0)%nat then cstr "none" else out in
  out ++ [10].

(** [shuttle_vfd_probe] (shuttle_vfd.c:562-605) on its successful path:
    the zeroed structure, its initial fields, the full reset and the
    optional greeting. *)
Definition SHUTTLE_VFD_GREETING_MSG : list Z := cstr "Linux".

Definition shuttle_vfd_probe (initial_greeting_msg : bool) : shuttle_vfd :=
  let dev := mk_shuttle_vfd (mk_usb_device [] []) 0 0 0
               (repeat 0 SHUTTLE_VFD_PACKET_SIZE) (repeat 0 SHUTTLE_VFD_WIDTH) in
  let dev := upd_icons_mask dev 0 in
  let dev := upd_mode dev DRIVER_MODE_TEXT in
  let dev := upd_text_style dev DRIVER_STYLE_TEXT_ALIGN_CENTER in
  let dev := vfd_reset_cursor dev true in
  if initial_greeting_msg then
    let dev := upd_screen dev (memset (screen dev) 0 0x20 SHUTTLE_VFD_WIDTH) in
    let dev := upd_screen dev
                 (memcpy (screen dev)
                    ((SHUTTLE_VFD_WIDTH - length SHUTTLE_VFD_GREETING_MSG) / 2)
                    SHUTTLE_VFD_GREETING_MSG (length SHUTTLE_VFD_GREETING_MSG)) in
    vfd_set_text dev SHUTTLE_VFD_WIDTH
  else dev.

End Driver.

(** [rtc_valid_tm] as the kernel's rtc-lib has it, for the concrete runs. *)
Definition is_leap_year (year : Z) : bool :=
  (Z.rem year 4 =? 0) && (negb (Z.rem year 100 =? 0) || (Z.rem year 400 =? 0)).

Definition rtc_month_days (month year : Z) : Z :=
  nth (Z.to_nat month) [31; 28; 31; 30; 31; 30; 31; 31; 30; 31; 30; 31] 0
  + (if is_leap_year year && (month =? 1) then 1 else 0).

Definition linux_rtc_valid_tm (tm : rtc_time) : Z :=
  if (tm_year tm <? 70)
     || negb ((0 <=? tm_mon tm) && (tm_mon tm <? 12))
     || (tm_mday tm <? 1)
     || (rtc_month_days (tm_mon tm) (tm_year tm + 1900) <? tm_mday tm)
     || negb ((0 <=? tm_hour tm) && (tm_hour tm <? 24))
     || negb ((0 <=? tm_min tm) && (tm_min tm <? 60))
     || negb ((0 <=? tm_sec tm) && (tm_sec tm <? 60))
  then - EINVAL
  else 0.

(** ** Vocabulary of the specification *)

(** Command and length nibbles of a packet. *)
Definition pkt_cmd (p : list Z) : Z := Z.shiftr (nth 0 p 0) 4.
Definition pkt_len (p : list Z) : Z := Z.land (nth 0 p 0) 0xF.

(** The seven payload bytes of a packet. *)
Definition pkt_payload (p : list Z) : list Z := firstn 7 (skipn 1 p).

(** Volume sub-field (bits 15-18) and base bits (bits 0-14) of a mask. *)
Definition vol_field (m : Z) : Z := Z.land (Z.shiftr m 15) 0xF.
Definition base_bits (m : Z) : Z := Z.land m SHUTTLE_VFD_BASE_MASK.

(** The packets a handler added to the control pipe. *)
Definition sent_since (before after : shuttle_vfd) (ps : list (list Z)) : Prop :=
  ctrl_out (udev after) = ctrl_out (udev before) ++ ps.

(** A device right after [shuttle_vfd_probe], switched to left alignment. *)
Definition left_device : shuttle_vfd :=
  snd (set_vfd_text_style_handler (shuttle_vfd_probe false) (cstr "left")).

(** A reading that [rtc_valid_tm] refuses: 75 seconds. *)
Definition tm_75_seconds : rtc_time := mk_rtc_time 75 30 9 1 0 109 4 0 0.

(** A reading at the limits of [int]: the month is [INT_MAX] and the year
    [INT_MIN], so that [tm_mon + 1] and [tm_year - 100] both wrap. *)
Definition tm_int_limits : rtc_time := mk_rtc_time 0 0 0 1 INT_MAX INT_MIN 0 0 0.

(** What [vfd_set_clock] encodes: the zeroed structure without a device,
    the reading otherwise. *)
Definition clock_reading (rtc : rtc_source) : rtc_time :=
  match rtc with
  | RtcAbsent => rtc_time_zero
  | RtcDevice _ tm => tm
  end.

(** The tokens of an icon request as the specification splits it: the
    maximal runs of bytes other than the comma, the space and the newline,
    empty runs dropped, read up to the first NUL.  [cur] is the run being
    read.  [icons_scan_mask_tokens] relates the scanning loop to it. *)
Fixpoint icon_tokens_from (cur rest : list Z) : list (list Z) :=
  match rest with
  | [] => match cur with [] => [] | _ => [cur] end
  | c :: rest' =>
      if c =? 0 then match cur with [] => [] | _ => [cur] end
      else if is_separator c then
        match cur with
        | [] => icon_tokens_from [] rest'
        | _ => cur :: icon_tokens_from [] rest'
        end
      else icon_tokens_from (cur ++ [c]) rest'
  end.

Definition icon_tokens (buf : list Z) : list (list Z) := icon_tokens_from [] buf.

(** Catalog lookup of one token: [vfd_parse_icons] on exactly its bytes. *)
Definition lookup (t : list Z) : option Z :=
  let '(ret, val) := vfd_parse_icons t (length t) in
  if ret =? 0 then Some val else None.

(** The OR of the values of the tokens that resolve. *)
Definition resolved_mask (toks : list (list Z)) : Z :=
  fold_left (fun m t => match lookup t with Some v => Z.lor m v | None => m end)
            toks 0.

(** The tokens that do not resolve, in order. *)
Definition unknown_tokens (toks : list (list Z)) : list (list Z) :=
  filter (fun t => match lookup t with Some _ => false | None => true end) toks.

(** The device after one "unknown icon" line per token of [ts]. *)
Definition log_unknown (vfd : shuttle_vfd) (ts : list (list Z)) : shuttle_vfd :=
  upd_udev vfd
    (mk_usb_device (ctrl_out (udev vfd))
       (dev_log (udev vfd) ++ map (fun t => ErrUnknownIcon (length t)) ts)).

(** The end of the scan (shuttle_vfd.c:378-384): the token still open when
    the loop stops. *)
Definition scan_finish (buf : list Z) (st : icons_scan) : Z * shuttle_vfd :=
  if (0 <? sc_l st)%nat
  then scan_token buf (sc_p st) (sc_l st) (sc_mask st) (sc_vfd st)
  else (sc_mask st, sc_vfd st).

(** One token folded into the pair of the mask and the device. *)
Definition resolve_token (acc : Z * shuttle_vfd) (t : list Z) : Z * shuttle_vfd :=
  scan_token t 0 (length t) (fst acc) (snd acc).

(** The values a lookup can give: a catalog value or a volume level. *)
Definition icon_value (v : Z) : Prop :=
  In v (map value icons) \/ exists d : Z, 1 <= d <= 12 /\ v = Z.shiftl d 15.

(** [get_vfd_mode_handler] (shuttle_vfd.c:517-529): [modes] has two
    entries and is indexed by [vfd->mode] without a test. *)
Definition get_vfd_mode_handler (vfd : shuttle_vfd) : show_result :=
  let modes := [cstr "text"; cstr "clock"] in
  if (0 <=? mode vfd) && (mode vfd <? Z.of_nat (length modes))
  then Shown (nth (Z.to_nat (mode vfd)) modes [] ++ [10])
  else ReadOutside (mode vfd).

(** [get_vfd_text_style_handler] (shuttle_vfd.c:533-546): three entries,
    indexed by [vfd->text_style]. *)
Definition get_vfd_text_style_handler (vfd : shuttle_vfd) : show_result :=
  let modes := [cstr "left"; cstr "right"; cstr "center"] in
  if (0 <=? text_style vfd) && (text_style vfd <? Z.of_nat (length modes))
  then Shown (nth (Z.to_nat (text_style vfd)) modes [] ++ [10])
  else ReadOutside (text_style vfd).

(** A byte that the trimming loop of [get_vfd_text_handler] steps over. *)
Definition trimmed_byte (c : Z) : Prop := c = 0 \/ c = 10.

(** The wire format of the header comment (shuttle_vfd.c:11-19): eight
    bytes, a command nibble with its length nibble, and zero bytes after
    the declared length. *)
Definition valid_packet (p : list Z) : Prop :=
  length p = SHUTTLE_VFD_PACKET_SIZE /\
  In (pkt_cmd p, pkt_len p) [(0x1, 1); (0x3, 1); (0x7, 4); (0x9, 7); (0x9, 6); (0xD, 7)] /\
  forall k : nat, pkt_len p < Z.of_nat k <= 7 -> nth k p 0 = 0.

(** The mask read back from the four 5-bit fields of an icons packet. *)
Definition icons_of_packet (p : list Z) : Z :=
  Z.lor (Z.shiftl (nth 1 p 0) 15)
    (Z.lor (Z.shiftl (nth 2 p 0) 10)
       (Z.lor (Z.shiftl (nth 3 p 0) 5) (nth 4 p 0))).

(** The decimal value of a byte written by [DEC_AS_HEX]. *)
Definition hex_as_dec (b : Z) : Z := Z.shiftr b 4 * 10 + Z.land b 0xF.

(** The values [mode] and [text_style] are meant to take. *)
Definition fields_in_range (vfd : shuttle_vfd) : Prop :=
  (mode vfd = DRIVER_MODE_TEXT \/ mode vfd = DRIVER_MODE_CLOCK) /\
  (text_style vfd = DRIVER_STYLE_TEXT_ALIGN_LEFT \/
   text_style vfd = DRIVER_STYLE_TEXT_ALIGN_RIGHT \/
   text_style vfd = DRIVER_STYLE_TEXT_ALIGN_CENTER).

(** The name [get_vfd_icons_handler] prints for an entry, and the entries
    it prints for a mask. *)
Definition icon_display (ic : vfd_icons) : list Z :=
  match altname ic with
  | None => name ic
  | Some alt => alt
  end.

Definition shown_icons (mask : Z) : list vfd_icons :=
  filter (fun ic => negb (Z.land (value ic) mask =? 0))
         (firstn (length icons - 3) icons).

(** A byte that can stand inside an icon token. *)
Definition token_byte (c : Z) : bool := negb (c =? 0) && negb (is_separator c).

(** ** Tactics *)

(** Replaces a list of known length by its elements. *)
Ltac explode l H :=
  repeat (destruct l as [|? l]; simpl in H; try discriminate H).

(** Decides the tests on a scanned command that is known. *)
Ltac decide_tests :=
  repeat match goal with
         | |- context [if ?c then _ else _] =>
             first [change c with true | change c with false]; cbv iota
         end.

(** Proves [valid_packet] of a packet given by its eight elements, the
    first one a constant. *)
Ltac solve_valid_packet :=
  unfold valid_packet, pkt_cmd, pkt_len; cbn [nth];
  split; [reflexivity|];
  split; [cbn; repeat (first [left; reflexivity | right])|];
  match goal with
  | |- context [Z.land ?a ?b] =>
      let v := eval vm_compute in (Z.land a b) in change (Z.land a b) with v
  end;
  intros k Hk;
  do 8 (destruct k as [|k]; [cbn [nth]; first [reflexivity | lia]|]); lia.

(** * Properties *)

(** ** Lists and memory *)

Lemma skipn_repeat (A : Type) (x : A) (n m : nat) :
  skipn n (repeat x m) = repeat x (m - n).
Proof.
  revert m; induction n as [|n IH]; intros [|m]; simpl; auto.
Qed.

Lemma firstn_repeat (A : Type) (x : A) (n m : nat) :
  firstn n (repeat x m) = repeat x (Nat.min n m).
Proof.
  revert m; induction n as [|n IH]; intros [|m]; simpl; auto.
  now rewrite IH.
Qed.

Lemma memset_whole (a : list Z) (c : Z) (n : nat) :
  length a = n -> memset a 0 c n = repeat c n.
Proof.
  intros H. unfold memset. simpl.
  rewrite skipn_all2 by lia. now rewrite app_nil_r.
Qed.

Lemma memset_length (a : list Z) (off : nat) (c : Z) (n : nat) :
  (off + n <= length a)%nat -> length (memset a off c n) = length a.
Proof.
  intros H. unfold memset.
  rewrite !length_app, repeat_length, length_skipn, length_firstn. lia.
Qed.

Lemma store_length (a : list Z) (k : nat) (v : Z) :
  (k < length a)%nat -> length (store a k v) = length a.
Proof.
  intros H. unfold store.
  rewrite !length_app, length_skipn, length_firstn. simpl. lia.
Qed.

(** ** Frame lemmas of the packet builders *)

Lemma vfd_set_text_loop_frame (n : nat) (p : list Z) (vfd : shuttle_vfd) :
  let vfd' := snd (vfd_set_text_loop n p vfd) in
  screen vfd' = screen vfd /\ icons_mask vfd' = icons_mask vfd /\
  mode vfd' = mode vfd /\ text_style vfd' = text_style vfd /\
  dev_log (udev vfd') = dev_log (udev vfd).
Proof.
  revert p vfd; induction n as [|n IH]; intros p vfd; simpl; auto.
  destruct (IH (skipn SHUTTLE_VFD_DATA_SIZE p)
               (vfd_send_packet
                  (upd_packet
                     (upd_packet vfd
                        (store (packet vfd) 0
                           (Z.shiftl 9 4 + Z.of_nat SHUTTLE_VFD_DATA_SIZE)))
                     (memcpy
                        (packet
                           (upd_packet vfd
                              (store (packet vfd) 0
                                 (Z.shiftl 9 4 + Z.of_nat SHUTTLE_VFD_DATA_SIZE))))
                        1 p SHUTTLE_VFD_DATA_SIZE))))
    as (H1 & H2 & H3 & H4 & H5).
  simpl in *. auto.
Qed.

Lemma vfd_set_text_frame (vfd : shuttle_vfd) (len : nat) :
  let vfd' := vfd_set_text vfd len in
  screen vfd' = screen vfd /\ icons_mask vfd' = icons_mask vfd /\
  mode vfd' = mode vfd /\ text_style vfd' = text_style vfd /\
  dev_log (udev vfd') = dev_log (udev vfd).
Proof.
  unfold vfd_set_text.
  pose proof (vfd_set_text_loop_frame (len / SHUTTLE_VFD_DATA_SIZE) (screen vfd) vfd) as H.
  destruct (vfd_set_text_loop (len / SHUTTLE_VFD_DATA_SIZE) (screen vfd) vfd) as [p v].
  simpl in H.
  destruct (negb (len mod SHUTTLE_VFD_DATA_SIZE =? 0)%nat); simpl; auto.
Qed.

Lemma vfd_reset_cursor_frame (vfd : shuttle_vfd) (eraseall : bool) :
  let vfd' := vfd_reset_cursor vfd eraseall in
  screen vfd' = screen vfd /\ icons_mask vfd' = icons_mask vfd /\
  mode vfd' = mode vfd /\ text_style vfd' = text_style vfd /\
  dev_log (udev vfd') = dev_log (udev vfd).
Proof. destruct eraseall; simpl; auto. Qed.

Lemma vfd_set_clock_frame (valid : rtc_time -> Z) (rtc : rtc_source) (vfd : shuttle_vfd) :
  let vfd' := vfd_set_clock valid rtc vfd in
  screen vfd' = screen vfd /\ icons_mask vfd' = icons_mask vfd /\
  mode vfd' = mode vfd /\ text_style vfd' = text_style vfd.
Proof.
  unfold vfd_set_clock.
  destruct rtc as [|err tm]; [|destruct ((err =? 0) && negb (valid tm =? 0))];
    simpl; auto.
Qed.

(** ** Packets *)

Lemma memcpy_length (dst : list Z) (off : nat) (src : list Z) (n : nat) :
  (off + n <= length dst)%nat -> (n <= length src)%nat ->
  length (memcpy dst off src n) = length dst.
Proof.
  intros H1 H2. unfold memcpy.
  rewrite !length_app, length_skipn, !length_firstn. lia.
Qed.

(** The declared array sizes are an invariant of the driver:
    [shuttle_vfd_probe] establishes them and every packet builder and
    write handler keeps them. *)
Lemma wf_vfd_probe (g : bool) : wf_vfd (shuttle_vfd_probe g).
Proof. destruct g; split; reflexivity. Qed.

Lemma wf_left_device : wf_vfd left_device.
Proof. split; reflexivity. Qed.

Lemma wf_packet_builders
  (valid : rtc_time -> Z) (rtc : rtc_source) (eraseall : bool) (vfd : shuttle_vfd) :
  wf_vfd vfd ->
  wf_vfd (vfd_reset_cursor vfd eraseall) /\
  wf_vfd (vfd_set_text vfd SHUTTLE_VFD_WIDTH) /\
  wf_vfd (vfd_set_icons vfd) /\
  wf_vfd (vfd_set_clock valid rtc vfd).
Proof.
  intros [Hp Hs]. destruct vfd as [u im md ts pk sc]; simpl in Hp, Hs.
  unfold SHUTTLE_VFD_PACKET_SIZE in Hp. unfold SHUTTLE_VFD_WIDTH in Hs.
  explode pk Hp. explode sc Hs.
  split; [|split; [|split]].
  - destruct eraseall; split; reflexivity.
  - unfold wf_vfd, vfd_set_text. simpl. split; reflexivity.
  - split; reflexivity.
  - unfold vfd_set_clock.
    destruct rtc as [|err tm]; [|destruct ((err =? 0) && negb (valid tm =? 0))];
      unfold wf_vfd; simpl; split; reflexivity.
Qed.

Lemma wf_set_vfd_text_handler (vfd : shuttle_vfd) (buf : list Z) :
  wf_vfd vfd -> wf_vfd (set_vfd_text_handler vfd buf).
Proof.
  intros [Hp Hs]. unfold set_vfd_text_handler. cbv zeta.
  set (vfd0 := if (length buf <? SHUTTLE_VFD_WIDTH)%nat
               then upd_screen vfd (memset (screen vfd) 0 0 SHUTTLE_VFD_WIDTH)
               else vfd).
  assert (H0 : wf_vfd vfd0).
  { subst vfd0. destruct (length buf <? SHUTTLE_VFD_WIDTH)%nat; split; try assumption.
    unfold upd_screen. cbn [screen].
    rewrite memset_whole by exact Hs. apply repeat_length. }
  destruct H0 as [Hp0 Hs0].
  assert (Hl : (Nat.min (length buf) SHUTTLE_VFD_WIDTH <= length buf)%nat) by lia.
  assert (Hw : (Nat.min (length buf) SHUTTLE_VFD_WIDTH <= SHUTTLE_VFD_WIDTH)%nat) by lia.
  set (l := Nat.min (length buf) SHUTTLE_VFD_WIDTH) in *.
  match goal with |- wf_vfd (if mode ?v =? _ then _ else _) => set (vfd1 := v) end.
  assert (H1 : wf_vfd vfd1).
  { subst vfd1.
    destruct (text_style vfd0 =? DRIVER_STYLE_TEXT_ALIGN_RIGHT);
      [|destruct (text_style vfd0 =? DRIVER_STYLE_TEXT_ALIGN_CENTER)];
      (split; [exact Hp0|]); unfold upd_screen; cbn [screen].
    - assert (Hm : length (memset (screen vfd0) 0 32 (SHUTTLE_VFD_WIDTH - l))
                   = SHUTTLE_VFD_WIDTH) by (rewrite memset_length; lia).
      rewrite memcpy_length; rewrite ?Hm; lia.
    - assert (Hm : length (memset (screen vfd0) 0 32 SHUTTLE_VFD_WIDTH)
                   = SHUTTLE_VFD_WIDTH) by (rewrite memset_length; lia).
      assert ((SHUTTLE_VFD_WIDTH - l) / 2 <= SHUTTLE_VFD_WIDTH - l)%nat
        by (apply Nat.Div0.div_le_upper_bound; lia).
      rewrite memcpy_length; rewrite ?Hm; lia.
    - rewrite memcpy_length; lia. }
  destruct (mode vfd1 =? DRIVER_MODE_TEXT); [|exact H1].
  destruct (wf_packet_builders (fun _ => 0) RtcAbsent false vfd1 H1) as (Hr & _).
  destruct (wf_packet_builders (fun _ => 0) RtcAbsent false _ Hr) as (_ & Ht & _).
  exact Ht.
Qed.

Lemma wf_set_vfd_icons_handler (vfd : shuttle_vfd) (buf : list Z) :
  wf_vfd vfd -> wf_vfd (set_vfd_icons_handler vfd buf).
Proof.
  intros Hwf. unfold set_vfd_icons_handler.
  assert (Hscan : wf_vfd (snd (icons_scan_mask vfd buf))).
  { unfold icons_scan_mask. cbv zeta.
    set (st0 := mk_icons_scan 0 0 0 0 vfd).
    assert (Hst : forall fuel st, wf_vfd (sc_vfd st) ->
                    wf_vfd (sc_vfd (icons_scan_loop fuel buf (length buf) st))).
    { induction fuel as [|fuel IH]; intros st Hst; cbn [icons_scan_loop]; [exact Hst|].
      destruct (icons_scan_guard buf (length buf) st); [|exact Hst].
      apply IH. unfold icons_scan_body.
      destruct (is_separator _); [destruct (0 <? sc_l st)%nat|]; try exact Hst.
      unfold scan_token. destruct (vfd_parse_icons _ _) as [ret tmp].
      destruct (ret =? 0); exact Hst. }
    specialize (Hst (length buf) st0 Hwf).
    destruct (0 <? sc_l _)%nat; [|exact Hst].
    unfold scan_token. destruct (vfd_parse_icons _ _) as [ret tmp].
    destruct (ret =? 0); exact Hst. }
  destruct (icons_scan_mask vfd buf) as [mask v]. cbn [snd] in Hscan.
  assert (Hupd : wf_vfd (upd_icons_mask v (icons_merge (icons_mask v) mask)))
    by exact Hscan.
  destruct (wf_packet_builders (fun _ => 0) RtcAbsent false _ Hupd) as (_ & _ & Hi & _).
  exact Hi.
Qed.

Lemma wf_set_vfd_mode_handler
  (valid : rtc_time -> Z) (rtc : rtc_source) (vfd : shuttle_vfd) (buf : list Z) :
  wf_vfd vfd -> wf_vfd (snd (set_vfd_mode_handler valid rtc vfd buf)).
Proof.
  intros Hwf. unfold set_vfd_mode_handler.
  destruct (sscanf_5s buf) as [ret cmd].
  destruct (negb (ret =? 1)); [exact Hwf|].
  destruct (wf_packet_builders valid rtc true vfd Hwf) as (Hreset & _).
  destruct ((strcmp cmd (cstr "clock") =? 0) || (strcmp cmd (cstr "clk") =? 0)).
  - cbn [snd].
    assert (Hupd : wf_vfd (upd_mode (vfd_reset_cursor vfd true) DRIVER_MODE_CLOCK))
      by exact Hreset.
    destruct (wf_packet_builders valid rtc true _ Hupd) as (_ & _ & _ & Hc).
    exact Hc.
  - destruct ((strcmp cmd (cstr "text") =? 0) || (strcmp cmd (cstr "txt") =? 0));
      [|exact Hwf].
    cbn [snd].
    assert (Hupd : wf_vfd (upd_mode (vfd_reset_cursor vfd true) DRIVER_MODE_TEXT))
      by exact Hreset.
    destruct (wf_packet_builders valid rtc true _ Hupd) as (_ & Ht & _).
    exact Ht.
Qed.

(** The three packets of a full screen. *)
Lemma vfd_set_text_full (vfd : shuttle_vfd) :
  wf_vfd vfd ->
  sent_since vfd (vfd_set_text vfd SHUTTLE_VFD_WIDTH)
    [ 0x97 :: firstn 7 (screen vfd);
      0x97 :: firstn 7 (skipn 7 (screen vfd));
      0x96 :: skipn 14 (screen vfd) ++ [0] ].
Proof.
  intros [Hp Hs]. unfold sent_since.
  destruct vfd as [u im md ts pk sc]; simpl in *.
  unfold SHUTTLE_VFD_PACKET_SIZE in Hp. unfold SHUTTLE_VFD_WIDTH in Hs.
  explode pk Hp. explode sc Hs.
  unfold vfd_set_text. simpl. rewrite <- !app_assoc. reflexivity.
Qed.

(** C6. Encoding the full 20-byte screen as text produces exactly three
    command-0x9 packets of eight bytes, the first two with length nibble 7
    and the third with length nibble 6; they carry the screen's bytes
    0-6, 7-13 and 14-19, and every payload byte beyond the declared length
    is zero. *)
Theorem encode_text_full_screen (vfd : shuttle_vfd) :
  wf_vfd vfd ->
  exists p1 p2 p3 : list Z,
    sent_since vfd (vfd_set_text vfd SHUTTLE_VFD_WIDTH) [p1; p2; p3] /\
    Forall (fun p => length p = SHUTTLE_VFD_PACKET_SIZE /\ pkt_cmd p = 0x9) [p1; p2; p3] /\
    pkt_len p1 = 7 /\ pkt_len p2 = 7 /\ pkt_len p3 = 6 /\
    pkt_payload p1 ++ pkt_payload p2 ++ firstn 6 (pkt_payload p3) = screen vfd /\
    Forall (fun p => forall k : nat,
                pkt_len p < Z.of_nat k <= 7 -> nth k p 0 = 0) [p1; p2; p3].
Proof.
  intros Hwf. pose proof (vfd_set_text_full vfd Hwf) as Hsent.
  destruct Hwf as [Hp Hs].
  unfold SHUTTLE_VFD_WIDTH in Hs.
  remember (screen vfd) as sc eqn:Hsc.
  explode sc Hs.
  eexists _, _, _. split; [exact Hsent|].
  simpl. repeat split.
  - repeat constructor.
  - repeat constructor; unfold pkt_len; simpl; intros k Hk;
      do 8 (destruct k as [|k]; [simpl; lia|]); lia.
Qed.

Lemma encode_text_full_screen_witness :
  wf_vfd (shuttle_vfd_probe true) /\
  exists p1 p2 p3 : list Z,
    sent_since (shuttle_vfd_probe true)
      (vfd_set_text (shuttle_vfd_probe true) SHUTTLE_VFD_WIDTH) [p1; p2; p3] /\
    Forall (fun p => length p = SHUTTLE_VFD_PACKET_SIZE /\ pkt_cmd p = 0x9) [p1; p2; p3] /\
    pkt_len p1 = 7 /\ pkt_len p2 = 7 /\ pkt_len p3 = 6 /\
    pkt_payload p1 ++ pkt_payload p2 ++ firstn 6 (pkt_payload p3)
      = screen (shuttle_vfd_probe true) /\
    Forall (fun p => forall k : nat,
                pkt_len p < Z.of_nat k <= 7 -> nth k p 0 = 0) [p1; p2; p3].
Proof.
  split.
  - split; reflexivity.
  - apply (encode_text_full_screen (shuttle_vfd_probe true)). split; reflexivity.
Defined.

(** ** The clock *)

(** C1, as stated, fails: without an RTC device the 0xD packet carries
    month byte 1 and year byte 0x60, and with a device whose reading is
    invalid it carries that reading; in neither run are the seven payload
    bytes all zero. *)
Lemma clock_payload_not_all_zero :
  pkt_payload (nth 1 (ctrl_out (udev (vfd_set_clock linux_rtc_valid_tm RtcAbsent
                                        (shuttle_vfd_probe false)))) [])
    = [0; 0; 0; 0; 0; 1; 0x60] /\
  ~ (exists p q : list Z,
        sent_since (shuttle_vfd_probe false)
          (vfd_set_clock linux_rtc_valid_tm RtcAbsent (shuttle_vfd_probe false))
          [p; q] /\
        pkt_cmd p = 0xD /\ pkt_payload p = repeat 0 7) /\
  linux_rtc_valid_tm tm_75_seconds <> 0 /\
  ~ (exists p q : list Z,
        sent_since (shuttle_vfd_probe false)
          (vfd_set_clock linux_rtc_valid_tm (RtcDevice 0 tm_75_seconds)
             (shuttle_vfd_probe false))
          [p; q] /\
        pkt_cmd p = 0xD /\ pkt_payload p = repeat 0 7).
Proof.
  split; [reflexivity|]. split; [|split].
  - intros (p & q & Hsent & _ & Hzero).
    unfold sent_since in Hsent. vm_compute in Hsent.
    injection Hsent as <- <-. discriminate Hzero.
  - discriminate.
  - intros (p & q & Hsent & _ & Hzero).
    unfold sent_since in Hsent. vm_compute in Hsent.
    injection Hsent as <- <-. discriminate Hzero.
Qed.

(** C1, amended.  Whatever the RTC answers, the clock-set operation
    completes: the 0xD packet of length 7 goes out, followed by the 0x3
    packet.  The 0xD payload is the encoding of the time structure, with
    the month taken as tm_mon + 1 and the year as tm_year - 100 in wrapping
    [int] arithmetic, each byte truncated.  With no RTC device that
    structure is all zero, which gives seconds, minutes, hours, weekday and
    day-of-month bytes 0, month byte 1 and year byte 0x60, and the line
    "can't get rtc time" is logged.  With a device the payload encodes the
    reading, valid or not: a reading obtained without error that
    [rtc_valid_tm] refuses adds the line "invalid rtc time" and nothing
    else; any other reading logs nothing. *)
Theorem vfd_set_clock_degraded
  (valid : rtc_time -> Z) (rtc : rtc_source) (vfd : shuttle_vfd) :
  wf_vfd vfd ->
  rtc_time_ints (clock_reading rtc) ->
  let vfd' := vfd_set_clock valid rtc vfd in
  (exists p : list Z,
      sent_since vfd vfd' [p; [0x31; 3; 0; 0; 0; 0; 0; 0]] /\
      length p = SHUTTLE_VFD_PACKET_SIZE /\ pkt_cmd p = 0xD /\ pkt_len p = 7 /\
      pkt_payload p =
        map (fun v => v mod 256)
          [ DEC_AS_HEX (tm_sec (clock_reading rtc));
            DEC_AS_HEX (tm_min (clock_reading rtc));
            DEC_AS_HEX (tm_hour (clock_reading rtc));
            tm_wday (clock_reading rtc);
            DEC_AS_HEX (tm_mday (clock_reading rtc));
            DEC_AS_HEX (int_add (tm_mon (clock_reading rtc)) 1);
            DEC_AS_HEX (int_sub (tm_year (clock_reading rtc)) 100) ] /\
      (rtc = RtcAbsent -> pkt_payload p = [0; 0; 0; 0; 0; 1; 0x60])) /\
  (rtc = RtcAbsent ->
   dev_log (udev vfd') = dev_log (udev vfd) ++ [ErrNoRtc]) /\
  (forall tm : rtc_time,
      rtc = RtcDevice 0 tm -> valid tm <> 0 ->
      dev_log (udev vfd') = dev_log (udev vfd) ++ [ErrInvalidRtc]) /\
  (forall (err : Z) (tm : rtc_time),
      rtc = RtcDevice err tm -> err <> 0 \/ valid tm = 0 ->
      dev_log (udev vfd') = dev_log (udev vfd)) /\
  icons_mask vfd' = icons_mask vfd /\ mode vfd' = mode vfd /\
  text_style vfd' = text_style vfd /\ screen vfd' = screen vfd.
Proof.
  intros [Hp _] _ vfd'.
  split; [|split; [|split; [|split]]].
  - subst vfd'.
    destruct vfd as [u im md ts pk sc]; simpl in Hp.
    unfold SHUTTLE_VFD_PACKET_SIZE in Hp. explode pk Hp.
    unfold vfd_set_clock, sent_since.
    destruct rtc as [|err tm]; [|destruct ((err =? 0) && negb (valid tm =? 0))];
      cbn -[DEC_AS_HEX int_add int_sub Z.modulo Z.shiftr Z.land];
      eexists; (split; [rewrite <- app_assoc; reflexivity|]);
      repeat split; try reflexivity; try discriminate.
  - intros ->. reflexivity.
  - intros tm -> Hbad. subst vfd'. unfold vfd_set_clock.
    rewrite (proj2 (Z.eqb_neq _ _) Hbad). reflexivity.
  - intros err tm -> Hok. subst vfd'. unfold vfd_set_clock.
    assert (Hc : (err =? 0) && negb (valid tm =? 0) = false).
    { destruct Hok as [He|Hv].
      - now rewrite (proj2 (Z.eqb_neq _ _) He).
      - rewrite Hv. apply andb_false_r. }
    rewrite Hc. reflexivity.
  - subst vfd'. unfold vfd_set_clock.
    destruct rtc as [|err tm]; [|destruct ((err =? 0) && negb (valid tm =? 0))];
      repeat split.
Qed.

Lemma vfd_set_clock_degraded_witness :
  let vfd := shuttle_vfd_probe false in
  let absent := vfd_set_clock linux_rtc_valid_tm RtcAbsent vfd in
  let invalid := vfd_set_clock linux_rtc_valid_tm (RtcDevice 0 tm_75_seconds) vfd in
  let limits := vfd_set_clock linux_rtc_valid_tm (RtcDevice 0 tm_int_limits) vfd in
  wf_vfd vfd /\
  rtc_time_ints tm_75_seconds /\ rtc_time_ints tm_int_limits /\
  linux_rtc_valid_tm tm_75_seconds <> 0 /\
  (exists p : list Z,
      sent_since vfd absent [p; [0x31; 3; 0; 0; 0; 0; 0; 0]] /\
      pkt_payload p = [0; 0; 0; 0; 0; 1; 0x60]) /\
  dev_log (udev absent) = [ErrNoRtc] /\
  (exists p : list Z,
      sent_since vfd invalid [p; [0x31; 3; 0; 0; 0; 0; 0; 0]] /\
      pkt_payload p = [0x75; 0x30; 0x09; 4; 0x01; 0x01; 0x09]) /\
  dev_log (udev invalid) = [ErrInvalidRtc] /\
  (exists p : list Z,
      sent_since vfd limits [p; [0x31; 3; 0; 0; 0; 0; 0; 0]] /\
      pkt_payload p = [0; 0; 0; 0; 1; 56; 40]).
Proof.
  intros vfd absent invalid limits.
  assert (Hwf : wf_vfd vfd) by (split; reflexivity).
  assert (H0 : rtc_time_ints rtc_time_zero)
    by (repeat split; vm_compute; discriminate).
  assert (H75 : rtc_time_ints tm_75_seconds)
    by (repeat split; vm_compute; discriminate).
  assert (Hlim : rtc_time_ints tm_int_limits)
    by (repeat split; vm_compute; discriminate).
  assert (Hbad : linux_rtc_valid_tm tm_75_seconds <> 0) by (vm_compute; discriminate).
  destruct (vfd_set_clock_degraded linux_rtc_valid_tm RtcAbsent vfd Hwf H0)
    as ((p & A1 & _ & _ & _ & _ & A2) & A3 & _).
  destruct (vfd_set_clock_degraded linux_rtc_valid_tm (RtcDevice 0 tm_75_seconds)
              vfd Hwf H75)
    as ((q & B1 & _ & _ & _ & B2 & _) & _ & B3 & _).
  destruct (vfd_set_clock_degraded linux_rtc_valid_tm (RtcDevice 0 tm_int_limits)
              vfd Hwf Hlim)
    as ((r & C1 & _ & _ & _ & C2 & _) & _).
  split; [exact Hwf|]. split; [exact H75|]. split; [exact Hlim|].
  split; [exact Hbad|].
  split; [exists p; split; [exact A1 | exact (A2 eq_refl)]|].
  split; [exact (A3 eq_refl)|].
  split; [exists q; split; [exact B1 | rewrite B2; vm_compute; reflexivity]|].
  split; [exact (B3 tm_75_seconds eq_refl Hbad)|].
  exists r. split; [exact C1 | rewrite C2; vm_compute; reflexivity].
Defined.

(** ** Text *)

(** The flush at the end of [set_vfd_text_handler] leaves the screen alone. *)
Lemma screen_after_flush (vfd : shuttle_vfd) :
  screen (if mode vfd =? DRIVER_MODE_TEXT
          then vfd_set_text (vfd_reset_cursor vfd false) SHUTTLE_VFD_WIDTH
          else vfd) = screen vfd.
Proof.
  destruct (mode vfd =? DRIVER_MODE_TEXT); [|reflexivity].
  rewrite (proj1 (vfd_set_text_frame _ _)).
  apply (proj1 (vfd_reset_cursor_frame vfd false)).
Qed.

(** Left alignment of a short input: the input, then NUL bytes. *)
Lemma set_text_left_screen (vfd : shuttle_vfd) (buf : list Z) :
  wf_vfd vfd ->
  text_style vfd = DRIVER_STYLE_TEXT_ALIGN_LEFT ->
  (length buf < SHUTTLE_VFD_WIDTH)%nat ->
  screen (set_vfd_text_handler vfd buf)
    = buf ++ repeat 0 (SHUTTLE_VFD_WIDTH - length buf).
Proof.
  intros [_ Hs] Hstyle Hlen. unfold set_vfd_text_handler.
  rewrite (proj2 (Nat.ltb_lt _ _) Hlen). cbv zeta.
  replace (text_style (upd_screen vfd _)) with (text_style vfd) by reflexivity.
  rewrite Hstyle. change (DRIVER_STYLE_TEXT_ALIGN_LEFT =? DRIVER_STYLE_TEXT_ALIGN_RIGHT) with false.
  change (DRIVER_STYLE_TEXT_ALIGN_LEFT =? DRIVER_STYLE_TEXT_ALIGN_CENTER) with false.
  cbv iota. rewrite screen_after_flush.
  unfold upd_screen at 1. unfold screen at 1.
  unfold upd_screen at 1. unfold screen at 1.
  rewrite memset_whole by exact Hs.
  unfold memcpy. rewrite Nat.min_l by lia.
  rewrite firstn_all, skipn_repeat. reflexivity.
Qed.

(** C3, as stated, fails: with left alignment the input ["A"] leaves NUL
    bytes, not spaces, to its right. *)
Lemma set_text_left_pads_with_nul_not_space :
  text_style left_device = DRIVER_STYLE_TEXT_ALIGN_LEFT /\
  screen (set_vfd_text_handler left_device (cstr "A")) = 65 :: repeat 0 19 /\
  screen (set_vfd_text_handler left_device (cstr "A"))
    <> cstr "A" ++ repeat 0x20 (SHUTTLE_VFD_WIDTH - length (cstr "A")).
Proof.
  split; [reflexivity|]. split; [reflexivity|]. discriminate.
Qed.

(** C3, amended.  For every input shorter than 20 bytes while text_style
    is Left, set_text stores the input left-justified in the 20-byte
    screen buffer with every byte to its right equal to NUL (0x00). *)
Theorem set_text_left_justified (vfd : shuttle_vfd) (buf : list Z) :
  wf_vfd vfd ->
  text_style vfd = DRIVER_STYLE_TEXT_ALIGN_LEFT ->
  (length buf < SHUTTLE_VFD_WIDTH)%nat ->
  let scr := screen (set_vfd_text_handler vfd buf) in
  length scr = SHUTTLE_VFD_WIDTH /\
  firstn (length buf) scr = buf /\
  forall k : nat, (length buf <= k < SHUTTLE_VFD_WIDTH)%nat -> nth k scr 0x20 = 0x00.
Proof.
  intros Hwf Hstyle Hlen scr. subst scr.
  rewrite (set_text_left_screen vfd buf Hwf Hstyle Hlen).
  split; [|split].
  - rewrite length_app, repeat_length. lia.
  - rewrite firstn_app, Nat.sub_diag, firstn_all. simpl. apply app_nil_r.
  - intros k Hk. rewrite app_nth2 by lia.
    apply nth_repeat_lt. lia.
Qed.

Lemma set_text_left_justified_witness :
  let scr := screen (set_vfd_text_handler left_device (cstr "A")) in
  length scr = SHUTTLE_VFD_WIDTH /\
  firstn (length (cstr "A")) scr = cstr "A" /\
  forall k : nat,
    (length (cstr "A") <= k < SHUTTLE_VFD_WIDTH)%nat -> nth k scr 0x20 = 0x00.
Proof.
  apply (set_text_left_justified left_device (cstr "A")).
  - split; reflexivity.
  - reflexivity.
  - vm_compute. lia.
Defined.

(** Centre alignment: spaces, the input, spaces. *)
Lemma set_text_center_screen (vfd : shuttle_vfd) (buf : list Z) :
  wf_vfd vfd ->
  text_style vfd = DRIVER_STYLE_TEXT_ALIGN_CENTER ->
  (length buf <= SHUTTLE_VFD_WIDTH)%nat ->
  screen (set_vfd_text_handler vfd buf)
    = repeat 0x20 ((SHUTTLE_VFD_WIDTH - length buf) / 2) ++ buf
      ++ repeat 0x20 (SHUTTLE_VFD_WIDTH - length buf
                      - (SHUTTLE_VFD_WIDTH - length buf) / 2).
Proof.
  intros [_ Hs] Hstyle Hlen. unfold set_vfd_text_handler. cbv zeta.
  set (vfd0 := if (length buf <? SHUTTLE_VFD_WIDTH)%nat
               then upd_screen vfd (memset (screen vfd) 0 0 SHUTTLE_VFD_WIDTH)
               else vfd).
  assert (Hs0 : length (screen vfd0) = SHUTTLE_VFD_WIDTH).
  { subst vfd0. destruct (length buf <? SHUTTLE_VFD_WIDTH)%nat; [|exact Hs].
    unfold upd_screen. cbn [screen].
    rewrite memset_whole by exact Hs. apply repeat_length. }
  assert (Hst0 : text_style vfd0 = DRIVER_STYLE_TEXT_ALIGN_CENTER).
  { subst vfd0. destruct (length buf <? SHUTTLE_VFD_WIDTH)%nat; exact Hstyle. }
  rewrite Hst0.
  change (DRIVER_STYLE_TEXT_ALIGN_CENTER =? DRIVER_STYLE_TEXT_ALIGN_RIGHT) with false.
  change (DRIVER_STYLE_TEXT_ALIGN_CENTER =? DRIVER_STYLE_TEXT_ALIGN_CENTER) with true.
  cbv iota. rewrite screen_after_flush.
  unfold upd_screen at 1. unfold screen at 1.
  unfold upd_screen at 1. unfold screen at 1.
  rewrite memset_whole by exact Hs0.
  unfold memcpy. rewrite Nat.min_l by lia.
  rewrite firstn_all, skipn_repeat, firstn_repeat.
  assert (Hhalf : ((SHUTTLE_VFD_WIDTH - length buf) / 2
                   <= SHUTTLE_VFD_WIDTH - length buf)%nat).
  { apply Nat.Div0.div_le_upper_bound. lia. }
  rewrite Nat.min_l by lia.
  do 3 f_equal. lia.
Qed.

(** C7. For every input of length 0-20 while text_style is Center,
    set_text leaves the screen exactly 20 bytes: floor((20 - len) / 2)
    spaces, the input, and spaces up to the width; the right pad equals the
    left pad when the total padding is even and exceeds it by one byte when
    it is odd. *)
Theorem set_text_center_padding (vfd : shuttle_vfd) (buf : list Z) :
  wf_vfd vfd ->
  text_style vfd = DRIVER_STYLE_TEXT_ALIGN_CENTER ->
  (length buf <= SHUTTLE_VFD_WIDTH)%nat ->
  let pad := (SHUTTLE_VFD_WIDTH - length buf)%nat in
  let left := (pad / 2)%nat in
  let right := (pad - left)%nat in
  let scr := screen (set_vfd_text_handler vfd buf) in
  scr = repeat 0x20 left ++ buf ++ repeat 0x20 right /\
  length scr = SHUTTLE_VFD_WIDTH /\
  (Nat.even pad = true -> right = left) /\
  (Nat.odd pad = true -> right = S left).
Proof.
  intros Hwf Hstyle Hlen pad left right scr. subst scr.
  rewrite (set_text_center_screen vfd buf Hwf Hstyle Hlen).
  fold pad. fold left. fold right.
  assert (Hdiv : pad = (2 * left + pad mod 2)%nat)
    by (subst left; apply Nat.div_mod_eq).
  assert (Hmod : (pad mod 2 < 2)%nat) by (apply Nat.mod_upper_bound; lia).
  split; [reflexivity|]. split; [|split].
  - rewrite !length_app, !repeat_length. subst right pad. lia.
  - intros He. apply Nat.even_spec in He. destruct He as [h Hh].
    subst right. lia.
  - intros Ho. apply Nat.odd_spec in Ho. destruct Ho as [h Hh].
    subst right. lia.
Qed.

Lemma set_text_center_padding_witness :
  let vfd := shuttle_vfd_probe false in
  let buf := cstr "Linux" in
  let scr := screen (set_vfd_text_handler vfd buf) in
  scr = repeat 0x20 7 ++ buf ++ repeat 0x20 8 /\
  length scr = SHUTTLE_VFD_WIDTH.
Proof.
  intros vfd buf scr.
  destruct (set_text_center_padding vfd buf) as (H1 & H2 & _ & _).
  - split; reflexivity.
  - reflexivity.
  - vm_compute. lia.
  - split; [exact H1 | exact H2].
Defined.

(** The trimming loop runs off the front of the buffer exactly when every
    byte below [sz] is a NUL or a newline. *)
Lemma get_text_trim_none (buf : list Z) (sz : nat) :
  get_text_trim buf sz = None <->
  forall k : nat, (k < sz)%nat -> nth k buf 0 = 0 \/ nth k buf 0 = 10.
Proof.
  induction sz as [|sz IH]; simpl.
  - split; [intros _ k Hk; lia | reflexivity].
  - destruct ((nth sz buf 0 =? 0) || (nth sz buf 0 =? 10)) eqn:Hc.
    + rewrite IH. apply orb_true_iff in Hc. rewrite !Z.eqb_eq in Hc.
      split.
      * intros H k Hk. destruct (Nat.eq_dec k sz) as [->|Hne]; [exact Hc|].
        apply H. lia.
      * intros H k Hk. apply H. lia.
    + apply orb_false_iff in Hc. rewrite !Z.eqb_neq in Hc.
      split; [discriminate|].
      intros H. destruct (H sz) as [H0|H0]; [lia| |]; tauto.
Qed.

(** When the loop stops inside the buffer, it stops at a byte that is
    neither NUL nor newline, at an index from 1 to [sz]. *)
Lemma get_text_trim_some (buf : list Z) (sz n : nat) :
  get_text_trim buf sz = Some n ->
  (1 <= n <= sz)%nat /\ nth (n - 1) buf 0 <> 0 /\ nth (n - 1) buf 0 <> 10.
Proof.
  induction sz as [|sz IH]; simpl; [discriminate|].
  destruct ((nth sz buf 0 =? 0) || (nth sz buf 0 =? 10)) eqn:Hc.
  - intros H. destruct (IH H) as (H1 & H2). split; [lia | exact H2].
  - intros H. injection H as <-. apply orb_false_iff in Hc.
    rewrite !Z.eqb_neq in Hc. simpl. rewrite Nat.sub_0_r. split; [lia | exact Hc].
Qed.

(** C9. The trim loop of get_text stays inside the 20-byte buffer exactly
    when some screen byte is neither NUL nor newline; on a screen whose 20
    bytes are all NUL or newline it counts the size down to 0 and reads
    index -1, before the start of the output buffer.  Such a screen is
    reachable: with Left style, set_text of a single newline zero-fills
    the rest, and the next get_text reads outside. *)
Theorem get_text_trim_underrun (vfd : shuttle_vfd) :
  wf_vfd vfd ->
  (get_vfd_text_handler vfd = ReadOutside (-1) <->
   Forall (fun c => c = 0 \/ c = 10) (screen vfd)) /\
  ((exists out : list Z, get_vfd_text_handler vfd = Shown out) <->
   Exists (fun c => c <> 0 /\ c <> 10) (screen vfd)) /\
  (text_style vfd = DRIVER_STYLE_TEXT_ALIGN_LEFT ->
   screen (set_vfd_text_handler vfd [10]) = 10 :: repeat 0 19 /\
   get_vfd_text_handler (set_vfd_text_handler vfd [10]) = ReadOutside (-1)).
Proof.
  intros Hwf. pose proof Hwf as [_ Hs].
  assert (Hnone : get_vfd_text_handler vfd = ReadOutside (-1) <->
                  Forall (fun c => c = 0 \/ c = 10) (screen vfd)).
  { unfold get_vfd_text_handler.
    rewrite <- Hs, firstn_all. rewrite Hs.
    pose proof (get_text_trim_none (screen vfd) SHUTTLE_VFD_WIDTH) as Hn.
    destruct (get_text_trim (screen vfd) SHUTTLE_VFD_WIDTH) as [sz|].
    - split; [discriminate|]. intros HF.
      assert (Some sz = None) as Habs; [|discriminate Habs].
      apply Hn. intros k Hk.
      rewrite Forall_forall in HF. apply HF. apply nth_In. lia.
    - split; [|reflexivity]. intros _.
      apply Forall_forall. intros c Hin.
      destruct (In_nth _ _ 0 Hin) as (k & Hk & <-).
      apply (proj1 Hn); [reflexivity | lia]. }
  split; [exact Hnone|]. split.
  - split.
    + intros [out Hout].
      apply Exists_impl with (P := fun c => ~ (c = 0 \/ c = 10)); [tauto|].
      apply neg_Forall_Exists_neg.
      * intros c. destruct (Z.eq_dec c 0); destruct (Z.eq_dec c 10); tauto.
      * intros HF. apply Hnone in HF. congruence.
    + intros HE. destruct (get_vfd_text_handler vfd) as [out|idx] eqn:Hg.
      * now exists out.
      * exfalso.
        assert (Hidx : idx = -1).
        { unfold get_vfd_text_handler in Hg.
          destruct (get_text_trim _ _); [discriminate | congruence]. }
        subst idx. pose proof (proj1 Hnone eq_refl) as HF.
        rewrite Forall_forall in HF. rewrite Exists_exists in HE.
        destruct HE as (c & Hin & Hc0 & Hc10).
        destruct (HF c Hin); contradiction.
  - intros Hstyle.
    assert (Hscr : screen (set_vfd_text_handler vfd [10]) = 10 :: repeat 0 19).
    { rewrite (set_text_left_screen vfd [10] Hwf Hstyle); [reflexivity|].
      unfold SHUTTLE_VFD_WIDTH. simpl. lia. }
    split; [exact Hscr|].
    unfold get_vfd_text_handler. rewrite Hscr. reflexivity.
Qed.

Lemma get_text_trim_underrun_witness :
  wf_vfd left_device /\
  get_vfd_text_handler (set_vfd_text_handler left_device [10]) = ReadOutside (-1).
Proof.
  split.
  - split; reflexivity.
  - destruct (get_text_trim_underrun left_device) as (_ & _ & H).
    + split; reflexivity.
    + apply H. reflexivity.
Defined.

(** ** Icon tokens *)

Lemma strncmp_firstn (n k : nat) (a b : list Z) :
  (k <= n)%nat -> strncmp (firstn n a) b k = strncmp a b k.
Proof.
  revert n a b; induction k as [|k IH]; intros n a b Hk; [reflexivity|].
  destruct n as [|n]; [lia|].
  destruct a as [|x a]; [reflexivity|].
  simpl. rewrite IH by lia. reflexivity.
Qed.

Lemma nth_firstn_lt (n k : nat) (a : list Z) :
  (k < n)%nat -> nth k (firstn n a) 0 = nth k a 0.
Proof.
  revert n a; induction k as [|k IH]; intros [|n] [|x a] Hk;
    try lia; try reflexivity.
  simpl. apply IH. lia.
Qed.

(** [vfd_parse_icons] reads only the [count] bytes of the token. *)
Lemma vfd_parse_icons_loop_firstn (tbl : list vfd_icons) (nm : list Z) (count : nat) :
  vfd_parse_icons_loop tbl (firstn count nm) count
    = vfd_parse_icons_loop tbl nm count.
Proof.
  induction tbl as [|ic tbl IH]; [reflexivity|].
  cbn [vfd_parse_icons_loop]. rewrite IH.
  destruct (altname ic) as [alt|];
    rewrite !(strncmp_firstn count count) by lia;
    (destruct (Nat.eq_dec count 4) as [->|N4];
     [ rewrite ?(strncmp_firstn 4 3), ?(nth_firstn_lt 4 3) by lia; reflexivity
     | destruct (Nat.eq_dec count 5) as [->|N5];
       [ rewrite ?(strncmp_firstn 5 4), ?(nth_firstn_lt 5 4) by lia; reflexivity
       | rewrite (proj2 (Nat.eqb_neq count 4) N4), (proj2 (Nat.eqb_neq count 5) N5);
         reflexivity ] ]).
Qed.

Lemma scan_token_firstn (buf : list Z) (p l : nat) (mask : Z) (vfd : shuttle_vfd) :
  scan_token buf p l mask vfd
    = scan_token (firstn l (skipn p buf)) 0 l mask vfd.
Proof.
  unfold scan_token, vfd_parse_icons. simpl skipn.
  rewrite vfd_parse_icons_loop_firstn. reflexivity.
Qed.

Lemma nth_skipn_add (p l : nat) (buf : list Z) :
  nth l (skipn p buf) 0 = nth (p + l) buf 0.
Proof.
  revert buf; induction p as [|p IH]; intros [|x buf]; simpl; auto.
  now destruct l.
Qed.

Lemma skipn_nth_cons (i : nat) (buf : list Z) :
  (i < length buf)%nat -> skipn i buf = nth i buf 0 :: skipn (S i) buf.
Proof.
  revert buf; induction i as [|i IH]; intros [|x buf] H; simpl in *; try lia.
  - reflexivity.
  - apply IH. lia.
Qed.

Lemma firstn_S_snoc (l : nat) (a : list Z) :
  (l < length a)%nat -> firstn (S l) a = firstn l a ++ [nth l a 0].
Proof.
  revert a; induction l as [|l IH]; intros [|x a] H; simpl in *; try lia.
  - reflexivity.
  - f_equal. apply IH. lia.
Qed.

Lemma length_token (p l : nat) (buf : list Z) :
  (p + l <= length buf)%nat -> length (firstn l (skipn p buf)) = l.
Proof. intros H. rewrite length_firstn, length_skipn. lia. Qed.

(** Where the loop stops, the open token, if any, is the last one. *)
Lemma scan_finish_stop (buf : list Z) (p l i : nat) (mask : Z) (vfd : shuttle_vfd) :
  (p + l <= length buf)%nat ->
  scan_finish buf (mk_icons_scan p l i mask vfd)
    = fold_left resolve_token
        match firstn l (skipn p buf) with
        | [] => []
        | _ => [firstn l (skipn p buf)]
        end (mask, vfd).
Proof.
  intros H. unfold scan_finish. cbn [sc_l sc_p sc_mask sc_vfd].
  pose proof (length_token p l buf H) as Hlen.
  destruct l as [|l].
  - reflexivity.
  - change (0 <? S l)%nat with true. cbv iota.
    rewrite scan_token_firstn.
    destruct (firstn (S l) (skipn p buf)) as [|x t] eqn:E; [discriminate Hlen|].
    cbn [fold_left]. unfold resolve_token. cbn [fst snd].
    rewrite Hlen. reflexivity.
Qed.

(** The scanning loop resolves the tokens of the request, in order. *)
Lemma icons_scan_loop_tokens (fuel : nat) (buf : list Z) :
  forall (p l i : nat) (mask : Z) (vfd : shuttle_vfd),
    (p + l = i)%nat -> (i <= length buf)%nat -> (length buf - i <= fuel)%nat ->
    scan_finish buf
      (icons_scan_loop fuel buf (length buf) (mk_icons_scan p l i mask vfd))
    = fold_left resolve_token
        (icon_tokens_from (firstn l (skipn p buf)) (skipn i buf)) (mask, vfd).
Proof.
  induction fuel as [|fuel IH]; intros p l i mask vfd Hpl Hi Hfuel.
  - assert (Hend : i = length buf) by lia. rewrite Hend.
    rewrite skipn_all. cbn [icons_scan_loop icon_tokens_from].
    apply scan_finish_stop. lia.
  - cbn [icons_scan_loop]. unfold icons_scan_guard. cbn [sc_i].
    destruct (Nat.ltb_spec i (length buf)) as [Hlt|Hge].
    + rewrite (skipn_nth_cons i buf Hlt). cbn [icon_tokens_from andb].
      destruct (nth i buf 0 =? 0) eqn:Hnul; cbn [negb].
      * apply scan_finish_stop. lia.
      * unfold icons_scan_body. cbn [sc_p sc_l sc_i sc_mask sc_vfd].
        rewrite nth_skipn_add, Hpl.
        destruct (is_separator (nth i buf 0)) eqn:Hsep.
        -- destruct l as [|l].
           ++ change (0 <? 0)%nat with false. cbv iota.
              rewrite IH by lia. cbn [firstn].
              replace (i + 1)%nat with (S i) by lia. reflexivity.
           ++ change (0 <? S l)%nat with true. cbv iota.
              rewrite scan_token_firstn.
              pose proof (length_token p (S l) buf ltac:(lia)) as Hlen.
              destruct (firstn (S l) (skipn p buf)) as [|x t] eqn:E;
                [discriminate Hlen|].
              cbn [fold_left]. unfold resolve_token at 2. cbn [fst snd].
              rewrite Hlen.
              destruct (scan_token (x :: t) 0 (S l) mask vfd) as [mask' vfd'].
              rewrite IH by lia. cbn [firstn].
              replace (i + 1)%nat with (S i) by lia. reflexivity.
        -- rewrite IH by lia.
           replace (l + 1)%nat with (S l) by lia.
           rewrite firstn_S_snoc by (rewrite length_skipn; lia).
           rewrite nth_skipn_add, Hpl.
           replace (i + 1)%nat with (S i) by lia. reflexivity.
    + assert (Hend : i = length buf) by lia. rewrite Hend.
      rewrite skipn_all. cbn [andb icon_tokens_from].
      apply scan_finish_stop. lia.
Qed.

(** The loop has stopped when its fuel is spent: its guard is false. *)
Lemma icons_scan_loop_exits (fuel : nat) (buf : list Z) (count : nat) (st : icons_scan) :
  (count - sc_i st <= fuel)%nat ->
  icons_scan_guard buf count (icons_scan_loop fuel buf count st) = false.
Proof.
  revert st; induction fuel as [|fuel IH]; intros st Hfuel; cbn [icons_scan_loop].
  - unfold icons_scan_guard.
    destruct (Nat.ltb_spec (sc_i st) count); [lia | reflexivity].
  - destruct (icons_scan_guard buf count st) eqn:Hg; [|exact Hg].
    apply IH.
    assert (Hi : sc_i (icons_scan_body buf st) = (sc_i st + 1)%nat).
    { unfold icons_scan_body.
      destruct (is_separator _); [destruct (0 <? sc_l st)%nat|];
        [destruct (scan_token _ _ _ _ _)| |]; reflexivity. }
    rewrite Hi. lia.
Qed.

(** In the handler the loop starts with [i = 0] and [count] turns. *)
Lemma icons_scan_loop_done (vfd : shuttle_vfd) (buf : list Z) :
  icons_scan_guard buf (length buf)
    (icons_scan_loop (length buf) buf (length buf) (mk_icons_scan 0 0 0 0 vfd))
  = false.
Proof. apply icons_scan_loop_exits. simpl. lia. Qed.

Lemma resolve_token_lookup (m : Z) (vfd : shuttle_vfd) (t : list Z) :
  resolve_token (m, vfd) t
    = match lookup t with
      | Some v => (Z.lor m v, vfd)
      | None => (m, dev_err vfd (ErrUnknownIcon (length t)))
      end.
Proof.
  unfold resolve_token, scan_token, lookup. cbn [fst snd skipn].
  destruct (vfd_parse_icons t (length t)) as [ret tmp].
  destruct (ret =? 0); reflexivity.
Qed.

Lemma log_unknown_nil (vfd : shuttle_vfd) : log_unknown vfd [] = vfd.
Proof.
  destruct vfd as [[out log] im md ts pk sc]. unfold log_unknown, upd_udev.
  simpl. now rewrite app_nil_r.
Qed.

Lemma log_unknown_cons (vfd : shuttle_vfd) (t : list Z) (ts : list (list Z)) :
  log_unknown (dev_err vfd (ErrUnknownIcon (length t))) ts
    = log_unknown vfd (t :: ts).
Proof.
  unfold log_unknown, dev_err, upd_udev. simpl.
  now rewrite <- app_assoc.
Qed.

Lemma fold_resolve_tokens (toks : list (list Z)) :
  forall (m : Z) (vfd : shuttle_vfd),
    fold_left resolve_token toks (m, vfd)
    = (fold_left (fun m t => match lookup t with
                             | Some v => Z.lor m v
                             | None => m
                             end) toks m,
       log_unknown vfd (unknown_tokens toks)).
Proof.
  induction toks as [|t toks IH]; intros m vfd.
  - simpl. now rewrite log_unknown_nil.
  - cbn [fold_left unknown_tokens filter]. rewrite resolve_token_lookup.
    destruct (lookup t) as [v|]; rewrite IH.
    + reflexivity.
    + now rewrite log_unknown_cons.
Qed.

(** The scan of [set_vfd_icons_handler], in the words of the
    specification: the mask is the OR of the values of the tokens that
    resolve, and each token that does not is reported once, in order. *)
Lemma icons_scan_mask_tokens (vfd : shuttle_vfd) (buf : list Z) :
  icons_scan_mask vfd buf
    = (resolved_mask (icon_tokens buf),
       log_unknown vfd (unknown_tokens (icon_tokens buf))).
Proof.
  unfold icons_scan_mask. cbv zeta.
  change (scan_finish buf
            (icons_scan_loop (length buf) buf (length buf)
               (mk_icons_scan 0 0 0 0 vfd))
          = (resolved_mask (icon_tokens buf),
             log_unknown vfd (unknown_tokens (icon_tokens buf)))).
  rewrite icons_scan_loop_tokens by (simpl; lia).
  cbn [firstn skipn]. apply fold_resolve_tokens.
Qed.

(** The handler, with the merge and the packet builder written out. *)
Lemma set_vfd_icons_handler_tokens (vfd : shuttle_vfd) (buf : list Z) :
  let vfd' := set_vfd_icons_handler vfd buf in
  icons_mask vfd'
    = icons_merge (icons_mask vfd) (resolved_mask (icon_tokens buf)) /\
  dev_log (udev vfd')
    = dev_log (udev vfd)
      ++ map (fun t => ErrUnknownIcon (length t)) (unknown_tokens (icon_tokens buf)).
Proof.
  unfold set_vfd_icons_handler. rewrite icons_scan_mask_tokens.
  split; reflexivity.
Qed.

(** ** Bits of a mask *)

Lemma testbit_BASE_MASK (n : Z) :
  0 <= n -> Z.testbit SHUTTLE_VFD_BASE_MASK n = (n <? 15).
Proof.
  intros Hn. change SHUTTLE_VFD_BASE_MASK with (Z.ones 15).
  apply Z.testbit_ones_nonneg; lia.
Qed.

Lemma testbit_0xF (n : Z) : 0 <= n -> Z.testbit 0xF n = (n <? 4).
Proof.
  intros Hn. change 0xF with (Z.ones 4).
  apply Z.testbit_ones_nonneg; lia.
Qed.

Lemma testbit_vol_field (m n : Z) :
  0 <= n -> Z.testbit (vol_field m) n = Z.testbit m (n + 15) && (n <? 4).
Proof.
  intros Hn. unfold vol_field.
  rewrite Z.land_spec, Z.shiftr_spec, testbit_0xF by lia. reflexivity.
Qed.

Lemma testbit_base_bits (m n : Z) :
  0 <= n -> Z.testbit (base_bits m) n = Z.testbit m n && (n <? 15).
Proof.
  intros Hn. unfold base_bits.
  rewrite Z.land_spec, testbit_BASE_MASK by lia. reflexivity.
Qed.

Lemma vol_field_range (m : Z) : 0 <= vol_field m <= 15.
Proof.
  change (0 <= Z.land (Z.shiftr m 15) (Z.ones 4) <= 15).
  rewrite Z.land_ones by lia. change (2 ^ 4) with 16.
  pose proof (Z.mod_pos_bound (Z.shiftr m 15) 16 eq_refl). lia.
Qed.

(** [m & SHUTTLE_VFD_VOL_MASK] is the volume sub-field, in place. *)
Lemma land_VOL_MASK (m : Z) :
  Z.land m SHUTTLE_VFD_VOL_MASK = Z.shiftl (vol_field m) 15.
Proof.
  apply Z.bits_inj'. intros n Hn.
  unfold SHUTTLE_VFD_VOL_MASK.
  rewrite Z.land_spec, !Z.shiftl_spec by lia.
  destruct (Z.lt_ge_cases n 15) as [Hlt|Hge].
  - rewrite !(Z.testbit_neg_r _ (n - 15)) by lia. apply andb_false_r.
  - rewrite testbit_vol_field, testbit_0xF by lia.
    replace (n - 15 + 15) with n by lia. reflexivity.
Qed.

Lemma VOL_MASK_eqb (a b : Z) :
  (Z.land a SHUTTLE_VFD_VOL_MASK =? Z.land b SHUTTLE_VFD_VOL_MASK)
    = (vol_field a =? vol_field b).
Proof.
  rewrite !land_VOL_MASK.
  destruct (Z.eqb_spec (vol_field a) (vol_field b)) as [->|Hne].
  - apply Z.eqb_refl.
  - apply Z.eqb_neq. intros H. apply Hne.
    apply (f_equal (fun z => Z.shiftr z 15)) in H.
    rewrite !Z.shiftr_shiftl_l in H by lia.
    rewrite Z.sub_diag, !Z.shiftl_0_r in H. exact H.
Qed.

Lemma vol_field_lxor_base (cur m : Z) :
  vol_field (Z.lxor (Z.land cur SHUTTLE_VFD_BASE_MASK) m) = vol_field m.
Proof.
  apply Z.bits_inj'. intros n Hn.
  rewrite !testbit_vol_field, Z.lxor_spec, Z.land_spec, testbit_BASE_MASK by lia.
  replace (n + 15 <? 15) with false by (symmetry; apply Z.ltb_ge; lia).
  rewrite andb_false_r. reflexivity.
Qed.

Lemma vol_field_land_base (m : Z) :
  vol_field (Z.land m SHUTTLE_VFD_BASE_MASK) = 0.
Proof.
  apply Z.bits_inj'. intros n Hn.
  rewrite testbit_vol_field, Z.land_spec, testbit_BASE_MASK, Z.bits_0 by lia.
  replace (n + 15 <? 15) with false by (symmetry; apply Z.ltb_ge; lia).
  now rewrite andb_false_r.
Qed.

Lemma base_bits_lxor (a b : Z) :
  base_bits (Z.lxor a b) = Z.lxor (base_bits a) (base_bits b).
Proof.
  apply Z.bits_inj'. intros n Hn.
  rewrite Z.lxor_spec, !testbit_base_bits, Z.lxor_spec by lia.
  destruct (Z.testbit a n), (Z.testbit b n), (n <? 15); reflexivity.
Qed.

Lemma base_bits_idem (m : Z) : base_bits (base_bits m) = base_bits m.
Proof.
  unfold base_bits. now rewrite <- Z.land_assoc, Z.land_diag.
Qed.

(** A non-negative mask with a volume level is at least [VOL_01]. *)
Lemma vol_field_nonzero_ge (m : Z) :
  0 <= m -> vol_field m <> 0 -> SHUTTLE_VFD_ICON_VOL_01 <= m.
Proof.
  intros Hm Hv. destruct (Z.lt_ge_cases m SHUTTLE_VFD_ICON_VOL_01) as [Hlt|Hge];
    [|exact Hge].
  exfalso. apply Hv. unfold vol_field.
  rewrite Z.shiftr_div_pow2 by lia.
  rewrite Z.div_small; [reflexivity|].
  change SHUTTLE_VFD_ICON_VOL_01 with (2 ^ 15) in Hlt. lia.
Qed.

(** A sentinel test [mask & (1 << k)] reads bit [k]. *)
Lemma land_bit_eqb (m k : Z) :
  0 <= k -> (Z.land m (Z.shiftl 1 k) =? 0) = negb (Z.testbit m k).
Proof.
  intros Hk. rewrite Z.shiftl_1_l.
  destruct (Z.testbit m k) eqn:Hb; cbn [negb].
  - apply Z.eqb_neq. intros H.
    assert (Hbit : Z.testbit (Z.land m (2 ^ k)) k = true).
    { rewrite Z.land_spec, Hb, Z.pow2_bits_true by lia. reflexivity. }
    rewrite H, Z.bits_0 in Hbit. discriminate.
  - apply Z.eqb_eq. apply Z.bits_inj'. intros n Hn.
    rewrite Z.land_spec, Z.bits_0, Z.pow2_bits_eqb by lia.
    destruct (Z.eqb_spec k n) as [<-|Hne]; [now rewrite Hb | apply andb_false_r].
Qed.

(** ** Values of the catalog *)

Lemma vfd_parse_icons_loop_value (tbl : list vfd_icons) (nm : list Z) (count : nat) :
  vfd_parse_icons_loop tbl nm count = 0 \/
  In (vfd_parse_icons_loop tbl nm count) (map value tbl) \/
  exists d : Z, 1 <= d <= 12 /\ vfd_parse_icons_loop tbl nm count = Z.shiftl d 15.
Proof.
  induction tbl as [|ic tbl IH]; cbn [vfd_parse_icons_loop map In]; [now left|].
  destruct ((strlen (name ic) =? count)%nat && (strncmp nm (name ic) count =? 0));
    [right; left; now left|].
  destruct (match altname ic with
            | Some alt => (strlen alt =? count)%nat && (strncmp nm alt count =? 0)
            | None => false
            end); [right; left; now left|].
  destruct ((count =? 4)%nat && (strncmp nm (cstr "vol") 3 =? 0)
            && ((0x30 <? nth 3 nm 0) && (nth 3 nm 0 <=? 0x39))) eqn:E4.
  { right; right. exists (nth 3 nm 0 - 0x30). split; [|reflexivity].
    apply andb_true_iff in E4. destruct E4 as [_ E4].
    apply andb_true_iff in E4. destruct E4 as [Hlo Hhi].
    apply Z.ltb_lt in Hlo. apply Z.leb_le in Hhi. lia. }
  destruct ((count =? 5)%nat && (strncmp nm (cstr "vol1") 4 =? 0)
            && ((0x30 <=? nth 4 nm 0) && (nth 4 nm 0 <=? 0x32))) eqn:E5.
  { right; right. exists (nth 4 nm 0 - 0x30 + 10). split; [|reflexivity].
    apply andb_true_iff in E5. destruct E5 as [_ E5].
    apply andb_true_iff in E5. destruct E5 as [Hlo Hhi].
    apply Z.leb_le in Hlo. apply Z.leb_le in Hhi. lia. }
  destruct IH as [IH|[IH|IH]]; [now left | right; left; now right | now right; right].
Qed.

Lemma lookup_icon_value (t : list Z) (v : Z) :
  lookup t = Some v -> icon_value v.
Proof.
  unfold lookup, vfd_parse_icons.
  destruct (Z.eqb_spec (vfd_parse_icons_loop icons t (length t)) 0) as [E|E];
    [discriminate|].
  cbn [Z.eqb]. intros H. injection H as <-.
  destruct (vfd_parse_icons_loop_value icons t (length t)) as [H|[H|H]];
    [contradiction | now left | now right].
Qed.

(** Every value of the catalog is positive, below 2^30, and carries bit 28
    or bit 29 only if it is the matching sentinel. *)
Lemma icon_value_facts (v : Z) :
  icon_value v ->
  0 < v < 2 ^ 30 /\
  (Z.testbit v 28 = true -> v = DRIVER_ICON_CLEAR) /\
  (Z.testbit v 29 = true -> v = DRIVER_ICON_SET).
Proof.
  assert (Hconst : forall c : Z,
            (0 <? c) && (c <? 2 ^ 30)
            && (negb (Z.testbit c 28) || (c =? DRIVER_ICON_CLEAR))
            && (negb (Z.testbit c 29) || (c =? DRIVER_ICON_SET)) = true ->
            0 < c < 2 ^ 30 /\
            (Z.testbit c 28 = true -> c = DRIVER_ICON_CLEAR) /\
            (Z.testbit c 29 = true -> c = DRIVER_ICON_SET)).
  { intros c H.
    apply andb_true_iff in H. destruct H as [H H29].
    apply andb_true_iff in H. destruct H as [H H28].
    apply andb_true_iff in H. destruct H as [Hlo Hhi].
    apply Z.ltb_lt in Hlo. apply Z.ltb_lt in Hhi.
    split; [lia|]. split; intros Hb.
    - rewrite Hb in H28. now apply Z.eqb_eq in H28.
    - rewrite Hb in H29. now apply Z.eqb_eq in H29. }
  intros [Hin|(d & Hd & ->)].
  - cbv [icons map value] in Hin.
    repeat (destruct Hin as [<-|Hin]; [apply Hconst; reflexivity|]).
    contradiction.
  - assert (Hcases : d = 1 \/ d = 2 \/ d = 3 \/ d = 4 \/ d = 5 \/ d = 6 \/ d = 7
                     \/ d = 8 \/ d = 9 \/ d = 10 \/ d = 11 \/ d = 12) by lia.
    repeat (destruct Hcases as [->|Hcases]; [apply Hconst; reflexivity|]).
    subst d. apply Hconst. reflexivity.
Qed.

Lemma lor_below_pow2 (a b k : Z) :
  0 <= a < 2 ^ k -> 0 <= b < 2 ^ k -> 0 <= Z.lor a b < 2 ^ k.
Proof.
  intros Ha Hb. split; [apply Z.lor_nonneg; lia|].
  destruct (Z.eq_dec a 0) as [->|Ha0]; [rewrite Z.lor_0_l; lia|].
  destruct (Z.eq_dec b 0) as [->|Hb0]; [rewrite Z.lor_0_r; lia|].
  assert (Hpos : 0 < Z.lor a b).
  { assert (0 <= Z.lor a b) by (apply Z.lor_nonneg; lia).
    assert (Z.lor a b <> 0) by (intros H0; apply Z.lor_eq_0_iff in H0; lia).
    lia. }
  apply Z.log2_lt_pow2; [exact Hpos|].
  rewrite Z.log2_lor by lia.
  apply Z.max_lub_lt; apply Z.log2_lt_pow2; lia.
Qed.

(** The accumulated mask, bit by bit and as a number. *)
Lemma fold_lookup_testbit (n : Z) (toks : list (list Z)) :
  forall m : Z,
    Z.testbit (fold_left (fun m t => match lookup t with
                                     | Some v => Z.lor m v
                                     | None => m
                                     end) toks m) n
    = Z.testbit m n
      || existsb (fun t => match lookup t with
                           | Some v => Z.testbit v n
                           | None => false
                           end) toks.
Proof.
  induction toks as [|t toks IH]; intros m; cbn [fold_left existsb].
  - now rewrite orb_false_r.
  - rewrite IH. destruct (lookup t) as [v|].
    + now rewrite Z.lor_spec, orb_assoc.
    + reflexivity.
Qed.

Lemma fold_lookup_below (toks : list (list Z)) :
  forall m : Z,
    0 <= m < 2 ^ 30 ->
    0 <= fold_left (fun m t => match lookup t with
                               | Some v => Z.lor m v
                               | None => m
                               end) toks m < 2 ^ 30.
Proof.
  induction toks as [|t toks IH]; intros m Hm; cbn [fold_left]; [exact Hm|].
  apply IH. destruct (lookup t) as [v|] eqn:E; [|exact Hm].
  apply lor_below_pow2; [exact Hm|].
  pose proof (icon_value_facts v (lookup_icon_value t v E)) as [Hv _]. lia.
Qed.

Lemma resolved_mask_below (toks : list (list Z)) :
  0 <= resolved_mask toks < 2 ^ 30.
Proof. apply fold_lookup_below. split; [lia | reflexivity]. Qed.

(** Bit 28 (bit 29) of the accumulated mask is set exactly when some token
    resolves to the Clear (Set) sentinel. *)
Lemma resolved_mask_sentinel (k s : Z) (toks : list (list Z)) :
  0 <= k ->
  Z.testbit s k = true ->
  (forall v : Z, icon_value v -> Z.testbit v k = true -> v = s) ->
  Z.testbit (resolved_mask toks) k = true <->
  Exists (fun t => lookup t = Some s) toks.
Proof.
  intros Hk Hs Honly. unfold resolved_mask.
  rewrite fold_lookup_testbit, Z.bits_0, orb_false_l.
  rewrite existsb_exists, Exists_exists.
  split; intros (t & Hin & Ht); exists t; (split; [exact Hin|]).
  - destruct (lookup t) as [v|] eqn:E; [|discriminate].
    f_equal. apply Honly; [|exact Ht].
    exact (lookup_icon_value t v E).
  - rewrite Ht. exact Hs.
Qed.

Lemma resolved_mask_clear (toks : list (list Z)) :
  Z.testbit (resolved_mask toks) 28 = true <->
  Exists (fun t => lookup t = Some DRIVER_ICON_CLEAR) toks.
Proof.
  apply resolved_mask_sentinel; [lia | reflexivity |].
  intros v Hv. apply (icon_value_facts v Hv).
Qed.

Lemma resolved_mask_set (toks : list (list Z)) :
  Z.testbit (resolved_mask toks) 29 = true <->
  Exists (fun t => lookup t = Some DRIVER_ICON_SET) toks.
Proof.
  apply resolved_mask_sentinel; [lia | reflexivity |].
  intros v Hv. apply (icon_value_facts v Hv).
Qed.

(** On a mask below 2^64 the wrapped [~DRIVER_ICON_SET] clears bit 29. *)
Lemma land_not_DRIVER_ICON_SET (m : Z) :
  0 <= m < 2 ^ 30 ->
  Z.land m not_DRIVER_ICON_SET = Z.ldiff m DRIVER_ICON_SET.
Proof.
  intros Hm. apply Z.bits_inj'. intros n Hn.
  unfold not_DRIVER_ICON_SET. rewrite Z.land_spec, Z.ldiff_spec.
  destruct (Z.lt_ge_cases n 64) as [Hlt|Hge].
  - rewrite Z.mod_pow2_bits_low, Z.lnot_spec by lia. reflexivity.
  - assert (Hhigh : Z.testbit m n = false).
    { destruct (Z.eq_dec m 0) as [->|Hm0]; [apply Z.bits_0|].
      apply Z.bits_above_log2; [lia|].
      assert (Z.log2 m < 30) by (apply Z.log2_lt_pow2; lia). lia. }
    now rewrite Hhigh.
Qed.

(** The merge, branch by branch, in terms of the bits of [mask]. *)
Lemma icons_merge_clear (cur mask : Z) :
  Z.testbit mask 28 = true -> icons_merge cur mask = 0.
Proof.
  intros H. unfold icons_merge, DRIVER_ICON_CLEAR.
  rewrite land_bit_eqb, H by lia. reflexivity.
Qed.

Lemma icons_merge_set (cur mask : Z) :
  0 <= mask < 2 ^ 30 ->
  Z.testbit mask 28 = false -> Z.testbit mask 29 = true ->
  icons_merge cur mask = Z.ldiff mask DRIVER_ICON_SET.
Proof.
  intros Hm H28 H29. unfold icons_merge, DRIVER_ICON_CLEAR.
  rewrite land_bit_eqb, H28 by lia. cbn [negb].
  unfold DRIVER_ICON_SET at 1. rewrite land_bit_eqb, H29 by lia. cbn [negb].
  apply land_not_DRIVER_ICON_SET. exact Hm.
Qed.

Lemma icons_merge_volume (cur mask : Z) :
  0 <= mask ->
  Z.testbit mask 28 = false -> Z.testbit mask 29 = false ->
  vol_field mask <> 0 ->
  icons_merge cur mask
    = Z.lxor (Z.land cur SHUTTLE_VFD_BASE_MASK)
        (if vol_field cur =? vol_field mask
         then Z.land mask SHUTTLE_VFD_BASE_MASK
         else mask).
Proof.
  intros Hm H28 H29 Hvol. unfold icons_merge, DRIVER_ICON_CLEAR.
  rewrite land_bit_eqb, H28 by lia. cbn [negb].
  unfold DRIVER_ICON_SET at 1. rewrite land_bit_eqb, H29 by lia. cbn [negb].
  rewrite (proj2 (Z.leb_le _ _) (vol_field_nonzero_ge mask Hm Hvol)).
  rewrite VOL_MASK_eqb. reflexivity.
Qed.

Lemma icons_merge_toggle (cur mask : Z) :
  Z.testbit mask 28 = false -> Z.testbit mask 29 = false ->
  mask < SHUTTLE_VFD_ICON_VOL_01 ->
  icons_merge cur mask = Z.lxor cur mask.
Proof.
  intros H28 H29 Hlt. unfold icons_merge, DRIVER_ICON_CLEAR.
  rewrite land_bit_eqb, H28 by lia. cbn [negb].
  unfold DRIVER_ICON_SET at 1. rewrite land_bit_eqb, H29 by lia. cbn [negb].
  now rewrite (proj2 (Z.leb_gt _ _) Hlt).
Qed.

(** No token resolving to a sentinel leaves the sentinel bit clear. *)
Lemma no_sentinel_bit (k s : Z) (toks : list (list Z)) :
  (Z.testbit (resolved_mask toks) k = true <->
   Exists (fun t => lookup t = Some s) toks) ->
  Forall (fun t => lookup t <> Some s) toks ->
  Z.testbit (resolved_mask toks) k = false.
Proof.
  intros Hiff Hall. apply not_true_is_false. intros E.
  apply (proj1 Hiff) in E.
  rewrite Exists_exists in E. destruct E as (t & Hin & Ht).
  rewrite Forall_forall in Hall. exact (Hall t Hin Ht).
Qed.

(** ** Icons *)

(** C5. For every prior icon_mask and every token list: if any token
    resolves to the Clear sentinel, the new icon_mask is exactly 0,
    whatever the other tokens and the prior mask; otherwise, if any token
    resolves to the Set sentinel, the new icon_mask is the OR of all
    resolved token values with the Set bit removed, whatever the prior
    mask. *)
Theorem set_icons_clear_and_set (vfd : shuttle_vfd) (buf : list Z) :
  let toks := icon_tokens buf in
  let new_mask := icons_mask (set_vfd_icons_handler vfd buf) in
  (Exists (fun t => lookup t = Some DRIVER_ICON_CLEAR) toks -> new_mask = 0) /\
  (Forall (fun t => lookup t <> Some DRIVER_ICON_CLEAR) toks ->
   Exists (fun t => lookup t = Some DRIVER_ICON_SET) toks ->
   new_mask = Z.ldiff (resolved_mask toks) DRIVER_ICON_SET /\
   Z.testbit new_mask 29 = false).
Proof.
  intros toks new_mask. subst new_mask.
  rewrite (proj1 (set_vfd_icons_handler_tokens vfd buf)). fold toks.
  split.
  - intros Hclear. apply icons_merge_clear. now apply resolved_mask_clear.
  - intros Hnoclear Hset.
    assert (Heq : icons_merge (icons_mask vfd) (resolved_mask toks)
                  = Z.ldiff (resolved_mask toks) DRIVER_ICON_SET).
    { apply icons_merge_set.
      - apply resolved_mask_below.
      - exact (no_sentinel_bit 28 _ toks (resolved_mask_clear toks) Hnoclear).
      - now apply resolved_mask_set. }
    split; [exact Heq|].
    rewrite Heq, Z.ldiff_spec.
    change (Z.testbit DRIVER_ICON_SET 29) with true. apply andb_false_r.
Qed.

Lemma set_icons_clear_and_set_witness :
  icons_mask (set_vfd_icons_handler
                (set_vfd_icons_handler (shuttle_vfd_probe false) (cstr "rec,vol3"))
                (cstr "play,clear")) = 0 /\
  icons_mask (set_vfd_icons_handler
                (set_vfd_icons_handler (shuttle_vfd_probe false) (cstr "rec,vol3"))
                (cstr "=,play,stop"))
    = Z.lor SHUTTLE_VFD_ICON_PLAY SHUTTLE_VFD_ICON_STOP.
Proof.
  split.
  - apply (set_icons_clear_and_set
             (set_vfd_icons_handler (shuttle_vfd_probe false) (cstr "rec,vol3"))
             (cstr "play,clear")).
    apply Exists_cons_tl, Exists_cons_hd. reflexivity.
  - destruct (set_icons_clear_and_set
                (set_vfd_icons_handler (shuttle_vfd_probe false) (cstr "rec,vol3"))
                (cstr "=,play,stop")) as [_ H].
    destruct H as [H _].
    + repeat constructor; discriminate.
    + apply Exists_cons_hd. reflexivity.
    + rewrite H. reflexivity.
Defined.

(** The volume rule on the accumulated mask. *)
Lemma set_icons_volume_rule (vfd : shuttle_vfd) (buf : list Z) :
  let toks := icon_tokens buf in
  let mask := resolved_mask toks in
  let cur := icons_mask vfd in
  let new_mask := icons_mask (set_vfd_icons_handler vfd buf) in
  Forall (fun t => lookup t <> Some DRIVER_ICON_CLEAR) toks ->
  Forall (fun t => lookup t <> Some DRIVER_ICON_SET) toks ->
  vol_field mask <> 0 ->
  vol_field new_mask = (if vol_field cur =? vol_field mask then 0 else vol_field mask) /\
  base_bits new_mask = Z.lxor (base_bits cur) (base_bits mask).
Proof.
  intros toks mask cur new_mask Hnoclear Hnoset Hvol. subst new_mask.
  rewrite (proj1 (set_vfd_icons_handler_tokens vfd buf)).
  fold toks. fold mask. fold cur.
  rewrite icons_merge_volume.
  - split.
    + rewrite vol_field_lxor_base.
      destruct (vol_field cur =? vol_field mask); [apply vol_field_land_base | reflexivity].
    + rewrite base_bits_lxor. fold (base_bits cur). rewrite base_bits_idem.
      destruct (vol_field cur =? vol_field mask); [|reflexivity].
      fold (base_bits mask). now rewrite base_bits_idem.
  - apply resolved_mask_below.
  - exact (no_sentinel_bit 28 _ toks (resolved_mask_clear toks) Hnoclear).
  - exact (no_sentinel_bit 29 _ toks (resolved_mask_set toks) Hnoset).
  - exact Hvol.
Qed.

(** A request made of the single token [vol<d>]. *)
Lemma set_icons_one_level (vfd : shuttle_vfd) (buf : list Z) (d : Z) :
  icon_tokens buf = [buf] ->
  lookup buf = Some (Z.shiftl d 15) ->
  1 <= d <= 12 ->
  let new_mask := icons_mask (set_vfd_icons_handler vfd buf) in
  vol_field new_mask = (if vol_field (icons_mask vfd) =? d then 0 else d) /\
  base_bits new_mask = base_bits (icons_mask vfd).
Proof.
  intros Htoks Hlook Hd new_mask.
  assert (Hmask : resolved_mask (icon_tokens buf) = Z.shiftl d 15).
  { rewrite Htoks. unfold resolved_mask. cbn [fold_left]. rewrite Hlook.
    apply Z.lor_0_l. }
  assert (Hfield : vol_field (Z.shiftl d 15) = d /\ base_bits (Z.shiftl d 15) = 0
                   /\ Z.shiftl d 15 <> DRIVER_ICON_CLEAR
                   /\ Z.shiftl d 15 <> DRIVER_ICON_SET).
  { assert (Hcases : d = 1 \/ d = 2 \/ d = 3 \/ d = 4 \/ d = 5 \/ d = 6 \/ d = 7
                     \/ d = 8 \/ d = 9 \/ d = 10 \/ d = 11 \/ d = 12) by lia.
    repeat (destruct Hcases as [->|Hcases];
            [repeat split; try reflexivity; discriminate|]).
    subst d. repeat split; try reflexivity; discriminate. }
  destruct Hfield as (Hv & Hb & Hc & Hs).
  destruct (set_icons_volume_rule vfd buf) as [H1 H2].
  - rewrite Htoks. constructor; [|constructor]. rewrite Hlook. congruence.
  - rewrite Htoks. constructor; [|constructor]. rewrite Hlook. congruence.
  - rewrite Hmask, Hv. lia.
  - subst new_mask. rewrite H1, H2, Hmask, Hv, Hb. split; [reflexivity|].
    apply Z.lxor_0_r.
Qed.

(** C4, as stated, fails in its example: selecting "vol5" twice in a row
    does not clear the volume icon on a device that already shows level 5.
    Such a device is reached from the probe state by one "vol5"; there the
    first selection is the toggle-off and the second one shows level 5
    again. *)
Lemma vol5_twice_from_level_5 :
  let vfd := set_vfd_icons_handler (shuttle_vfd_probe false) (cstr "vol5") in
  let once := set_vfd_icons_handler vfd (cstr "vol5") in
  let twice := set_vfd_icons_handler once (cstr "vol5") in
  vol_field (icons_mask vfd) = 5 /\
  vol_field (icons_mask once) = 0 /\
  vol_field (icons_mask twice) = 5 /\
  ~ vol_field (icons_mask twice) = 0.
Proof.
  vm_compute. repeat split; try reflexivity. discriminate.
Qed.

(** C4, amended.  For every current icon_mask and every icon request whose
    resolved tokens contain no sentinel but a non-zero volume value: if
    that value equals the current volume sub-field the resulting volume
    sub-field is 0 (toggle-off), otherwise it is the new value; in both
    cases the resulting base bits are the XOR of the current base bits with
    the resolved base bits.  In particular, from a state whose volume
    sub-field is not 5, selecting "vol5" twice in a row shows level 5 and
    then clears the volume icon, and "vol5" then "vol7" leaves exactly
    level 7, from any state. *)
Theorem set_icons_volume_toggle :
  (forall (vfd : shuttle_vfd) (buf : list Z),
      let toks := icon_tokens buf in
      let mask := resolved_mask toks in
      let cur := icons_mask vfd in
      let new_mask := icons_mask (set_vfd_icons_handler vfd buf) in
      Forall (fun t => lookup t <> Some DRIVER_ICON_CLEAR) toks ->
      Forall (fun t => lookup t <> Some DRIVER_ICON_SET) toks ->
      vol_field mask <> 0 ->
      (vol_field mask = vol_field cur -> vol_field new_mask = 0) /\
      (vol_field mask <> vol_field cur -> vol_field new_mask = vol_field mask) /\
      base_bits new_mask = Z.lxor (base_bits cur) (base_bits mask)) /\
  (forall vfd : shuttle_vfd,
      let once := set_vfd_icons_handler vfd (cstr "vol5") in
      let twice := set_vfd_icons_handler once (cstr "vol5") in
      vol_field (icons_mask vfd) <> 5 ->
      vol_field (icons_mask once) = 5 /\
      vol_field (icons_mask twice) = 0 /\
      base_bits (icons_mask twice) = base_bits (icons_mask vfd)) /\
  (forall vfd : shuttle_vfd,
      let five := set_vfd_icons_handler vfd (cstr "vol5") in
      let seven := set_vfd_icons_handler five (cstr "vol7") in
      vol_field (icons_mask seven) = 7 /\
      base_bits (icons_mask seven) = base_bits (icons_mask vfd)).
Proof.
  split; [|split].
  - intros vfd buf toks mask cur new_mask Hnoclear Hnoset Hvol.
    destruct (set_icons_volume_rule vfd buf Hnoclear Hnoset Hvol) as [H1 H2].
    fold toks in H1, H2. fold mask in H1, H2. fold cur in H1, H2.
    fold new_mask in H1, H2.
    split; [|split].
    + intros Heq. rewrite H1, Heq, Z.eqb_refl. reflexivity.
    + intros Hne. rewrite H1.
      destruct (Z.eqb_spec (vol_field cur) (vol_field mask)); congruence.
    + exact H2.
  - intros vfd once twice Hnot5.
    destruct (set_icons_one_level vfd (cstr "vol5") 5) as [A1 A2];
      [reflexivity | reflexivity | lia |].
    destruct (set_icons_one_level once (cstr "vol5") 5) as [B1 B2];
      [reflexivity | reflexivity | lia |].
    fold once in A1, A2. fold twice in B1, B2.
    rewrite (proj2 (Z.eqb_neq _ _) Hnot5) in A1.
    rewrite A1 in B1. rewrite B1, B2, A2, A1. repeat split.
  - intros vfd five seven.
    destruct (set_icons_one_level vfd (cstr "vol5") 5) as [A1 A2];
      [reflexivity | reflexivity | lia |].
    destruct (set_icons_one_level five (cstr "vol7") 7) as [B1 B2];
      [reflexivity | reflexivity | lia |].
    fold five in A1, A2. fold seven in B1, B2.
    rewrite B1, B2, A2. split; [|reflexivity].
    rewrite A1. destruct (vol_field (icons_mask vfd) =? 5); reflexivity.
Qed.

Lemma set_icons_volume_toggle_witness :
  let vfd := set_vfd_icons_handler (shuttle_vfd_probe false) (cstr "play,vol5") in
  let vfd3 := set_vfd_icons_handler (shuttle_vfd_probe false) (cstr "play,vol3") in
  let once := set_vfd_icons_handler vfd3 (cstr "vol5") in
  let twice := set_vfd_icons_handler once (cstr "vol5") in
  let seven := set_vfd_icons_handler (set_vfd_icons_handler vfd (cstr "vol5"))
                 (cstr "vol7") in
  vol_field (icons_mask (set_vfd_icons_handler vfd (cstr "rec vol7"))) = 7 /\
  vol_field (icons_mask (set_vfd_icons_handler vfd (cstr "rec vol5"))) = 0 /\
  base_bits (icons_mask (set_vfd_icons_handler vfd (cstr "rec vol7")))
    = Z.lor SHUTTLE_VFD_ICON_PLAY SHUTTLE_VFD_ICON_RECORD /\
  vol_field (icons_mask vfd3) = 3 /\
  vol_field (icons_mask once) = 5 /\
  vol_field (icons_mask twice) = 0 /\
  base_bits (icons_mask twice) = SHUTTLE_VFD_ICON_PLAY /\
  vol_field (icons_mask seven) = 7 /\
  base_bits (icons_mask seven) = SHUTTLE_VFD_ICON_PLAY.
Proof.
  intros vfd vfd3 once twice seven.
  destruct set_icons_volume_toggle as (Hrule & Htwice & Hseven).
  destruct (Hrule vfd (cstr "rec vol7")) as (_ & H7 & Hb);
    [repeat constructor; discriminate | repeat constructor; discriminate
     | vm_compute; discriminate |].
  destruct (Hrule vfd (cstr "rec vol5")) as (H5 & _ & _);
    [repeat constructor; discriminate | repeat constructor; discriminate
     | vm_compute; discriminate |].
  assert (H3 : vol_field (icons_mask vfd3) = 3) by (vm_compute; reflexivity).
  destruct (Htwice vfd3) as (T1 & T2 & T3);
    [rewrite H3; discriminate|].
  destruct (Hseven vfd) as (S1 & S2).
  split; [rewrite H7; [vm_compute; reflexivity | vm_compute; discriminate]|].
  split; [apply H5; vm_compute; reflexivity|].
  split; [rewrite Hb; vm_compute; reflexivity|].
  split; [exact H3|].
  split; [exact T1|].
  split; [exact T2|].
  split; [fold once twice in T3; rewrite T3; vm_compute; reflexivity|].
  split; [exact S1|].
  fold seven in S2. rewrite S2. vm_compute. reflexivity.
Defined.

(** Every bit of a resolved token is in the accumulated mask. *)
Lemma resolved_mask_includes (toks : list (list Z)) (t : list Z) (v : Z) :
  In t toks -> lookup t = Some v -> Z.land (resolved_mask toks) v = v.
Proof.
  intros Hin Hv. apply Z.bits_inj'. intros n Hn.
  rewrite Z.land_spec. destruct (Z.testbit v n) eqn:Hb; [|apply andb_false_r].
  rewrite andb_true_r. unfold resolved_mask.
  rewrite fold_lookup_testbit, Z.bits_0, orb_false_l.
  apply existsb_exists. exists t. split; [exact Hin|]. now rewrite Hv.
Qed.

(** C8. For every icon request, a token that fails catalog lookup is
    skipped and reported as unknown, once, without aborting the request:
    every token that resolves is still OR-accumulated into the mask, the
    mask is merged and the icons packet goes out.  The request "foo,play"
    has the tokens "foo" and "play", toggles the play bit (sets it on a
    device where it was off) and reports exactly one unknown token. *)
Theorem set_icons_unknown_token_skipped (vfd : shuttle_vfd) (buf : list Z) :
  let toks := icon_tokens buf in
  let vfd' := set_vfd_icons_handler vfd buf in
  icons_mask vfd' = icons_merge (icons_mask vfd) (resolved_mask toks) /\
  (forall (t : list Z) (v : Z),
      In t toks -> lookup t = Some v -> Z.land (resolved_mask toks) v = v) /\
  dev_log (udev vfd')
    = dev_log (udev vfd)
      ++ map (fun t => ErrUnknownIcon (length t)) (unknown_tokens toks) /\
  (forall t : list Z, In t (unknown_tokens toks) <-> In t toks /\ lookup t = None) /\
  (exists p : list Z, sent_since vfd vfd' [p]) /\
  icon_tokens (cstr "foo,play") = [cstr "foo"; cstr "play"] /\
  lookup (cstr "foo") = None /\
  lookup (cstr "play") = Some SHUTTLE_VFD_ICON_PLAY /\
  icons_mask (set_vfd_icons_handler vfd (cstr "foo,play"))
    = Z.lxor (icons_mask vfd) SHUTTLE_VFD_ICON_PLAY /\
  dev_log (udev (set_vfd_icons_handler vfd (cstr "foo,play")))
    = dev_log (udev vfd) ++ [ErrUnknownIcon 3] /\
  icons_mask (set_vfd_icons_handler (shuttle_vfd_probe false) (cstr "foo,play"))
    = SHUTTLE_VFD_ICON_PLAY.
Proof.
  intros toks vfd'.
  destruct (set_vfd_icons_handler_tokens vfd buf) as [Hmask Hlog].
  destruct (set_vfd_icons_handler_tokens vfd (cstr "foo,play")) as [Hmask' Hlog'].
  split; [exact Hmask|].
  split; [intros t v; apply resolved_mask_includes|].
  split; [exact Hlog|].
  split.
  { intros t. unfold unknown_tokens. rewrite filter_In.
    split; intros [Hin Hl]; (split; [exact Hin|]).
    - destruct (lookup t); [discriminate | reflexivity].
    - now rewrite Hl. }
  split.
  { subst vfd'. unfold set_vfd_icons_handler. rewrite icons_scan_mask_tokens.
    unfold sent_since. simpl. eexists. reflexivity. }
  split; [reflexivity|]. split; [reflexivity|]. split; [reflexivity|].
  split; [|split; [exact Hlog' | reflexivity]].
  rewrite Hmask'. apply icons_merge_toggle; reflexivity.
Qed.

(** C2 fails on the code.  From the state [shuttle_vfd_probe] leaves
    (volume sub-field 0), the request "vol5,vol10" has two tokens that
    resolve to levels 5 and 10; their values are OR-ed, and the stored
    icon_mask has volume sub-field 15, outside [0,12]; get_icons then
    prints "vol15". *)
Theorem set_icons_two_levels_out_of_range :
  let vfd := shuttle_vfd_probe false in
  let vfd' := set_vfd_icons_handler vfd (cstr "vol5,vol10") in
  0 <= vol_field (icons_mask vfd) <= 12 /\
  icon_tokens (cstr "vol5,vol10") = [cstr "vol5"; cstr "vol10"] /\
  lookup (cstr "vol5") = Some (Z.shiftl 5 15) /\
  lookup (cstr "vol10") = Some (Z.shiftl 10 15) /\
  vol_field (icons_mask vfd') = 15 /\
  ~ (0 <= vol_field (icons_mask vfd') <= 12) /\
  get_vfd_icons_handler vfd' = cstr "vol15" ++ [10].
Proof.
  vm_compute. repeat split; try reflexivity; try discriminate.
  intros [_ H]. apply H. reflexivity.
Qed.

(** ** Mode *)

Lemma vfd_reset_cursor_sent (vfd : shuttle_vfd) (eraseall : bool) :
  sent_since vfd (vfd_reset_cursor vfd eraseall)
    [[0x11; if eraseall then 1 else 2; 0; 0; 0; 0; 0; 0]].
Proof. destruct eraseall; reflexivity. Qed.

Lemma vfd_set_text_loop_sent (n : nat) :
  forall (p : list Z) (vfd : shuttle_vfd),
  exists ps : list (list Z), sent_since vfd (snd (vfd_set_text_loop n p vfd)) ps.
Proof.
  induction n as [|n IH]; intros p vfd; cbn [vfd_set_text_loop].
  - exists []. unfold sent_since. now rewrite app_nil_r.
  - match goal with |- context [vfd_set_text_loop n ?p' ?v'] =>
      destruct (IH p' v') as [ps Hps] end.
    unfold sent_since in *. rewrite Hps. simpl.
    rewrite <- app_assoc. eexists. reflexivity.
Qed.

Lemma vfd_set_text_sent (vfd : shuttle_vfd) (len : nat) :
  exists ps : list (list Z), sent_since vfd (vfd_set_text vfd len) ps.
Proof.
  unfold vfd_set_text.
  destruct (vfd_set_text_loop_sent (len / SHUTTLE_VFD_DATA_SIZE) (screen vfd) vfd)
    as [ps Hps].
  destruct (vfd_set_text_loop (len / SHUTTLE_VFD_DATA_SIZE) (screen vfd) vfd) as [p v].
  cbn [snd] in Hps. unfold sent_since in *.
  destruct (negb (len mod SHUTTLE_VFD_DATA_SIZE =? 0)%nat).
  - simpl. rewrite Hps, <- app_assoc. eexists. reflexivity.
  - now exists ps.
Qed.

Lemma vfd_set_clock_sent (valid : rtc_time -> Z) (rtc : rtc_source) (vfd : shuttle_vfd) :
  exists ps : list (list Z), sent_since vfd (vfd_set_clock valid rtc vfd) ps.
Proof.
  unfold vfd_set_clock, sent_since.
  destruct rtc as [|err tm]; [|destruct ((err =? 0) && negb (valid tm =? 0))];
    simpl; rewrite <- app_assoc; eexists; reflexivity.
Qed.

(** [get_vfd_icons_handler] reads nothing but [icons_mask]. *)
Lemma get_vfd_icons_handler_mask (a b : shuttle_vfd) :
  icons_mask a = icons_mask b ->
  get_vfd_icons_handler a = get_vfd_icons_handler b.
Proof. intros H. unfold get_vfd_icons_handler. now rewrite H. Qed.

(** C10. upd_mode with a recognized token ("clock", "clk", "text", "txt")
    accepts the request, first sends the full-erase reset packet
    (command 0x1, payload 1) and switches the mode, but leaves icons_mask
    unchanged, so that a subsequent get_icons prints exactly what it
    printed before the mode switch. *)
Theorem set_mode_keeps_icons_mask
  (valid : rtc_time -> Z) (rtc : rtc_source) (vfd : shuttle_vfd) (buf cmd : list Z) :
  sscanf_5s buf = (1, cmd) ->
  In cmd [cstr "clock"; cstr "clk"; cstr "text"; cstr "txt"] ->
  let ret := fst (set_vfd_mode_handler valid rtc vfd buf) in
  let vfd' := snd (set_vfd_mode_handler valid rtc vfd buf) in
  ret = Z.of_nat (length buf) /\
  (exists rest : list (list Z),
      sent_since vfd vfd' ([0x11; 1; 0; 0; 0; 0; 0; 0] :: rest)) /\
  mode vfd' = (if (strcmp cmd (cstr "clock") =? 0) || (strcmp cmd (cstr "clk") =? 0)
               then DRIVER_MODE_CLOCK else DRIVER_MODE_TEXT) /\
  icons_mask vfd' = icons_mask vfd /\
  get_vfd_icons_handler vfd' = get_vfd_icons_handler vfd.
Proof.
  intros Hscan Hcmd ret vfd'. subst ret vfd'.
  unfold set_vfd_mode_handler. rewrite Hscan.
  change (negb (1 =? 1)) with false. cbv iota zeta.
  assert (Hclock :
            let v := vfd_set_clock valid rtc
                       (upd_mode (vfd_reset_cursor vfd true) DRIVER_MODE_CLOCK) in
            (exists rest : list (list Z),
                sent_since vfd v ([0x11; 1; 0; 0; 0; 0; 0; 0] :: rest)) /\
            mode v = DRIVER_MODE_CLOCK /\ icons_mask v = icons_mask vfd).
  { intros v. subst v.
    destruct (vfd_set_clock_frame valid rtc
                (upd_mode (vfd_reset_cursor vfd true) DRIVER_MODE_CLOCK))
      as (_ & Hm & Hmode & _).
    destruct (vfd_set_clock_sent valid rtc
                (upd_mode (vfd_reset_cursor vfd true) DRIVER_MODE_CLOCK))
      as [ps Hps].
    split; [|split].
    - exists ps. unfold sent_since in *. rewrite Hps.
      change (ctrl_out (udev (upd_mode (vfd_reset_cursor vfd true) DRIVER_MODE_CLOCK)))
        with (ctrl_out (udev (vfd_reset_cursor vfd true))).
      rewrite (vfd_reset_cursor_sent vfd true), <- app_assoc. reflexivity.
    - rewrite Hmode. reflexivity.
    - rewrite Hm. reflexivity. }
  assert (Htext :
            let v := vfd_set_text
                       (upd_mode (vfd_reset_cursor vfd true) DRIVER_MODE_TEXT)
                       SHUTTLE_VFD_WIDTH in
            (exists rest : list (list Z),
                sent_since vfd v ([0x11; 1; 0; 0; 0; 0; 0; 0] :: rest)) /\
            mode v = DRIVER_MODE_TEXT /\ icons_mask v = icons_mask vfd).
  { intros v. subst v.
    destruct (vfd_set_text_frame
                (upd_mode (vfd_reset_cursor vfd true) DRIVER_MODE_TEXT)
                SHUTTLE_VFD_WIDTH) as (_ & Hm & Hmode & _).
    destruct (vfd_set_text_sent
                (upd_mode (vfd_reset_cursor vfd true) DRIVER_MODE_TEXT)
                SHUTTLE_VFD_WIDTH) as [ps Hps].
    split; [|split].
    - exists ps. unfold sent_since in *. rewrite Hps.
      change (ctrl_out (udev (upd_mode (vfd_reset_cursor vfd true) DRIVER_MODE_TEXT)))
        with (ctrl_out (udev (vfd_reset_cursor vfd true))).
      rewrite (vfd_reset_cursor_sent vfd true), <- app_assoc. reflexivity.
    - rewrite Hmode. reflexivity.
    - rewrite Hm. reflexivity. }
  cbv zeta in Hclock, Htext.
  destruct Hclock as (Hc1 & Hc2 & Hc3). destruct Htext as (Ht1 & Ht2 & Ht3).
  destruct Hcmd as [<-|[<-|[<-|[<-|[]]]]]; decide_tests; cbn [fst snd];
    (split; [reflexivity|]); (split; [assumption|]); (split; [assumption|]);
    (split; [assumption|]); apply get_vfd_icons_handler_mask; assumption.
Qed.

Lemma set_mode_keeps_icons_mask_witness :
  let vfd := set_vfd_icons_handler (shuttle_vfd_probe false) (cstr "play,vol5") in
  let vfd' := snd (set_vfd_mode_handler linux_rtc_valid_tm RtcAbsent vfd
                     (cstr "clock" ++ [10])) in
  sscanf_5s (cstr "clock" ++ [10]) = (1, cstr "clock") /\
  mode vfd' = DRIVER_MODE_CLOCK /\
  icons_mask vfd' = icons_mask vfd /\
  get_vfd_icons_handler vfd' = cstr "play vol5" ++ [10].
Proof.
  intros vfd vfd'.
  destruct (set_mode_keeps_icons_mask linux_rtc_valid_tm RtcAbsent vfd
              (cstr "clock" ++ [10]) (cstr "clock"))
    as (_ & _ & Hmode & Hmask & Hget).
  - reflexivity.
  - left. reflexivity.
  - split; [reflexivity|]. split; [exact Hmode|]. split; [exact Hmask|].
    fold vfd'. unfold vfd'. rewrite Hget. vm_compute. reflexivity.
Defined.

Lemma set_icons_unknown_token_skipped_witness :
  let vfd' := set_vfd_icons_handler (shuttle_vfd_probe false) (cstr "foo,play") in
  icons_mask vfd' = SHUTTLE_VFD_ICON_PLAY /\
  dev_log (udev vfd') = [ErrUnknownIcon 3] /\
  unknown_tokens (icon_tokens (cstr "foo,play")) = [cstr "foo"].
Proof.
  intros vfd'.
  destruct (set_icons_unknown_token_skipped (shuttle_vfd_probe false) (cstr "foo,play"))
    as (_ & _ & _ & _ & _ & _ & _ & _ & _ & Hlog & Hmask).
  split; [exact Hmask|]. split; [exact Hlog | reflexivity].
Defined.

(** * Further properties of the driver *)

(** ** Text: right alignment, truncation, flush and read-back *)

Lemma memcpy_after_memset (a src : list Z) (c : Z) (n l : nat) :
  length a = (n + l)%nat -> (l <= length src)%nat ->
  memcpy (memset a 0 c n) n src l = repeat c n ++ firstn l src.
Proof.
  intros Ha Hsrc. unfold memcpy, memset. cbn [firstn app Nat.add].
  rewrite firstn_app, repeat_length, Nat.sub_diag. cbn [firstn].
  rewrite app_nil_r, firstn_all2 by (rewrite repeat_length; lia).
  rewrite skipn_all2; [now rewrite app_nil_r|].
  rewrite length_app, repeat_length, length_skipn. lia.
Qed.

(** The screen that [set_vfd_text_handler] leaves, style by style, for an
    input that fits. *)
Lemma set_text_right_screen (vfd : shuttle_vfd) (buf : list Z) :
  wf_vfd vfd ->
  text_style vfd = DRIVER_STYLE_TEXT_ALIGN_RIGHT ->
  (length buf <= SHUTTLE_VFD_WIDTH)%nat ->
  screen (set_vfd_text_handler vfd buf)
    = repeat 0x20 (SHUTTLE_VFD_WIDTH - length buf) ++ buf.
Proof.
  intros [_ Hs] Hstyle Hlen. unfold set_vfd_text_handler. cbv zeta.
  set (vfd0 := if (length buf <? SHUTTLE_VFD_WIDTH)%nat
               then upd_screen vfd (memset (screen vfd) 0 0 SHUTTLE_VFD_WIDTH)
               else vfd).
  assert (Hs0 : length (screen vfd0) = SHUTTLE_VFD_WIDTH).
  { subst vfd0. destruct (length buf <? SHUTTLE_VFD_WIDTH)%nat; [|exact Hs].
    unfold upd_screen. cbn [screen].
    rewrite memset_whole by exact Hs. apply repeat_length. }
  assert (Hst0 : text_style vfd0 = DRIVER_STYLE_TEXT_ALIGN_RIGHT).
  { subst vfd0. destruct (length buf <? SHUTTLE_VFD_WIDTH)%nat; exact Hstyle. }
  rewrite Hst0.
  change (DRIVER_STYLE_TEXT_ALIGN_RIGHT =? DRIVER_STYLE_TEXT_ALIGN_RIGHT) with true.
  cbv iota. rewrite screen_after_flush.
  unfold upd_screen at 1. unfold screen at 1.
  unfold upd_screen at 1. unfold screen at 1.
  rewrite Nat.min_l by lia.
  rewrite memcpy_after_memset by lia.
  now rewrite firstn_all.
Qed.

(** X1. With Right alignment an input of at most 20 bytes is stored
    right-justified: the screen is 20 bytes, spaces first, then the
    input. *)
Theorem set_text_right_justified (vfd : shuttle_vfd) (buf : list Z) :
  wf_vfd vfd ->
  text_style vfd = DRIVER_STYLE_TEXT_ALIGN_RIGHT ->
  (length buf <= SHUTTLE_VFD_WIDTH)%nat ->
  let scr := screen (set_vfd_text_handler vfd buf) in
  length scr = SHUTTLE_VFD_WIDTH /\
  skipn (SHUTTLE_VFD_WIDTH - length buf) scr = buf /\
  forall k : nat, (k < SHUTTLE_VFD_WIDTH - length buf)%nat -> nth k scr 0 = 0x20.
Proof.
  intros Hwf Hstyle Hlen scr. subst scr.
  rewrite (set_text_right_screen vfd buf Hwf Hstyle Hlen).
  split; [|split].
  - rewrite length_app, repeat_length. lia.
  - rewrite skipn_app, repeat_length, Nat.sub_diag.
    rewrite skipn_all2 by (rewrite repeat_length; lia). reflexivity.
  - intros k Hk. rewrite app_nth1 by (rewrite repeat_length; lia).
    apply nth_repeat_lt. lia.
Qed.

Lemma set_text_right_justified_witness :
  screen (set_vfd_text_handler
            (snd (set_vfd_text_style_handler (shuttle_vfd_probe false) (cstr "r")))
            (cstr "Linux"))
    = repeat 0x20 15 ++ cstr "Linux".
Proof.
  destruct (set_text_right_justified
              (snd (set_vfd_text_style_handler (shuttle_vfd_probe false) (cstr "r")))
              (cstr "Linux")) as (_ & Hskip & Hpad).
  - split; reflexivity.
  - reflexivity.
  - vm_compute. lia.
  - reflexivity.
Defined.

(** The screen after an input of full width or more. *)
Lemma set_text_long_screen (vfd : shuttle_vfd) (buf : list Z) :
  wf_vfd vfd ->
  (SHUTTLE_VFD_WIDTH <= length buf)%nat ->
  screen (set_vfd_text_handler vfd buf) = firstn SHUTTLE_VFD_WIDTH buf.
Proof.
  intros [_ Hs] Hlen. unfold set_vfd_text_handler. cbv zeta.
  rewrite (proj2 (Nat.ltb_ge _ _) Hlen). rewrite Nat.min_r by lia.
  rewrite Nat.sub_diag.
  rewrite screen_after_flush.
  destruct (text_style vfd =? DRIVER_STYLE_TEXT_ALIGN_RIGHT);
    [|destruct (text_style vfd =? DRIVER_STYLE_TEXT_ALIGN_CENTER)];
    unfold upd_screen; cbn [screen].
  - unfold memset. cbn [firstn repeat app Nat.add skipn].
    unfold memcpy. cbn [firstn app Nat.add].
    rewrite skipn_all2 by lia. apply app_nil_r.
  - rewrite memset_whole by exact Hs.
    change (0 / 2)%nat with 0%nat.
    unfold memcpy. cbn [firstn app Nat.add].
    rewrite skipn_all2 by (rewrite repeat_length; lia). apply app_nil_r.
  - unfold memcpy. cbn [firstn app Nat.add].
    rewrite skipn_all2 by lia. apply app_nil_r.
Qed.

(** X2. An input of 20 bytes or more is cut to its first 20 bytes, and
    these fill the whole screen, whatever the text style: no byte of the
    old screen and no padding is left. *)
Theorem set_text_truncates (vfd : shuttle_vfd) (buf : list Z) :
  wf_vfd vfd ->
  (SHUTTLE_VFD_WIDTH <= length buf)%nat ->
  let scr := screen (set_vfd_text_handler vfd buf) in
  scr = firstn SHUTTLE_VFD_WIDTH buf /\
  length scr = SHUTTLE_VFD_WIDTH /\
  forall k : nat, (k < SHUTTLE_VFD_WIDTH)%nat -> nth k scr 0 = nth k buf 0.
Proof.
  intros Hwf Hlen scr. subst scr.
  rewrite (set_text_long_screen vfd buf Hwf Hlen).
  split; [reflexivity|]. split.
  - rewrite length_firstn. lia.
  - intros k Hk. apply nth_firstn_lt. exact Hk.
Qed.

Lemma set_text_truncates_witness :
  screen (set_vfd_text_handler left_device (cstr "abcdefghijklmnopqrstuvwxyz"))
    = cstr "abcdefghijklmnopqrst".
Proof.
  destruct (set_text_truncates left_device (cstr "abcdefghijklmnopqrstuvwxyz"))
    as (H & _).
  - split; reflexivity.
  - vm_compute. lia.
  - rewrite H. reflexivity.
Defined.

(** [set_vfd_text_handler] is the style-specific copy followed by the
    flush; the copy touches nothing but the screen. *)
Lemma set_vfd_text_handler_flush (vfd : shuttle_vfd) (buf : list Z) :
  exists vfd1 : shuttle_vfd,
    set_vfd_text_handler vfd buf
      = (if mode vfd1 =? DRIVER_MODE_TEXT
         then vfd_set_text (vfd_reset_cursor vfd1 false) SHUTTLE_VFD_WIDTH
         else vfd1) /\
    udev vfd1 = udev vfd /\ icons_mask vfd1 = icons_mask vfd /\
    mode vfd1 = mode vfd /\ text_style vfd1 = text_style vfd /\
    packet vfd1 = packet vfd.
Proof.
  unfold set_vfd_text_handler. cbv zeta.
  match goal with
  | |- context [if mode ?v =? DRIVER_MODE_TEXT then _ else _] => exists v
  end.
  split; [reflexivity|].
  destruct (length buf <? SHUTTLE_VFD_WIDTH)%nat;
    (destruct (text_style _ =? DRIVER_STYLE_TEXT_ALIGN_RIGHT);
     [|destruct (text_style _ =? DRIVER_STYLE_TEXT_ALIGN_CENTER)]);
    repeat split.
Qed.

(** The packets of [set_vfd_text_handler], and what it leaves alone. *)
Lemma set_vfd_text_handler_sent (vfd : shuttle_vfd) (buf : list Z) :
  wf_vfd vfd ->
  let vfd' := set_vfd_text_handler vfd buf in
  let scr := screen vfd' in
  (mode vfd = DRIVER_MODE_TEXT ->
   sent_since vfd vfd'
     [ [0x11; 2; 0; 0; 0; 0; 0; 0];
       0x97 :: firstn 7 scr;
       0x97 :: firstn 7 (skipn 7 scr);
       0x96 :: skipn 14 scr ++ [0] ]) /\
  (mode vfd <> DRIVER_MODE_TEXT -> sent_since vfd vfd' []) /\
  icons_mask vfd' = icons_mask vfd /\ mode vfd' = mode vfd /\
  text_style vfd' = text_style vfd /\ dev_log (udev vfd') = dev_log (udev vfd).
Proof.
  intros Hwf vfd' scr.
  pose proof (wf_set_vfd_text_handler vfd buf Hwf) as Hwf'.
  destruct (set_vfd_text_handler_flush vfd buf)
    as (vfd1 & Heq & Hu & Hi & Hm & Ht & Hp).
  assert (Hscr : scr = screen vfd1).
  { subst scr vfd'. rewrite Heq. apply screen_after_flush. }
  assert (Hwf1 : wf_vfd vfd1).
  { destruct Hwf as [Hpk _]. destruct Hwf' as [_ Hsc]. split.
    - now rewrite Hp.
    - fold vfd' in Hsc. fold scr in Hsc. now rewrite <- Hscr. }
  destruct (wf_packet_builders (fun _ => 0) RtcAbsent false vfd1 Hwf1) as (Hwfr & _).
  pose proof (vfd_set_text_full _ Hwfr) as Htext.
  pose proof (vfd_reset_cursor_sent vfd1 false) as Hreset.
  destruct (vfd_reset_cursor_frame vfd1 false) as (R1 & R2 & R3 & R4 & R5).
  destruct (vfd_set_text_frame (vfd_reset_cursor vfd1 false) SHUTTLE_VFD_WIDTH)
    as (T1 & T2 & T3 & T4 & T5).
  cbv zeta in R1, R2, R3, R4, R5, T1, T2, T3, T4, T5.
  subst vfd'. rewrite Heq. rewrite Hm.
  split; [|split].
  - intros Hmode. rewrite Hmode. change (DRIVER_MODE_TEXT =? DRIVER_MODE_TEXT) with true.
    cbv iota. unfold sent_since in *.
    rewrite Htext, Hreset, R1, Hu, <- app_assoc, <- Hscr. reflexivity.
  - intros Hmode. rewrite (proj2 (Z.eqb_neq _ _) Hmode).
    unfold sent_since. now rewrite Hu, app_nil_r.
  - destruct (mode vfd =? DRIVER_MODE_TEXT).
    + rewrite T2, T3, T4, T5, R2, R3, R4, R5, Hi, Hm, Ht, Hu. repeat split.
    + rewrite Hi, Hm, Ht, Hu. repeat split.
Qed.

(** X3. set_text always updates the screen but writes to the display only
    in Text mode: there it sends the cursor-only reset packet (command 0x1,
    payload 2) followed by three text packets (eight bytes each, command
    0x9, length nibbles 7, 7 and 6, last byte of the third zero) that
    together carry the 20 bytes of the new screen; in any other mode no
    packet is sent.  Icons, mode and style are untouched either way. *)
Theorem set_text_flushes_in_text_mode (vfd : shuttle_vfd) (buf : list Z) :
  wf_vfd vfd ->
  let vfd' := set_vfd_text_handler vfd buf in
  (mode vfd = DRIVER_MODE_TEXT ->
   exists p1 p2 p3 : list Z,
     sent_since vfd vfd' [[0x11; 2; 0; 0; 0; 0; 0; 0]; p1; p2; p3] /\
     Forall (fun p => length p = SHUTTLE_VFD_PACKET_SIZE /\ pkt_cmd p = 0x9)
       [p1; p2; p3] /\
     pkt_len p1 = 7 /\ pkt_len p2 = 7 /\ pkt_len p3 = 6 /\
     pkt_payload p1 ++ pkt_payload p2 ++ firstn 6 (pkt_payload p3) = screen vfd' /\
     nth 7 p3 0 = 0) /\
  (mode vfd <> DRIVER_MODE_TEXT -> sent_since vfd vfd' []) /\
  icons_mask vfd' = icons_mask vfd /\ mode vfd' = mode vfd /\
  text_style vfd' = text_style vfd.
Proof.
  intros Hwf vfd'.
  destruct (set_vfd_text_handler_sent vfd buf Hwf) as (H1 & H2 & H3 & H4 & H5 & _).
  fold vfd' in H1, H2, H3, H4, H5.
  split; [|repeat split; assumption].
  intros Hmode. eexists _, _, _. split; [exact (H1 Hmode)|].
  destruct (wf_set_vfd_text_handler vfd buf Hwf) as [_ Hs]. fold vfd' in Hs.
  unfold SHUTTLE_VFD_WIDTH in Hs.
  remember (screen vfd') as sc eqn:Hsc. clear Hsc H1.
  explode sc Hs.
  split; [repeat (constructor; [split; reflexivity|]); constructor|].
  repeat split; reflexivity.
Qed.

Lemma set_text_flushes_in_text_mode_witness :
  wf_vfd (shuttle_vfd_probe false) /\
  mode (shuttle_vfd_probe false) = DRIVER_MODE_TEXT /\
  sent_since (shuttle_vfd_probe false)
    (set_vfd_text_handler (shuttle_vfd_probe false) (cstr "Linux"))
    [ [0x11; 2; 0; 0; 0; 0; 0; 0];
      0x97 :: repeat 0x20 7;
      0x97 :: cstr "Linux" ++ repeat 0x20 2;
      0x96 :: repeat 0x20 6 ++ [0] ].
Proof.
  assert (Hwf : wf_vfd (shuttle_vfd_probe false)) by (split; reflexivity).
  split; [exact Hwf|]. split; [reflexivity|].
  destruct (set_text_flushes_in_text_mode (shuttle_vfd_probe false) (cstr "Linux") Hwf)
    as (H & _).
  destruct (H eq_refl) as (p1 & p2 & p3 & Hsent & _).
  unfold sent_since in *. rewrite Hsent. clear H.
  vm_compute in Hsent. injection Hsent as <- <- <-.
  vm_compute. reflexivity.
Defined.

Lemma get_text_trim_skip (buf : list Z) (n k : nat) :
  (forall j : nat, (n <= j < n + k)%nat -> trimmed_byte (nth j buf 0)) ->
  get_text_trim buf (n + k) = get_text_trim buf n.
Proof.
  induction k as [|k IH]; intros H.
  - now rewrite Nat.add_0_r.
  - rewrite Nat.add_succ_r. cbn [get_text_trim].
    destruct (H (n + k)%nat ltac:(lia)) as [E|E]; rewrite E; cbn [Z.eqb orb];
      apply IH; intros j Hj; apply H; lia.
Qed.

Lemma nth_last_app (s t : list Z) :
  s <> [] -> nth (length s - 1) (s ++ t) 0 = last s 0.
Proof.
  intros Hs. rewrite app_nth1 by (destruct s; [contradiction | simpl; lia]).
  induction s as [|x s IH]; [contradiction|].
  destruct s as [|y s]; [reflexivity|].
  specialize (IH ltac:(discriminate)).
  cbn [length] in *. rewrite Nat.sub_succ, Nat.sub_0_r in *.
  exact IH.
Qed.

Lemma get_text_trim_app (s t : list Z) :
  s <> [] -> ~ trimmed_byte (last s 0) -> Forall trimmed_byte t ->
  get_text_trim (s ++ t) (length s + length t) = Some (length s).
Proof.
  intros Hs Hlast Ht. rewrite get_text_trim_skip.
  - assert (Hpos : length s = S (length s - 1))
      by (destruct s; [contradiction | simpl; lia]).
    rewrite Hpos at 1. cbn [get_text_trim].
    rewrite nth_last_app by exact Hs.
    unfold trimmed_byte in Hlast.
    destruct (Z.eqb_spec (last s 0) 0) as [E|E]; [tauto|].
    destruct (Z.eqb_spec (last s 0) 10) as [E'|E']; [tauto|].
    cbn [orb]. now rewrite <- Hpos.
  - intros j Hj. rewrite app_nth2 by lia.
    rewrite Forall_forall in Ht. apply Ht. apply nth_In. lia.
Qed.

Lemma get_vfd_text_handler_screen (vfd : shuttle_vfd) :
  wf_vfd vfd ->
  get_vfd_text_handler vfd
    = match get_text_trim (screen vfd) (length (screen vfd)) with
      | None => ReadOutside (-1)
      | Some sz => Shown (firstn sz (screen vfd) ++ [10])
      end.
Proof.
  intros [_ Hlen]. unfold get_vfd_text_handler. cbv zeta.
  rewrite <- Hlen, firstn_all. reflexivity.
Qed.

(** X4. get_text returns the screen without its trailing NUL and newline
    bytes, followed by one newline: if the screen is [s ++ t] with [t]
    made of NUL and newline bytes and [s] ending in another byte, the
    output is [s] and a newline. *)
Theorem get_text_drops_trailing_padding (vfd : shuttle_vfd) (s t : list Z) :
  wf_vfd vfd ->
  screen vfd = s ++ t ->
  s <> [] -> ~ trimmed_byte (last s 0) ->
  Forall trimmed_byte t ->
  get_vfd_text_handler vfd = Shown (s ++ [10]).
Proof.
  intros Hwf Hscr Hs Hlast Ht.
  rewrite (get_vfd_text_handler_screen vfd Hwf), Hscr, length_app.
  rewrite (get_text_trim_app s t Hs Hlast Ht).
  rewrite firstn_app, Nat.sub_diag, firstn_all. cbn [firstn].
  now rewrite app_nil_r.
Qed.

Lemma get_text_drops_trailing_padding_witness :
  let vfd := set_vfd_text_handler left_device (cstr "a" ++ [10] ++ cstr "b" ++ [10]) in
  wf_vfd vfd /\
  screen vfd = (cstr "a" ++ [10] ++ cstr "b") ++ 10 :: repeat 0 16 /\
  get_vfd_text_handler vfd = Shown (cstr "a" ++ [10] ++ cstr "b" ++ [10]).
Proof.
  intros vfd.
  assert (Hwf : wf_vfd vfd) by (split; reflexivity).
  assert (Hscr : screen vfd = (cstr "a" ++ [10] ++ cstr "b") ++ 10 :: repeat 0 16)
    by (vm_compute; reflexivity).
  split; [exact Hwf|]. split; [exact Hscr|].
  rewrite (get_text_drops_trailing_padding vfd (cstr "a" ++ [10] ++ cstr "b")
             (10 :: repeat 0 16) Hwf Hscr).
  - reflexivity.
  - discriminate.
  - intros [H|H]; discriminate H.
  - constructor; [right; reflexivity|].
    apply Forall_forall. intros c Hc. left. exact (repeat_spec _ _ _ Hc).
Defined.

(** X5. Round trip with Left alignment: after set_text of at most 20
    bytes that are [s ++ t], with [t] made of NUL and newline bytes and [s]
    non-empty and ending in another byte, get_text returns [s] and a
    newline; the NUL padding and a trailing newline of the input are
    dropped. *)
Theorem set_text_get_text_left (vfd : shuttle_vfd) (s t : list Z) :
  wf_vfd vfd ->
  text_style vfd = DRIVER_STYLE_TEXT_ALIGN_LEFT ->
  (length (s ++ t) <= SHUTTLE_VFD_WIDTH)%nat ->
  s <> [] -> ~ trimmed_byte (last s 0) ->
  Forall trimmed_byte t ->
  get_vfd_text_handler (set_vfd_text_handler vfd (s ++ t)) = Shown (s ++ [10]).
Proof.
  intros Hwf Hstyle Hlen Hs Hlast Ht.
  pose proof (wf_set_vfd_text_handler vfd (s ++ t) Hwf) as Hwf'.
  assert (Hscr : exists pad : nat,
             screen (set_vfd_text_handler vfd (s ++ t)) = s ++ (t ++ repeat 0 pad)).
  { destruct (Nat.eq_dec (length (s ++ t)) SHUTTLE_VFD_WIDTH) as [E|E].
    - exists 0%nat. rewrite set_text_long_screen by (exact Hwf || lia).
      rewrite <- E, firstn_all. cbn [repeat]. now rewrite app_nil_r.
    - exists (SHUTTLE_VFD_WIDTH - length (s ++ t))%nat.
      rewrite set_text_left_screen by (exact Hwf || exact Hstyle || lia).
      now rewrite app_assoc. }
  destruct Hscr as [pad Hscr].
  assert (Hpad : Forall trimmed_byte (t ++ repeat 0 pad)).
  { apply Forall_app. split; [exact Ht|].
    apply Forall_forall. intros c Hc. apply repeat_spec in Hc. left. exact Hc. }
  rewrite (get_vfd_text_handler_screen _ Hwf'), Hscr, length_app.
  rewrite (get_text_trim_app s _ Hs Hlast Hpad).
  rewrite firstn_app, Nat.sub_diag, firstn_all. cbn [firstn].
  now rewrite app_nil_r.
Qed.

Lemma set_text_get_text_left_witness :
  get_vfd_text_handler (set_vfd_text_handler left_device (cstr "hello" ++ [10]))
    = Shown (cstr "hello" ++ [10]).
Proof.
  apply (set_text_get_text_left left_device (cstr "hello") [10]).
  - split; reflexivity.
  - reflexivity.
  - vm_compute. lia.
  - discriminate.
  - intros [H|H]; discriminate H.
  - constructor; [right; reflexivity | constructor].
Defined.

(** ** Icons: range of the mask, toggles and requests that resolve nothing *)

Lemma below_pow2_bits (k x : Z) :
  0 <= k ->
  (0 <= x < 2 ^ k <-> 0 <= x /\ forall n : Z, k <= n -> Z.testbit x n = false).
Proof.
  intros Hk. split.
  - intros [H0 Hlt]. split; [exact H0|]. intros n Hn.
    destruct (Z.eq_dec x 0) as [->|Hx]; [apply Z.bits_0|].
    apply Z.bits_above_log2; [exact H0|].
    assert (Z.log2 x < k) by (apply Z.log2_lt_pow2; lia). lia.
  - intros [H0 Hbits]. split; [exact H0|].
    destruct (Z.eq_dec x 0) as [->|Hx]; [apply Z.pow_pos_nonneg; lia|].
    apply Z.log2_lt_pow2; [lia|].
    destruct (Z.lt_ge_cases (Z.log2 x) k) as [Hlt|Hge]; [exact Hlt|].
    specialize (Hbits (Z.log2 x) Hge). rewrite Z.bit_log2 in Hbits by lia.
    discriminate.
Qed.

(** A catalog value is a sentinel or lies within the 19 icon bits. *)
Lemma icon_value_small (v : Z) :
  icon_value v ->
  v = DRIVER_ICON_CLEAR \/ v = DRIVER_ICON_SET \/ 0 < v < 2 ^ 19.
Proof.
  assert (Hconst : forall c : Z,
            (c =? DRIVER_ICON_CLEAR) || (c =? DRIVER_ICON_SET)
            || ((0 <? c) && (c <? 2 ^ 19)) = true ->
            c = DRIVER_ICON_CLEAR \/ c = DRIVER_ICON_SET \/ 0 < c < 2 ^ 19).
  { intros c H. apply orb_true_iff in H. destruct H as [H|H].
    - apply orb_true_iff in H. destruct H as [H|H]; apply Z.eqb_eq in H; auto.
    - apply andb_true_iff in H. destruct H as [Hlo Hhi].
      apply Z.ltb_lt in Hlo. apply Z.ltb_lt in Hhi. right; right. lia. }
  intros [Hin|(d & Hd & ->)].
  - cbv [icons map value] in Hin.
    repeat (destruct Hin as [<-|Hin]; [apply Hconst; reflexivity|]).
    contradiction.
  - assert (Hcases : d = 1 \/ d = 2 \/ d = 3 \/ d = 4 \/ d = 5 \/ d = 6 \/ d = 7
                     \/ d = 8 \/ d = 9 \/ d = 10 \/ d = 11 \/ d = 12) by lia.
    repeat (destruct Hcases as [->|Hcases]; [apply Hconst; reflexivity|]).
    subst d. apply Hconst. reflexivity.
Qed.

(** Above bit 18 the accumulated mask can only have the sentinel bits. *)
Lemma resolved_mask_high_bits (toks : list (list Z)) (n : Z) :
  19 <= n -> Z.testbit (resolved_mask toks) n = true -> n = 28 \/ n = 29.
Proof.
  intros Hn Hbit. unfold resolved_mask in Hbit.
  rewrite fold_lookup_testbit, Z.bits_0, orb_false_l in Hbit.
  apply existsb_exists in Hbit. destruct Hbit as (t & _ & Ht).
  destruct (lookup t) as [v|] eqn:E; [|discriminate].
  destruct (icon_value_small v (lookup_icon_value t v E)) as [->|[->|Hv]].
  - left. unfold DRIVER_ICON_CLEAR in Ht. rewrite Z.shiftl_1_l in Ht.
    rewrite Z.pow2_bits_eqb in Ht by lia. apply Z.eqb_eq in Ht. lia.
  - right. unfold DRIVER_ICON_SET in Ht. rewrite Z.shiftl_1_l in Ht.
    rewrite Z.pow2_bits_eqb in Ht by lia. apply Z.eqb_eq in Ht. lia.
  - exfalso.
    assert (Hb : 0 <= v < 2 ^ 19) by lia.
    apply (below_pow2_bits 19 v ltac:(lia)) in Hb. destruct Hb as [_ Hb].
    rewrite (Hb n Hn) in Ht. discriminate.
Qed.

Lemma icons_merge_range (cur mask : Z) :
  0 <= cur < 2 ^ 19 ->
  0 <= mask ->
  (forall n : Z, 19 <= n -> Z.testbit mask n = true -> n = 28 \/ n = 29) ->
  0 <= icons_merge cur mask < 2 ^ 19.
Proof.
  intros Hcur Hm Hhigh.
  apply (below_pow2_bits 19 cur ltac:(lia)) in Hcur. destruct Hcur as [Hc0 Hcb].
  assert (Hmb : Z.testbit mask 28 = false -> Z.testbit mask 29 = false ->
                forall n : Z, 19 <= n -> Z.testbit mask n = false).
  { intros H28 H29 n Hn. destruct (Z.testbit mask n) eqn:E; [|reflexivity].
    destruct (Hhigh n Hn E) as [->| ->]; congruence. }
  apply (below_pow2_bits 19); [lia|].
  unfold icons_merge, DRIVER_ICON_CLEAR, DRIVER_ICON_SET.
  rewrite !land_bit_eqb by lia.
  destruct (Z.testbit mask 28) eqn:H28; cbn [negb].
  { split; [lia|]. intros n _. apply Z.bits_0. }
  destruct (Z.testbit mask 29) eqn:H29; cbn [negb].
  { split.
    - apply Z.land_nonneg. left. exact Hm.
    - intros n Hn. rewrite Z.land_spec.
      destruct (Z.testbit mask n) eqn:E; [|reflexivity].
      destruct (Hhigh n Hn E) as [->| ->]; [congruence | reflexivity]. }
  specialize (Hmb eq_refl eq_refl).
  assert (Hbase : forall x : Z, 0 <= Z.land x SHUTTLE_VFD_BASE_MASK).
  { intros x. apply Z.land_nonneg. right. discriminate. }
  destruct (SHUTTLE_VFD_ICON_VOL_01 <=? mask).
  - destruct (Z.land cur SHUTTLE_VFD_VOL_MASK =? Z.land mask SHUTTLE_VFD_VOL_MASK).
    + split.
      * apply Z.lxor_nonneg. split; intros _; apply Hbase.
      * intros n Hn. rewrite Z.lxor_spec, !Z.land_spec, testbit_BASE_MASK by lia.
        replace (n <? 15) with false by (symmetry; apply Z.ltb_ge; lia).
        now rewrite !andb_false_r.
    + split.
      * apply Z.lxor_nonneg. split; intros _; [exact Hm | apply Hbase].
      * intros n Hn. rewrite Z.lxor_spec, Z.land_spec, testbit_BASE_MASK by lia.
        replace (n <? 15) with false by (symmetry; apply Z.ltb_ge; lia).
        now rewrite andb_false_r, (Hmb n Hn).
  - split.
    + apply Z.lxor_nonneg. split; intros _; assumption.
    + intros n Hn. now rewrite Z.lxor_spec, (Hcb n Hn), (Hmb n Hn).
Qed.

(** X6. The icon mask stays within its 19 icon bits: if icons_mask is in
    [0, 2^19) before set_icons it is so afterwards, for every request; the
    Clear and Set sentinel bits are never stored.  [shuttle_vfd_probe]
    starts from mask 0. *)
Theorem set_icons_mask_in_range (vfd : shuttle_vfd) (buf : list Z) :
  0 <= icons_mask vfd < 2 ^ 19 ->
  0 <= icons_mask (set_vfd_icons_handler vfd buf) < 2 ^ 19.
Proof.
  intros Hcur. rewrite (proj1 (set_vfd_icons_handler_tokens vfd buf)).
  apply icons_merge_range.
  - exact Hcur.
  - apply resolved_mask_below.
  - apply resolved_mask_high_bits.
Qed.

Lemma set_icons_mask_in_range_witness :
  0 <= icons_mask (set_vfd_icons_handler (shuttle_vfd_probe false)
                     (cstr "=,all,vol3")) < 2 ^ 19.
Proof.
  apply (set_icons_mask_in_range (shuttle_vfd_probe false) (cstr "=,all,vol3")).
  vm_compute. split; [discriminate | reflexivity].
Defined.

(** Without sentinel and without volume level the accumulated mask is made
    of base bits only. *)
Lemma resolved_mask_base_only (toks : list (list Z)) :
  Forall (fun t => lookup t <> Some DRIVER_ICON_CLEAR) toks ->
  Forall (fun t => lookup t <> Some DRIVER_ICON_SET) toks ->
  vol_field (resolved_mask toks) = 0 ->
  Z.testbit (resolved_mask toks) 28 = false /\
  Z.testbit (resolved_mask toks) 29 = false /\
  0 <= resolved_mask toks < SHUTTLE_VFD_ICON_VOL_01.
Proof.
  intros Hnoclear Hnoset Hvol.
  pose proof (no_sentinel_bit 28 _ toks (resolved_mask_clear toks) Hnoclear) as H28.
  pose proof (no_sentinel_bit 29 _ toks (resolved_mask_set toks) Hnoset) as H29.
  split; [exact H28|]. split; [exact H29|].
  change SHUTTLE_VFD_ICON_VOL_01 with (2 ^ 15).
  apply (below_pow2_bits 15); [lia|].
  split; [apply resolved_mask_below|].
  intros n Hn. destruct (Z.testbit (resolved_mask toks) n) eqn:E; [|reflexivity].
  destruct (Z.lt_ge_cases n 19) as [Hlt|Hge].
  - assert (Hb : Z.testbit (vol_field (resolved_mask toks)) (n - 15) = true).
    { rewrite testbit_vol_field by lia.
      replace (n - 15 + 15) with n by lia. rewrite E.
      apply andb_true_iff. split; [reflexivity | apply Z.ltb_lt; lia]. }
    rewrite Hvol, Z.bits_0 in Hb. discriminate.
  - destruct (resolved_mask_high_bits toks n Hge E) as [->| ->]; congruence.
Qed.

(** X7. A request made of base icons only (no sentinel, no volume level)
    toggles them: it XORs the resolved bits into icons_mask, so sending the
    same request twice restores the mask that was there before. *)
Theorem set_icons_toggle_twice (vfd : shuttle_vfd) (buf : list Z) :
  let toks := icon_tokens buf in
  let once := set_vfd_icons_handler vfd buf in
  let twice := set_vfd_icons_handler once buf in
  Forall (fun t => lookup t <> Some DRIVER_ICON_CLEAR) toks ->
  Forall (fun t => lookup t <> Some DRIVER_ICON_SET) toks ->
  vol_field (resolved_mask toks) = 0 ->
  icons_mask once = Z.lxor (icons_mask vfd) (resolved_mask toks) /\
  icons_mask twice = icons_mask vfd.
Proof.
  intros toks once twice Hnoclear Hnoset Hvol.
  destruct (resolved_mask_base_only toks Hnoclear Hnoset Hvol) as (H28 & H29 & Hm).
  assert (Honce : icons_mask once = Z.lxor (icons_mask vfd) (resolved_mask toks)).
  { subst once. rewrite (proj1 (set_vfd_icons_handler_tokens vfd buf)).
    apply icons_merge_toggle; [exact H28 | exact H29 | lia]. }
  split; [exact Honce|].
  subst twice. rewrite (proj1 (set_vfd_icons_handler_tokens once buf)).
  fold toks. rewrite icons_merge_toggle by (exact H28 || exact H29 || lia).
  rewrite Honce, Z.lxor_assoc, Z.lxor_nilpotent. apply Z.lxor_0_r.
Qed.

Lemma set_icons_toggle_twice_witness :
  let vfd := set_vfd_icons_handler (shuttle_vfd_probe false) (cstr "rec,vol3") in
  icons_mask (set_vfd_icons_handler vfd (cstr "play stop"))
    = Z.lor (icons_mask vfd) (Z.lor SHUTTLE_VFD_ICON_PLAY SHUTTLE_VFD_ICON_STOP) /\
  icons_mask (set_vfd_icons_handler (set_vfd_icons_handler vfd (cstr "play stop"))
                (cstr "play stop")) = icons_mask vfd.
Proof.
  intros vfd.
  destruct (set_icons_toggle_twice vfd (cstr "play stop")) as [H1 H2].
  - repeat constructor; discriminate.
  - repeat constructor; discriminate.
  - vm_compute. reflexivity.
  - split; [rewrite H1; vm_compute; reflexivity | exact H2].
Defined.

(** The packet of [vfd_set_icons], whatever [vfd->packet] held. *)
Lemma vfd_set_icons_sent (vfd : shuttle_vfd) :
  sent_since vfd (vfd_set_icons vfd)
    [[ 0x74;
       Z.land (Z.shiftr (icons_mask vfd) 15) 0x1F mod 256;
       Z.land (Z.shiftr (icons_mask vfd) 10) 0x1F mod 256;
       Z.land (Z.shiftr (icons_mask vfd) 5) 0x1F mod 256;
       Z.land (icons_mask vfd) 0x1F mod 256;
       0; 0; 0 ]].
Proof. destruct vfd as [u im md ts pk sc]. reflexivity. Qed.

Lemma set_vfd_icons_handler_sent (vfd : shuttle_vfd) (buf : list Z) :
  let vfd' := set_vfd_icons_handler vfd buf in
  sent_since vfd vfd'
    [[ 0x74;
       Z.land (Z.shiftr (icons_mask vfd') 15) 0x1F mod 256;
       Z.land (Z.shiftr (icons_mask vfd') 10) 0x1F mod 256;
       Z.land (Z.shiftr (icons_mask vfd') 5) 0x1F mod 256;
       Z.land (icons_mask vfd') 0x1F mod 256;
       0; 0; 0 ]].
Proof.
  intros vfd'. subst vfd'. unfold set_vfd_icons_handler.
  rewrite icons_scan_mask_tokens.
  set (v := upd_icons_mask _ _).
  pose proof (vfd_set_icons_sent v) as H. unfold sent_since in *.
  replace (icons_mask (vfd_set_icons v)) with (icons_mask v) by reflexivity.
  rewrite H. reflexivity.
Qed.

(** X8. A request in which no token resolves (the empty request, one made
    of separators only, or only unknown names) leaves icons_mask as it
    was, reports each token once, in order, and still sends one icons
    packet, the one of the unchanged mask. *)
Theorem set_icons_nothing_resolved (vfd : shuttle_vfd) (buf : list Z) :
  let toks := icon_tokens buf in
  let vfd' := set_vfd_icons_handler vfd buf in
  Forall (fun t => lookup t = None) toks ->
  icons_mask vfd' = icons_mask vfd /\
  dev_log (udev vfd')
    = dev_log (udev vfd) ++ map (fun t => ErrUnknownIcon (length t)) toks /\
  ctrl_out (udev vfd') = ctrl_out (udev (vfd_set_icons vfd)).
Proof.
  intros toks vfd' Hnone.
  assert (Hmask : resolved_mask toks = 0).
  { unfold resolved_mask. clear vfd'. induction toks as [|t ts IH]; [reflexivity|].
    inversion Hnone as [|? ? Ht Hts]; subst. cbn [fold_left]. rewrite Ht.
    apply IH. exact Hts. }
  assert (Hunk : unknown_tokens toks = toks).
  { unfold unknown_tokens. clear vfd' Hmask. induction toks as [|t ts IH]; [reflexivity|].
    inversion Hnone as [|? ? Ht Hts]; subst. cbn [filter]. rewrite Ht.
    f_equal. apply IH. exact Hts. }
  destruct (set_vfd_icons_handler_tokens vfd buf) as [H1 H2].
  fold toks in H1, H2. fold vfd' in H1, H2.
  rewrite Hmask in H1. rewrite Hunk in H2.
  assert (Hm : icons_mask vfd' = icons_mask vfd).
  { rewrite H1. rewrite icons_merge_toggle by reflexivity. apply Z.lxor_0_r. }
  split; [exact Hm|]. split; [exact H2|].
  pose proof (set_vfd_icons_handler_sent vfd buf) as Hs.
  pose proof (vfd_set_icons_sent vfd) as Hs0.
  cbv zeta in Hs. fold vfd' in Hs. unfold sent_since in Hs, Hs0.
  rewrite Hs, Hs0, Hm. reflexivity.
Qed.

Lemma set_icons_nothing_resolved_witness :
  let vfd := set_vfd_icons_handler (shuttle_vfd_probe false) (cstr "rec,vol3") in
  icons_mask (set_vfd_icons_handler vfd (cstr ", foo ,,Play")) = icons_mask vfd /\
  dev_log (udev (set_vfd_icons_handler vfd (cstr ", foo ,,Play")))
    = [ErrUnknownIcon 3; ErrUnknownIcon 4].
Proof.
  intros vfd.
  destruct (set_icons_nothing_resolved vfd (cstr ", foo ,,Play")) as (H1 & H2 & _).
  - repeat constructor.
  - split; [exact H1 | rewrite H2; reflexivity].
Defined.

(** X9. Within one request the tokens are OR-ed, so only the set of tokens
    counts: two requests with the same tokens, in any order and with any
    repetitions, store the same icons_mask (naming an icon twice in one
    request toggles it once). *)
Theorem set_icons_token_set (vfd : shuttle_vfd) (buf1 buf2 : list Z) :
  (forall t : list Z, In t (icon_tokens buf1) <-> In t (icon_tokens buf2)) ->
  icons_mask (set_vfd_icons_handler vfd buf1)
    = icons_mask (set_vfd_icons_handler vfd buf2).
Proof.
  intros Hsame.
  rewrite (proj1 (set_vfd_icons_handler_tokens vfd buf1)),
          (proj1 (set_vfd_icons_handler_tokens vfd buf2)).
  f_equal. apply Z.bits_inj'. intros n Hn. unfold resolved_mask.
  rewrite !fold_lookup_testbit, !Z.bits_0, !orb_false_l.
  apply eq_true_iff_eq. rewrite !existsb_exists.
  split; intros (t & Hin & Ht); exists t; (split; [apply Hsame; exact Hin | exact Ht]).
Qed.

Lemma set_icons_token_set_witness :
  icons_mask (set_vfd_icons_handler (shuttle_vfd_probe false) (cstr "play,stop"))
    = icons_mask (set_vfd_icons_handler (shuttle_vfd_probe false)
                    (cstr "stop play,play")).
Proof.
  apply (set_icons_token_set (shuttle_vfd_probe false)
           (cstr "play,stop") (cstr "stop play,play")).
  intros t. change (icon_tokens (cstr "play,stop")) with [cstr "play"; cstr "stop"].
  change (icon_tokens (cstr "stop play,play"))
    with [cstr "stop"; cstr "play"; cstr "play"].
  cbn [In]. tauto.
Defined.

Lemma icon_tokens_from_nul (a b cur : list Z) :
  icon_tokens_from cur (a ++ 0 :: b) = icon_tokens_from cur a.
Proof.
  revert cur; induction a as [|c a IH]; intros cur; cbn [app icon_tokens_from].
  - reflexivity.
  - destruct (c =? 0); [reflexivity|].
    destruct (is_separator c); [destruct cur|]; rewrite IH; reflexivity.
Qed.

(** X10. The request ends at its first NUL byte: whatever follows it is
    ignored, for the stored mask, for the unknown-icon reports and for the
    packet. *)
Theorem set_icons_stops_at_nul (vfd : shuttle_vfd) (a b : list Z) :
  let cut := set_vfd_icons_handler vfd a in
  let full := set_vfd_icons_handler vfd (a ++ 0 :: b) in
  icons_mask full = icons_mask cut /\
  dev_log (udev full) = dev_log (udev cut) /\
  ctrl_out (udev full) = ctrl_out (udev cut).
Proof.
  intros cut full.
  destruct (set_vfd_icons_handler_tokens vfd a) as [C1 C2].
  destruct (set_vfd_icons_handler_tokens vfd (a ++ 0 :: b)) as [F1 F2].
  fold cut in C1, C2. fold full in F1, F2.
  unfold icon_tokens in F1, F2. rewrite icon_tokens_from_nul in F1, F2.
  fold (icon_tokens a) in F1, F2.
  assert (Hm : icons_mask full = icons_mask cut) by (now rewrite F1, C1).
  split; [exact Hm|]. split; [now rewrite F2, C2|].
  pose proof (set_vfd_icons_handler_sent vfd a) as S1.
  pose proof (set_vfd_icons_handler_sent vfd (a ++ 0 :: b)) as S2.
  cbv zeta in S1, S2. fold cut in S1. fold full in S2.
  unfold sent_since in S1, S2. now rewrite S1, S2, Hm.
Qed.

Lemma icons_field_bit (m s n : Z) :
  0 <= s -> 0 <= n ->
  Z.testbit (Z.shiftl (Z.land (Z.shiftr m s) 0x1F) s) n
    = Z.testbit m n && ((s <=? n) && (n <? s + 5)).
Proof.
  intros Hs Hn. rewrite Z.shiftl_spec by lia.
  destruct (Z.leb_spec s n) as [Hle|Hlt].
  - rewrite Z.land_spec, Z.shiftr_spec by lia.
    replace (n - s + s) with n by lia.
    change 0x1F with (Z.ones 5). rewrite Z.testbit_ones_nonneg by lia.
    cbn [andb]. f_equal.
    destruct (Z.ltb_spec (n - s) 5), (Z.ltb_spec n (s + 5)); lia || reflexivity.
  - rewrite Z.testbit_neg_r by lia. cbn [andb]. now rewrite andb_false_r.
Qed.

Lemma land_0x1F_byte (x : Z) : Z.land x 0x1F mod 256 = Z.land x 0x1F.
Proof.
  apply Z.mod_small. change 0x1F with (Z.ones 5). rewrite Z.land_ones by lia.
  pose proof (Z.mod_pos_bound x (2 ^ 5) eq_refl). change (2 ^ 5) with 32 in *. lia.
Qed.

(** X11. The icons packet carries the whole mask: [vfd_set_icons] sends one
    packet with header 0x74 whose bytes 1-4 are the four 5-bit groups of
    icons_mask, most significant first, and whose bytes 5-7 are zero; for a
    mask below 2^20 the mask is recovered from these four bytes. *)
Theorem icons_packet_round_trip (vfd : shuttle_vfd) :
  0 <= icons_mask vfd < 2 ^ 20 ->
  exists p : list Z,
    sent_since vfd (vfd_set_icons vfd) [p] /\
    length p = SHUTTLE_VFD_PACKET_SIZE /\
    pkt_cmd p = 0x7 /\ pkt_len p = 4 /\
    Forall (fun b => 0 <= b < 32) (firstn 4 (pkt_payload p)) /\
    skipn 4 (pkt_payload p) = [0; 0; 0] /\
    icons_of_packet p = icons_mask vfd.
Proof.
  intros Hm. eexists. split; [apply vfd_set_icons_sent|].
  rewrite !land_0x1F_byte.
  split; [reflexivity|]. split; [reflexivity|]. split; [reflexivity|].
  split; [|split; [reflexivity|]].
  - cbn [pkt_payload skipn firstn].
    repeat constructor;
      change 0x1F with (Z.ones 5); rewrite Z.land_ones by lia;
      pose proof (Z.mod_pos_bound (Z.shiftr (icons_mask vfd) 15) (2 ^ 5) eq_refl);
      pose proof (Z.mod_pos_bound (Z.shiftr (icons_mask vfd) 10) (2 ^ 5) eq_refl);
      pose proof (Z.mod_pos_bound (Z.shiftr (icons_mask vfd) 5) (2 ^ 5) eq_refl);
      pose proof (Z.mod_pos_bound (icons_mask vfd) (2 ^ 5) eq_refl);
      change (2 ^ 5) with 32 in *; lia.
  - unfold icons_of_packet. cbn [nth].
    apply (below_pow2_bits 20 _ ltac:(lia)) in Hm. destruct Hm as [_ Hhigh].
    apply Z.bits_inj'. intros n Hn.
    rewrite !Z.lor_spec, !icons_field_bit by lia.
    rewrite <- (Z.shiftr_0_r (icons_mask vfd)) at 4.
    rewrite <- (Z.shiftl_0_r (Z.land (Z.shiftr (icons_mask vfd) 0) 0x1F)).
    rewrite icons_field_bit by lia.
    destruct (Z.testbit (icons_mask vfd) n) eqn:E; cbn [andb]; [|reflexivity].
    assert (Hlt : n < 20).
    { destruct (Z.lt_ge_cases n 20) as [H|H]; [exact H|].
      rewrite (Hhigh n H) in E. discriminate. }
    destruct (Z.leb_spec 15 n), (Z.ltb_spec n (15 + 5)),
             (Z.leb_spec 10 n), (Z.ltb_spec n (10 + 5)),
             (Z.leb_spec 5 n), (Z.ltb_spec n (5 + 5)),
             (Z.leb_spec 0 n), (Z.ltb_spec n (0 + 5)); cbn; lia || reflexivity.
Qed.

Lemma icons_packet_round_trip_witness :
  exists p : list Z,
    sent_since (set_vfd_icons_handler (shuttle_vfd_probe false) (cstr "play,vol12"))
      (vfd_set_icons
         (set_vfd_icons_handler (shuttle_vfd_probe false) (cstr "play,vol12"))) [p] /\
    icons_of_packet p = Z.lor SHUTTLE_VFD_ICON_PLAY SHUTTLE_VFD_ICON_VOL_12.
Proof.
  destruct (icons_packet_round_trip
              (set_vfd_icons_handler (shuttle_vfd_probe false) (cstr "play,vol12")))
    as (p & H1 & _ & _ & _ & _ & _ & H2).
  - vm_compute. split; [discriminate | reflexivity].
  - exists p. split; [exact H1 | rewrite H2; reflexivity].
Defined.

(** ** The catalog lookup *)

Lemma strncmp_zero_firstn (n : nat) :
  forall a b : list Z,
    length b = n -> Forall (fun c => c <> 0) b -> (n <= length a)%nat ->
    strncmp a b n = 0 -> firstn n a = b.
Proof.
  induction n as [|n IH]; intros a b Hb Hnz Ha Hcmp.
  - destruct b; [reflexivity | discriminate Hb].
  - destruct b as [|cb b]; [discriminate Hb|].
    destruct a as [|ca a]; [simpl in Ha; lia|].
    inversion Hnz as [|? ? Hcb Hnz']; subst.
    cbn [strncmp hd tl] in Hcmp. cbn [firstn].
    destruct (Z.eqb_spec ca cb) as [->|Hne]; [|lia].
    destruct (Z.eqb_spec cb 0) as [E|_]; [contradiction|].
    f_equal. apply IH; simpl in *; try lia; assumption.
Qed.

Lemma list_snoc_nth (k : nat) (a : list Z) :
  length a = S k -> a = firstn k a ++ [nth k a 0].
Proof.
  intros Ha. rewrite <- firstn_S_snoc by lia.
  rewrite <- Ha. symmetry. apply firstn_all.
Qed.

(** What a non-zero result of the lookup loop says about the token. *)
Lemma vfd_parse_icons_loop_sound (tbl : list vfd_icons) (nm : list Z) :
  Forall (fun ic => Forall (fun c => c <> 0) (name ic) /\
                    match altname ic with
                    | Some alt => Forall (fun c => c <> 0) alt
                    | None => True
                    end) tbl ->
  vfd_parse_icons_loop tbl nm (length nm) <> 0 ->
  (exists ic : vfd_icons,
      In ic tbl /\ (nm = name ic \/ altname ic = Some nm) /\
      vfd_parse_icons_loop tbl nm (length nm) = value ic) \/
  (exists d : Z,
      1 <= d <= 9 /\ nm = cstr "vol" ++ [0x30 + d] /\
      vfd_parse_icons_loop tbl nm (length nm) = Z.shiftl d 15) \/
  (exists d : Z,
      0 <= d <= 2 /\ nm = cstr "vol1" ++ [0x30 + d] /\
      vfd_parse_icons_loop tbl nm (length nm) = Z.shiftl (10 + d) 15).
Proof.
  induction tbl as [|ic tbl IH]; intros Hnz Hv; cbn [vfd_parse_icons_loop] in *;
    [contradiction|].
  inversion Hnz as [|? ? [Hname Halt] Hnz']; subst.
  destruct ((strlen (name ic) =? length nm)%nat
            && (strncmp nm (name ic) (length nm) =? 0)) eqn:E1.
  { left. exists ic. split; [now left|]. split; [|reflexivity]. left.
    apply andb_true_iff in E1. destruct E1 as [El Ec].
    apply Nat.eqb_eq in El. apply Z.eqb_eq in Ec. unfold strlen in El.
    rewrite <- (firstn_all nm). apply strncmp_zero_firstn; auto. }
  destruct (altname ic) as [alt|] eqn:Ealt.
  - destruct ((strlen alt =? length nm)%nat && (strncmp nm alt (length nm) =? 0)) eqn:E2.
    { left. exists ic. split; [now left|]. split; [|reflexivity]. right.
      apply andb_true_iff in E2. destruct E2 as [El Ec].
      apply Nat.eqb_eq in El. apply Z.eqb_eq in Ec. unfold strlen in El.
      rewrite Ealt. f_equal. symmetry.
      rewrite <- (firstn_all nm). apply strncmp_zero_firstn; auto. }
    destruct ((length nm =? 4)%nat && (strncmp nm (cstr "vol") 3 =? 0)
              && ((0x30 <? nth 3 nm 0) && (nth 3 nm 0 <=? 0x39))) eqn:E3.
    { right; left. exists (nth 3 nm 0 - 0x30).
      apply andb_true_iff in E3. destruct E3 as [E3 Er].
      apply andb_true_iff in E3. destruct E3 as [El Ec].
      apply andb_true_iff in Er. destruct Er as [Hlo Hhi].
      apply Nat.eqb_eq in El. apply Z.eqb_eq in Ec.
      apply Z.ltb_lt in Hlo. apply Z.leb_le in Hhi.
      split; [lia|]. split; [|reflexivity].
      replace (0x30 + (nth 3 nm 0 - 0x30)) with (nth 3 nm 0) by lia.
      rewrite <- (strncmp_zero_firstn 3 nm (cstr "vol")); auto; try lia.
      - apply list_snoc_nth. exact El.
      - repeat constructor; discriminate. }
    destruct ((length nm =? 5)%nat && (strncmp nm (cstr "vol1") 4 =? 0)
              && ((0x30 <=? nth 4 nm 0) && (nth 4 nm 0 <=? 0x32))) eqn:E4.
    { right; right. exists (nth 4 nm 0 - 0x30).
      apply andb_true_iff in E4. destruct E4 as [E4 Er].
      apply andb_true_iff in E4. destruct E4 as [El Ec].
      apply andb_true_iff in Er. destruct Er as [Hlo Hhi].
      apply Nat.eqb_eq in El. apply Z.eqb_eq in Ec.
      apply Z.leb_le in Hlo. apply Z.leb_le in Hhi.
      split; [lia|]. split; [|f_equal; lia].
      replace (0x30 + (nth 4 nm 0 - 0x30)) with (nth 4 nm 0) by lia.
      rewrite <- (strncmp_zero_firstn 4 nm (cstr "vol1")); auto; try lia.
      - apply list_snoc_nth. exact El.
      - repeat constructor; discriminate. }
    destruct (IH Hnz' Hv) as [(ic' & Hin & Hm & Hval)|[H|H]];
      [left; exists ic'; split; [now right | split; assumption]
      | right; left; exact H | right; right; exact H].
  - destruct ((length nm =? 4)%nat && (strncmp nm (cstr "vol") 3 =? 0)
              && ((0x30 <? nth 3 nm 0) && (nth 3 nm 0 <=? 0x39))) eqn:E3.
    { right; left. exists (nth 3 nm 0 - 0x30).
      apply andb_true_iff in E3. destruct E3 as [E3 Er].
      apply andb_true_iff in E3. destruct E3 as [El Ec].
      apply andb_true_iff in Er. destruct Er as [Hlo Hhi].
      apply Nat.eqb_eq in El. apply Z.eqb_eq in Ec.
      apply Z.ltb_lt in Hlo. apply Z.leb_le in Hhi.
      split; [lia|]. split; [|reflexivity].
      replace (0x30 + (nth 3 nm 0 - 0x30)) with (nth 3 nm 0) by lia.
      rewrite <- (strncmp_zero_firstn 3 nm (cstr "vol")); auto; try lia.
      - apply list_snoc_nth. exact El.
      - repeat constructor; discriminate. }
    destruct ((length nm =? 5)%nat && (strncmp nm (cstr "vol1") 4 =? 0)
              && ((0x30 <=? nth 4 nm 0) && (nth 4 nm 0 <=? 0x32))) eqn:E4.
    { right; right. exists (nth 4 nm 0 - 0x30).
      apply andb_true_iff in E4. destruct E4 as [E4 Er].
      apply andb_true_iff in E4. destruct E4 as [El Ec].
      apply andb_true_iff in Er. destruct Er as [Hlo Hhi].
      apply Nat.eqb_eq in El. apply Z.eqb_eq in Ec.
      apply Z.leb_le in Hlo. apply Z.leb_le in Hhi.
      split; [lia|]. split; [|f_equal; lia].
      replace (0x30 + (nth 4 nm 0 - 0x30)) with (nth 4 nm 0) by lia.
      rewrite <- (strncmp_zero_firstn 4 nm (cstr "vol1")); auto; try lia.
      - apply list_snoc_nth. exact El.
      - repeat constructor; discriminate. }
    destruct (IH Hnz' Hv) as [(ic' & Hin & Hm & Hval)|[H|H]];
      [left; exists ic'; split; [now right | split; assumption]
      | right; left; exact H | right; right; exact H].
Qed.

Lemma icons_names_no_nul :
  Forall (fun ic => Forall (fun c => c <> 0) (name ic) /\
                    match altname ic with
                    | Some alt => Forall (fun c => c <> 0) alt
                    | None => True
                    end) icons.
Proof.
  assert (Hb : forallb (fun ic => forallb (fun c => negb (c =? 0)) (name ic)
                                  && match altname ic with
                                     | Some alt => forallb (fun c => negb (c =? 0)) alt
                                     | None => true
                                     end) icons = true) by reflexivity.
  rewrite forallb_forall in Hb. apply Forall_forall. intros ic Hin.
  specialize (Hb ic Hin). apply andb_true_iff in Hb. destruct Hb as [Hn Ha].
  split.
  - apply Forall_forall. intros c Hc. rewrite forallb_forall in Hn.
    specialize (Hn c Hc). apply negb_true_iff in Hn. now apply Z.eqb_neq.
  - destruct (altname ic) as [alt|]; [|exact I].
    apply Forall_forall. intros c Hc. rewrite forallb_forall in Ha.
    specialize (Ha c Hc). apply negb_true_iff in Ha. now apply Z.eqb_neq.
Qed.

(** X12. The catalog lookup is an exact, case-sensitive match: a token
    resolves to [v] exactly when it is the name or the alternative name of
    a catalog entry of value [v], or "vol" followed by one digit 1-9, or
    "vol1" followed by one digit 0-2, the value then being the level
    shifted to bit 15.  No entry is shadowed by an earlier one or by the
    volume patterns, and nothing else resolves. *)
Theorem lookup_exact_match (t : list Z) (v : Z) :
  lookup t = Some v <->
  (exists ic : vfd_icons,
      In ic icons /\ (t = name ic \/ altname ic = Some t) /\ v = value ic) \/
  (exists d : Z, 1 <= d <= 9 /\ t = cstr "vol" ++ [0x30 + d] /\ v = Z.shiftl d 15) \/
  (exists d : Z, 0 <= d <= 2 /\ t = cstr "vol1" ++ [0x30 + d]
                 /\ v = Z.shiftl (10 + d) 15).
Proof.
  split.
  - unfold lookup, vfd_parse_icons.
    destruct (Z.eqb_spec (vfd_parse_icons_loop icons t (length t)) 0) as [E|E];
      [discriminate|].
    cbn [Z.eqb]. intros H. injection H as <-.
    exact (vfd_parse_icons_loop_sound icons t icons_names_no_nul E).
  - intros [(ic & Hin & Hnm & ->)|[(d & Hd & -> & ->)|(d & Hd & -> & ->)]].
    + unfold icons in Hin. cbn [In] in Hin.
      repeat (destruct Hin as [<-|Hin];
              [destruct Hnm as [->|Halt];
               [reflexivity
               | first [discriminate Halt | injection Halt as <-; reflexivity]]|]).
      contradiction.
    + assert (Hcases : d = 1 \/ d = 2 \/ d = 3 \/ d = 4 \/ d = 5 \/ d = 6 \/ d = 7
                       \/ d = 8 \/ d = 9) by lia.
      repeat (destruct Hcases as [->|Hcases]; [reflexivity|]).
      subst d. reflexivity.
    + assert (Hcases : d = 0 \/ d = 1 \/ d = 2) by lia.
      destruct Hcases as [->|[->| ->]]; reflexivity.
Qed.

(** ** Mode and style words *)

Lemma strcmp_zero_iff (a : list Z) :
  forall b : list Z,
    Forall (fun c => c <> 0) a -> Forall (fun c => c <> 0) b ->
    (strcmp a b = 0 <-> a = b).
Proof.
  induction a as [|ca a IH]; intros b Ha Hb; cbn [strcmp].
  - destruct b as [|cb b]; cbn [hd].
    + split; reflexivity.
    + inversion Hb; subst. split; [lia | discriminate].
  - inversion Ha as [|? ? Hca Ha']; subst.
    destruct b as [|cb b]; cbn [hd tl].
    + destruct (Z.eqb_spec ca 0); [contradiction|]. split; [lia | discriminate].
    + inversion Hb as [|? ? Hcb Hb']; subst.
      destruct (Z.eqb_spec ca cb) as [->|Hne].
      * destruct (Z.eqb_spec cb 0); [contradiction|].
        rewrite (IH b Ha' Hb'). split; [now intros -> | now intros [= ->]].
      * split; [lia | intros [= E _]; contradiction].
Qed.

Lemma strcmp_eqb (a b : list Z) :
  Forall (fun c => c <> 0) a -> Forall (fun c => c <> 0) b ->
  (strcmp a b =? 0) = if list_eq_dec Z.eq_dec a b then true else false.
Proof.
  intros Ha Hb. destruct (list_eq_dec Z.eq_dec a b) as [E|E].
  - apply Z.eqb_eq. now apply strcmp_zero_iff.
  - apply Z.eqb_neq. intros H. apply E. now apply (strcmp_zero_iff a b Ha Hb).
Qed.

Lemma scan_word_spec (w : nat) (s : list Z) :
  Forall (fun c => c <> 0) (scan_word w s) /\ (length (scan_word w s) <= w)%nat.
Proof.
  revert s; induction w as [|w IH]; intros s; cbn [scan_word].
  - split; [constructor | simpl; lia].
  - destruct s as [|c s]; [split; [constructor | simpl; lia]|].
    destruct (Z.eqb_spec c 0) as [E|E]; cbn [orb].
    + split; [constructor | simpl; lia].
    + destruct (isspace c); [split; [constructor | simpl; lia]|].
      destruct (IH s) as [H1 H2]. split; [constructor; assumption | simpl; lia].
Qed.

(** What the [%5s] conversion can give: nothing, or one word of at most
    five bytes, none of them NUL. *)
Lemma sscanf_5s_spec (buf : list Z) :
  sscanf_5s buf = (0, []) \/
  exists cmd : list Z,
    sscanf_5s buf = (1, cmd) /\ Forall (fun c => c <> 0) cmd /\ (length cmd <= 5)%nat.
Proof.
  unfold sscanf_5s. destruct (hd 0 buf =? 0); [now left|].
  right. eexists. split; [reflexivity|]. apply scan_word_spec.
Qed.

Lemma cstr_no_nul (s : string) :
  forallb (fun c => negb (c =? 0)) (cstr s) = true ->
  Forall (fun c => c <> 0) (cstr s).
Proof.
  intros H. rewrite forallb_forall in H. apply Forall_forall. intros c Hc.
  specialize (H c Hc). apply negb_true_iff in H. now apply Z.eqb_neq.
Qed.

(** The tests of the mode and style handlers on a scanned word are
    equalities of byte strings. *)
Lemma strcmp_word (cmd : list Z) (s : string) :
  Forall (fun c => c <> 0) cmd ->
  forallb (fun c => negb (c =? 0)) (cstr s) = true ->
  (strcmp cmd (cstr s) =? 0) = if list_eq_dec Z.eq_dec cmd (cstr s) then true else false.
Proof. intros Hc Hs. apply strcmp_eqb; [exact Hc | now apply cstr_no_nul]. Qed.

(** X13. set_text_style accepts exactly the words "left", "l", "right",
    "r" and "c": it then returns the count, changes the style and nothing
    else, sends no packet, and get_text_style prints the long name of the
    new style.  Any other request - including the word "center", which the
    five-byte scan can never produce - returns -EINVAL and leaves the
    device untouched. *)
Theorem set_style_accepts_exactly (vfd : shuttle_vfd) (buf : list Z) :
  let r := set_vfd_text_style_handler vfd buf in
  (exists (cmd : list Z) (style : Z) (long : string),
      sscanf_5s buf = (1, cmd) /\
      ((cmd = cstr "left" \/ cmd = cstr "l")
       /\ style = DRIVER_STYLE_TEXT_ALIGN_LEFT /\ long = "left"%string \/
       (cmd = cstr "right" \/ cmd = cstr "r")
       /\ style = DRIVER_STYLE_TEXT_ALIGN_RIGHT /\ long = "right"%string \/
       cmd = cstr "c"
       /\ style = DRIVER_STYLE_TEXT_ALIGN_CENTER /\ long = "center"%string) /\
      r = (Z.of_nat (length buf), upd_text_style vfd style) /\
      get_vfd_text_style_handler (snd r) = Shown (cstr long ++ [10])) \/
  ((forall cmd : list Z,
       sscanf_5s buf = (1, cmd) ->
       ~ In cmd [cstr "left"; cstr "l"; cstr "right"; cstr "r"; cstr "c"]) /\
   r = (- EINVAL, vfd)).
Proof.
  intros r. subst r. unfold set_vfd_text_style_handler.
  destruct (sscanf_5s_spec buf) as [E|(cmd & E & Hnz & Hlen)]; rewrite E.
  { right. split; [intros cmd H; discriminate H | reflexivity]. }
  change (negb (1 =? 1)) with false. cbv iota.
  rewrite !(strcmp_word cmd) by (exact Hnz || reflexivity).
  destruct (list_eq_dec Z.eq_dec cmd (cstr "left")) as [E1|N1].
  { left. exists cmd, DRIVER_STYLE_TEXT_ALIGN_LEFT, "left"%string.
    cbn [orb]. repeat split; auto. }
  destruct (list_eq_dec Z.eq_dec cmd (cstr "l")) as [E2|N2].
  { left. exists cmd, DRIVER_STYLE_TEXT_ALIGN_LEFT, "left"%string.
    cbn [orb]. repeat split; auto. }
  destruct (list_eq_dec Z.eq_dec cmd (cstr "right")) as [E3|N3].
  { left. exists cmd, DRIVER_STYLE_TEXT_ALIGN_RIGHT, "right"%string.
    cbn [orb]. repeat split; auto. }
  destruct (list_eq_dec Z.eq_dec cmd (cstr "r")) as [E4|N4].
  { left. exists cmd, DRIVER_STYLE_TEXT_ALIGN_RIGHT, "right"%string.
    cbn [orb]. repeat split; auto. }
  destruct (list_eq_dec Z.eq_dec cmd (cstr "center")) as [E5|N5].
  { exfalso. rewrite E5 in Hlen. simpl in Hlen. lia. }
  destruct (list_eq_dec Z.eq_dec cmd (cstr "c")) as [E6|N6].
  { left. exists cmd, DRIVER_STYLE_TEXT_ALIGN_CENTER, "center"%string.
    cbn [orb]. repeat split; auto. }
  right. cbn [orb]. split; [|reflexivity].
  intros cmd' H. injection H as <-. cbn [In]. intros Hin.
  repeat (destruct Hin as [Hin'|Hin]; [symmetry in Hin'; contradiction|]).
  exact Hin.
Qed.

(** X14. The word "center" is refused: whatever white space precedes it
    and whatever follows it, the scan keeps the five bytes "cente", no
    test matches, the handler returns -EINVAL and the device is
    untouched.  Centre alignment is selected by "c" only. *)
Theorem set_style_center_word_refused (vfd : shuttle_vfd) (pre rest : list Z) :
  Forall (fun c => isspace c = true) pre ->
  sscanf_5s (pre ++ cstr "center" ++ rest) = (1, cstr "cente") /\
  set_vfd_text_style_handler vfd (pre ++ cstr "center" ++ rest) = (- EINVAL, vfd) /\
  snd (set_vfd_text_style_handler vfd (cstr "c"))
    = upd_text_style vfd DRIVER_STYLE_TEXT_ALIGN_CENTER.
Proof.
  intros Hpre.
  assert (Hscan : sscanf_5s (pre ++ cstr "center" ++ rest) = (1, cstr "cente")).
  { unfold sscanf_5s.
    assert (Hhd : (hd 0 (pre ++ cstr "center" ++ rest) =? 0) = false).
    { destruct pre as [|c pre']; [reflexivity|].
      inversion Hpre as [|? ? Hc _]; subst. cbn [app hd].
      apply Z.eqb_neq. intros ->. discriminate Hc. }
    rewrite Hhd. f_equal. clear Hhd.
    induction pre as [|c pre IH]; [reflexivity|].
    inversion Hpre as [|? ? Hc Hpre']; subst.
    cbn [app skip_spaces]. rewrite Hc. apply IH. exact Hpre'. }
  split; [exact Hscan|]. split; [|reflexivity].
  unfold set_vfd_text_style_handler. rewrite Hscan. reflexivity.
Qed.

Lemma set_style_center_word_refused_witness :
  set_vfd_text_style_handler (shuttle_vfd_probe false) (cstr " center" ++ [10])
    = (- EINVAL, shuttle_vfd_probe false).
Proof.
  apply (set_style_center_word_refused (shuttle_vfd_probe false) (cstr " ") [10]).
  repeat constructor.
Defined.

(** [set_vfd_mode_handler] with its tests decided on the scanned word. *)
Lemma set_vfd_mode_handler_word
  (valid : rtc_time -> Z) (rtc : rtc_source) (vfd : shuttle_vfd) (buf cmd : list Z) :
  sscanf_5s buf = (1, cmd) ->
  set_vfd_mode_handler valid rtc vfd buf
    = if list_eq_dec Z.eq_dec cmd (cstr "clock") then
        (Z.of_nat (length buf),
         vfd_set_clock valid rtc (upd_mode (vfd_reset_cursor vfd true) DRIVER_MODE_CLOCK))
      else if list_eq_dec Z.eq_dec cmd (cstr "clk") then
        (Z.of_nat (length buf),
         vfd_set_clock valid rtc (upd_mode (vfd_reset_cursor vfd true) DRIVER_MODE_CLOCK))
      else if list_eq_dec Z.eq_dec cmd (cstr "text") then
        (Z.of_nat (length buf),
         vfd_set_text (upd_mode (vfd_reset_cursor vfd true) DRIVER_MODE_TEXT)
           SHUTTLE_VFD_WIDTH)
      else if list_eq_dec Z.eq_dec cmd (cstr "txt") then
        (Z.of_nat (length buf),
         vfd_set_text (upd_mode (vfd_reset_cursor vfd true) DRIVER_MODE_TEXT)
           SHUTTLE_VFD_WIDTH)
      else (- EINVAL, vfd).
Proof.
  intros E. unfold set_vfd_mode_handler.
  destruct (sscanf_5s_spec buf) as [E0|(cmd' & E' & Hnz & _)];
    [rewrite E0 in E; discriminate E|].
  rewrite E in E'. injection E' as <-. rewrite E.
  change (negb (1 =? 1)) with false. cbv iota zeta.
  rewrite !(strcmp_word cmd) by (exact Hnz || reflexivity).
  destruct (list_eq_dec Z.eq_dec cmd (cstr "clock")); [reflexivity|].
  destruct (list_eq_dec Z.eq_dec cmd (cstr "clk")); [reflexivity|].
  destruct (list_eq_dec Z.eq_dec cmd (cstr "text")); [reflexivity|].
  destruct (list_eq_dec Z.eq_dec cmd (cstr "txt")); reflexivity.
Qed.

(** X15. set_mode refuses every request whose first word (at most five
    bytes of it) is not "clock", "clk", "text" or "txt", the empty request
    included: it returns -EINVAL, sends nothing and leaves the device as it
    was. *)
Theorem set_mode_rejects_unknown
  (valid : rtc_time -> Z) (rtc : rtc_source) (vfd : shuttle_vfd) (buf : list Z) :
  (forall cmd : list Z,
      sscanf_5s buf = (1, cmd) ->
      ~ In cmd [cstr "clock"; cstr "clk"; cstr "text"; cstr "txt"]) ->
  set_vfd_mode_handler valid rtc vfd buf = (- EINVAL, vfd).
Proof.
  intros Hno.
  destruct (sscanf_5s_spec buf) as [E|(cmd & E & _)].
  - unfold set_vfd_mode_handler. rewrite E. reflexivity.
  - rewrite (set_vfd_mode_handler_word valid rtc vfd buf cmd E).
    specialize (Hno cmd E). cbn [In] in Hno.
    destruct (list_eq_dec Z.eq_dec cmd (cstr "clock")) as [->|_]; [tauto|].
    destruct (list_eq_dec Z.eq_dec cmd (cstr "clk")) as [->|_]; [tauto|].
    destruct (list_eq_dec Z.eq_dec cmd (cstr "text")) as [->|_]; [tauto|].
    destruct (list_eq_dec Z.eq_dec cmd (cstr "txt")) as [->|_]; [tauto|].
    reflexivity.
Qed.

Lemma set_mode_rejects_unknown_witness :
  set_vfd_mode_handler linux_rtc_valid_tm RtcAbsent (shuttle_vfd_probe true)
    (cstr "bogus" ++ [10]) = (- EINVAL, shuttle_vfd_probe true) /\
  set_vfd_mode_handler linux_rtc_valid_tm RtcAbsent (shuttle_vfd_probe true) []
    = (- EINVAL, shuttle_vfd_probe true).
Proof.
  split.
  - apply (set_mode_rejects_unknown linux_rtc_valid_tm RtcAbsent
             (shuttle_vfd_probe true) (cstr "bogus" ++ [10])).
    intros cmd H. injection H as <-. cbn [In].
    intros [H|[H|[H|[H|[]]]]]; discriminate H.
  - apply (set_mode_rejects_unknown linux_rtc_valid_tm RtcAbsent
             (shuttle_vfd_probe true) []).
    intros cmd H. discriminate H.
Defined.

(** X16. Round trip of the mode: after set_mode is given a word it
    recognizes, get_mode prints "clock" for "clock" and "clk" and "text"
    for "text" and "txt".  Only the first five bytes of the word are
    looked at, so a longer word that starts with "clock" selects the
    clock too. *)
Theorem set_mode_get_mode
  (valid : rtc_time -> Z) (rtc : rtc_source) (vfd : shuttle_vfd) (buf cmd : list Z) :
  sscanf_5s buf = (1, cmd) ->
  In cmd [cstr "clock"; cstr "clk"; cstr "text"; cstr "txt"] ->
  let vfd' := snd (set_vfd_mode_handler valid rtc vfd buf) in
  get_vfd_mode_handler vfd'
    = Shown ((if list_eq_dec Z.eq_dec cmd (cstr "clock") then cstr "clock"
              else if list_eq_dec Z.eq_dec cmd (cstr "clk") then cstr "clock"
              else cstr "text") ++ [10]) /\
  (forall rest : list Z,
      sscanf_5s (cstr "clock" ++ rest) = (1, cstr "clock")).
Proof.
  intros E Hin vfd'. split; [|intros rest; reflexivity].
  subst vfd'. rewrite (set_vfd_mode_handler_word valid rtc vfd buf cmd E).
  assert (Hclock : get_vfd_mode_handler
                     (vfd_set_clock valid rtc
                        (upd_mode (vfd_reset_cursor vfd true) DRIVER_MODE_CLOCK))
                   = Shown (cstr "clock" ++ [10])).
  { unfold get_vfd_mode_handler.
    rewrite (proj1 (proj2 (proj2 (vfd_set_clock_frame valid rtc _)))).
    reflexivity. }
  assert (Htext : get_vfd_mode_handler
                    (vfd_set_text
                       (upd_mode (vfd_reset_cursor vfd true) DRIVER_MODE_TEXT)
                       SHUTTLE_VFD_WIDTH)
                  = Shown (cstr "text" ++ [10])).
  { unfold get_vfd_mode_handler.
    rewrite (proj1 (proj2 (proj2 (vfd_set_text_frame _ _)))).
    reflexivity. }
  cbn [In] in Hin.
  destruct (list_eq_dec Z.eq_dec cmd (cstr "clock")); [exact Hclock|].
  destruct (list_eq_dec Z.eq_dec cmd (cstr "clk")); [exact Hclock|].
  destruct (list_eq_dec Z.eq_dec cmd (cstr "text")); [exact Htext|].
  destruct (list_eq_dec Z.eq_dec cmd (cstr "txt")); [exact Htext|].
  exfalso. destruct Hin as [H|[H|[H|[H|[]]]]]; symmetry in H; contradiction.
Qed.

Lemma set_mode_get_mode_witness :
  get_vfd_mode_handler
    (snd (set_vfd_mode_handler linux_rtc_valid_tm RtcAbsent (shuttle_vfd_probe true)
            (cstr "clockwise" ++ [10])))
    = Shown (cstr "clock" ++ [10]).
Proof.
  destruct (set_mode_get_mode linux_rtc_valid_tm RtcAbsent (shuttle_vfd_probe true)
              (cstr "clockwise" ++ [10]) (cstr "clock")) as [H _].
  - reflexivity.
  - left. reflexivity.
  - rewrite H. reflexivity.
Defined.

(** ** Fields, packets and the clock encoding *)

Lemma set_vfd_text_handler_frame (vfd : shuttle_vfd) (buf : list Z) :
  let vfd' := set_vfd_text_handler vfd buf in
  icons_mask vfd' = icons_mask vfd /\ mode vfd' = mode vfd /\
  text_style vfd' = text_style vfd.
Proof.
  intros vfd'. subst vfd'.
  destruct (set_vfd_text_handler_flush vfd buf) as (vfd1 & Heq & _ & Hi & Hm & Ht & _).
  rewrite Heq. destruct (mode vfd1 =? DRIVER_MODE_TEXT); [|auto].
  destruct (vfd_reset_cursor_frame vfd1 false) as (_ & R2 & R3 & R4 & _).
  destruct (vfd_set_text_frame (vfd_reset_cursor vfd1 false) SHUTTLE_VFD_WIDTH)
    as (_ & T2 & T3 & T4 & _).
  cbv zeta in *. rewrite T2, T3, T4, R2, R3, R4. auto.
Qed.

Lemma set_vfd_icons_handler_frame (vfd : shuttle_vfd) (buf : list Z) :
  let vfd' := set_vfd_icons_handler vfd buf in
  mode vfd' = mode vfd /\ text_style vfd' = text_style vfd /\
  screen vfd' = screen vfd.
Proof.
  intros vfd'. subst vfd'. unfold set_vfd_icons_handler.
  rewrite icons_scan_mask_tokens. repeat split.
Qed.

(** X17. The fields mode and text_style never leave their enumerations:
    [shuttle_vfd_probe] sets Text and Center, each of the four write
    handlers keeps mode in {Text, Clock} and text_style in {Left, Right,
    Center}, and with such fields get_mode and get_text_style index inside
    their tables of names. *)
Theorem fields_stay_in_range
  (valid : rtc_time -> Z) (rtc : rtc_source) (vfd : shuttle_vfd) (buf : list Z) :
  fields_in_range vfd ->
  fields_in_range (set_vfd_text_handler vfd buf) /\
  fields_in_range (set_vfd_icons_handler vfd buf) /\
  fields_in_range (snd (set_vfd_mode_handler valid rtc vfd buf)) /\
  fields_in_range (snd (set_vfd_text_style_handler vfd buf)) /\
  (exists out : list Z, get_vfd_mode_handler vfd = Shown out) /\
  (exists out : list Z, get_vfd_text_style_handler vfd = Shown out).
Proof.
  intros [Hm Hs].
  split; [|split; [|split; [|split; [|split]]]].
  - destruct (set_vfd_text_handler_frame vfd buf) as (_ & H1 & H2).
    unfold fields_in_range. cbv zeta in H1, H2. now rewrite H1, H2.
  - destruct (set_vfd_icons_handler_frame vfd buf) as (H1 & H2 & _).
    unfold fields_in_range. cbv zeta in H1, H2. now rewrite H1, H2.
  - destruct (sscanf_5s_spec buf) as [E|(cmd & E & _)].
    + unfold set_vfd_mode_handler. rewrite E. cbn [snd negb Z.eqb]. now split.
    + rewrite (set_vfd_mode_handler_word valid rtc vfd buf cmd E).
      destruct (vfd_set_clock_frame valid rtc
                  (upd_mode (vfd_reset_cursor vfd true) DRIVER_MODE_CLOCK))
        as (_ & _ & C3 & C4).
      destruct (vfd_set_text_frame
                  (upd_mode (vfd_reset_cursor vfd true) DRIVER_MODE_TEXT)
                  SHUTTLE_VFD_WIDTH) as (_ & _ & T3 & T4 & _).
      destruct (vfd_reset_cursor_frame vfd true) as (_ & _ & _ & R4 & _).
      cbv zeta in *.
      unfold fields_in_range.
      destruct (list_eq_dec Z.eq_dec cmd (cstr "clock"));
        [|destruct (list_eq_dec Z.eq_dec cmd (cstr "clk"));
          [|destruct (list_eq_dec Z.eq_dec cmd (cstr "text"));
            [|destruct (list_eq_dec Z.eq_dec cmd (cstr "txt"))]]];
        cbn [snd]; rewrite ?C3, ?C4, ?T3, ?T4;
        try (change (text_style (upd_mode (vfd_reset_cursor vfd true) DRIVER_MODE_CLOCK))
              with (text_style (vfd_reset_cursor vfd true)));
        try (change (text_style (upd_mode (vfd_reset_cursor vfd true) DRIVER_MODE_TEXT))
              with (text_style (vfd_reset_cursor vfd true)));
        rewrite ?R4; (split; [|exact Hs]); auto.
  - unfold set_vfd_text_style_handler, fields_in_range.
    destruct (sscanf_5s buf) as [ret cmd].
    destruct (negb (ret =? 1)); [now split|].
    destruct ((strcmp cmd (cstr "left") =? 0) || (strcmp cmd (cstr "l") =? 0));
      [split; [exact Hm | now left]|].
    destruct ((strcmp cmd (cstr "right") =? 0) || (strcmp cmd (cstr "r") =? 0));
      [split; [exact Hm | right; now left]|].
    destruct ((strcmp cmd (cstr "center") =? 0) || (strcmp cmd (cstr "c") =? 0));
      [split; [exact Hm | right; now right]|].
    now split.
  - unfold get_vfd_mode_handler. destruct Hm as [-> | ->]; eexists; reflexivity.
  - unfold get_vfd_text_style_handler.
    destruct Hs as [-> | [-> | ->]]; eexists; reflexivity.
Qed.

Lemma fields_stay_in_range_witness :
  fields_in_range (shuttle_vfd_probe true) /\
  fields_in_range
    (snd (set_vfd_mode_handler linux_rtc_valid_tm RtcAbsent (shuttle_vfd_probe true)
            (cstr "clk"))) /\
  get_vfd_text_style_handler (shuttle_vfd_probe true) = Shown (cstr "center" ++ [10]).
Proof.
  assert (H0 : fields_in_range (shuttle_vfd_probe true))
    by (split; [left | right; right]; reflexivity).
  destruct (fields_stay_in_range linux_rtc_valid_tm RtcAbsent (shuttle_vfd_probe true)
              (cstr "clk") H0) as (_ & _ & H & _).
  split; [exact H0|]. split; [exact H | reflexivity].
Defined.

Lemma sent_since_trans (a b c : shuttle_vfd) (ps qs : list (list Z)) :
  sent_since a b ps -> sent_since b c qs -> sent_since a c (ps ++ qs).
Proof.
  unfold sent_since. intros H1 H2. now rewrite H2, H1, app_assoc.
Qed.

(** The two packets of [vfd_set_clock]. *)
Lemma vfd_set_clock_packets
  (valid : rtc_time -> Z) (rtc : rtc_source) (vfd : shuttle_vfd) :
  wf_vfd vfd ->
  sent_since vfd (vfd_set_clock valid rtc vfd)
    [ [ 0xD7;
        DEC_AS_HEX (tm_sec (clock_reading rtc)) mod 256;
        DEC_AS_HEX (tm_min (clock_reading rtc)) mod 256;
        DEC_AS_HEX (tm_hour (clock_reading rtc)) mod 256;
        tm_wday (clock_reading rtc) mod 256;
        DEC_AS_HEX (tm_mday (clock_reading rtc)) mod 256;
        DEC_AS_HEX (int_add (tm_mon (clock_reading rtc)) 1) mod 256;
        DEC_AS_HEX (int_sub (tm_year (clock_reading rtc)) 100) mod 256 ];
      [0x31; 3; 0; 0; 0; 0; 0; 0] ].
Proof.
  intros [Hp _].
  destruct vfd as [u im md ts pk sc]; simpl in Hp.
  unfold SHUTTLE_VFD_PACKET_SIZE in Hp. explode pk Hp.
  unfold vfd_set_clock, sent_since.
  destruct rtc as [|err tm]; [|destruct ((err =? 0) && negb (valid tm =? 0))];
    cbn -[DEC_AS_HEX int_add int_sub Z.modulo]; rewrite <- app_assoc; reflexivity.
Qed.

(** Within the range of [int] nothing wraps. *)
Lemma int_wrap_small (z : Z) : INT_MIN <= z <= INT_MAX -> int_wrap z = z.
Proof.
  unfold INT_MIN, INT_MAX, int_wrap. intros Hz.
  rewrite Z.mod_small by lia. lia.
Qed.

(** [DEC_AS_HEX] of a two-digit number: tens in the high nibble, units in
    the low one. *)
Lemma DEC_AS_HEX_two_digits (v : Z) :
  0 <= v <= 99 ->
  DEC_AS_HEX v mod 256 = DEC_AS_HEX v /\
  Z.shiftr (DEC_AS_HEX v) 4 = v / 10 /\
  Z.land (DEC_AS_HEX v) 0xF = v mod 10 /\
  hex_as_dec (DEC_AS_HEX v) = v.
Proof.
  intros Hv. unfold DEC_AS_HEX, hex_as_dec.
  rewrite Z.quot_div_nonneg, Z.rem_mod_nonneg by lia.
  pose proof (Z.div_mod v 10 ltac:(lia)) as Hdm.
  pose proof (Z.mod_pos_bound v 10 eq_refl) as Hr.
  assert (Hq : 0 <= v / 10 <= 9).
  { split; [apply Z.div_pos; lia|].
    apply Z.lt_succ_r. apply Z.div_lt_upper_bound; lia. }
  unfold int_add, int_mul.
  rewrite (int_wrap_small (v / 10 * 16)) by (unfold INT_MIN, INT_MAX; lia).
  rewrite int_wrap_small by (unfold INT_MIN, INT_MAX; lia).
  assert (Hhi : Z.shiftr (v / 10 * 16 + v mod 10) 4 = v / 10).
  { rewrite Z.shiftr_div_pow2 by lia. change (2 ^ 4) with 16.
    rewrite Z.div_add_l by lia. rewrite (Z.div_small (v mod 10) 16) by lia. lia. }
  assert (Hlo : Z.land (v / 10 * 16 + v mod 10) 0xF = v mod 10).
  { change 0xF with (Z.ones 4). rewrite Z.land_ones by lia. change (2 ^ 4) with 16.
    rewrite Z.add_comm, Z.mod_add by lia. apply Z.mod_small. lia. }
  split; [apply Z.mod_small; lia|].
  split; [exact Hhi|]. split; [exact Hlo|].
  rewrite Hhi, Hlo. lia.
Qed.

(** X18. The clock packet reads back: for a reading with seconds, minutes,
    hours and day of month in 0..99, month 0..11 and year 2000..2099
    (tm_year 100..199), each payload byte of the 0xD packet holds two
    decimal digits, tens in the high nibble, and decodes to seconds,
    minutes, hours, day, month counted from 1 and year within the century;
    the weekday byte is the weekday itself. *)
Theorem clock_packet_decodes
  (valid : rtc_time -> Z) (err : Z) (tm : rtc_time) (vfd : shuttle_vfd) :
  wf_vfd vfd ->
  0 <= tm_sec tm <= 99 -> 0 <= tm_min tm <= 99 -> 0 <= tm_hour tm <= 99 ->
  0 <= tm_mday tm <= 99 -> 0 <= tm_mon tm <= 11 -> 100 <= tm_year tm <= 199 ->
  0 <= tm_wday tm <= 255 ->
  exists p : list Z,
    sent_since vfd (vfd_set_clock valid (RtcDevice err tm) vfd)
      [p; [0x31; 3; 0; 0; 0; 0; 0; 0]] /\
    pkt_cmd p = 0xD /\ pkt_len p = 7 /\
    map hex_as_dec [nth 1 p 0; nth 2 p 0; nth 3 p 0; nth 5 p 0; nth 6 p 0; nth 7 p 0]
      = [tm_sec tm; tm_min tm; tm_hour tm; tm_mday tm; tm_mon tm + 1;
         tm_year tm - 100] /\
    nth 4 p 0 = tm_wday tm /\
    Forall (fun b => Z.shiftr b 4 <= 9 /\ Z.land b 0xF <= 9)
      [nth 1 p 0; nth 2 p 0; nth 3 p 0; nth 5 p 0; nth 6 p 0; nth 7 p 0].
Proof.
  intros Hwf Hsec Hmin Hhour Hmday Hmon Hyear Hwday.
  eexists. split; [apply (vfd_set_clock_packets valid (RtcDevice err tm) vfd Hwf)|].
  cbn [clock_reading nth map].
  destruct (DEC_AS_HEX_two_digits (tm_sec tm) Hsec) as (A1 & A2 & A3 & A4).
  destruct (DEC_AS_HEX_two_digits (tm_min tm) Hmin) as (B1 & B2 & B3 & B4).
  destruct (DEC_AS_HEX_two_digits (tm_hour tm) Hhour) as (C1 & C2 & C3 & C4).
  destruct (DEC_AS_HEX_two_digits (tm_mday tm) Hmday) as (D1 & D2 & D3 & D4).
  unfold int_add, int_sub.
  rewrite (int_wrap_small (tm_mon tm + 1)) by (unfold INT_MIN, INT_MAX; lia).
  rewrite (int_wrap_small (tm_year tm - 100)) by (unfold INT_MIN, INT_MAX; lia).
  destruct (DEC_AS_HEX_two_digits (tm_mon tm + 1) ltac:(lia)) as (E1 & E2 & E3 & E4).
  destruct (DEC_AS_HEX_two_digits (tm_year tm - 100) ltac:(lia)) as (F1 & F2 & F3 & F4).
  rewrite A1, B1, C1, D1, E1, F1, A4, B4, C4, D4, E4, F4.
  split; [reflexivity|]. split; [reflexivity|]. split; [reflexivity|].
  split; [apply Z.mod_small; lia|].
  assert (Hdigits : forall v : Z, 0 <= v <= 99 -> v / 10 <= 9 /\ v mod 10 <= 9).
  { intros v Hv. pose proof (Z.mod_pos_bound v 10 eq_refl). split; [|lia].
    apply Z.lt_succ_r. apply Z.div_lt_upper_bound; lia. }
  repeat constructor;
    rewrite ?A2, ?A3, ?B2, ?B3, ?C2, ?C3, ?D2, ?D3, ?E2, ?E3, ?F2, ?F3;
    apply Hdigits; lia.
Qed.

Lemma clock_packet_decodes_witness :
  exists p : list Z,
    sent_since (shuttle_vfd_probe false)
      (vfd_set_clock linux_rtc_valid_tm
         (RtcDevice 0 (mk_rtc_time 45 30 9 24 11 126 4 0 0)) (shuttle_vfd_probe false))
      [p; [0x31; 3; 0; 0; 0; 0; 0; 0]] /\
    firstn 3 (pkt_payload p) = [0x45; 0x30; 0x09].
Proof.
  destruct (clock_packet_decodes linux_rtc_valid_tm 0
              (mk_rtc_time 45 30 9 24 11 126 4 0 0) (shuttle_vfd_probe false))
    as (p & Hsent & _); try (cbn; lia).
  - split; reflexivity.
  - exists p. split; [exact Hsent|].
    unfold sent_since in Hsent. vm_compute in Hsent.
    injection Hsent as <-. reflexivity.
Defined.

Lemma valid_text_packets (scr : list Z) :
  length scr = SHUTTLE_VFD_WIDTH ->
  Forall valid_packet
    [ 0x97 :: firstn 7 scr;
      0x97 :: firstn 7 (skipn 7 scr);
      0x96 :: skipn 14 scr ++ [0] ].
Proof.
  intros Hs. unfold SHUTTLE_VFD_WIDTH in Hs. explode scr Hs.
  cbn [firstn skipn app].
  repeat (constructor; [solve_valid_packet|]). constructor.
Qed.

Lemma valid_reset_packet (eraseall : bool) :
  valid_packet [0x11; if eraseall then 1 else 2; 0; 0; 0; 0; 0; 0].
Proof. destruct eraseall; solve_valid_packet. Qed.

(** X19. Every packet the write handlers send is well formed: eight bytes,
    a command nibble with the length nibble that belongs to it (0x1 and
    0x3 with 1, 0x7 with 4, 0x9 with 7 or 6, 0xD with 7), and zero bytes
    after the declared length.  This holds for set_text, set_icons and
    set_mode, for every request and every answer of the RTC. *)
Theorem handlers_send_valid_packets
  (valid : rtc_time -> Z) (rtc : rtc_source) (vfd : shuttle_vfd) (buf : list Z) :
  wf_vfd vfd ->
  (exists ps : list (list Z),
      sent_since vfd (set_vfd_text_handler vfd buf) ps /\ Forall valid_packet ps) /\
  (exists ps : list (list Z),
      sent_since vfd (set_vfd_icons_handler vfd buf) ps /\ Forall valid_packet ps) /\
  (exists ps : list (list Z),
      sent_since vfd (snd (set_vfd_mode_handler valid rtc vfd buf)) ps /\
      Forall valid_packet ps).
Proof.
  intros Hwf. split; [|split].
  - destruct (set_vfd_text_handler_sent vfd buf Hwf) as (H1 & H2 & _).
    destruct (wf_set_vfd_text_handler vfd buf Hwf) as [_ Hs].
    destruct (Z.eq_dec (mode vfd) DRIVER_MODE_TEXT) as [E|E].
    + eexists. split; [exact (H1 E)|].
      constructor; [apply (valid_reset_packet false)|].
      apply valid_text_packets. exact Hs.
    + exists []. split; [exact (H2 E) | constructor].
  - eexists. split; [apply set_vfd_icons_handler_sent|].
    constructor; [solve_valid_packet | constructor].
  - destruct (wf_packet_builders valid rtc true vfd Hwf) as (Hwfr & _).
    pose proof (vfd_reset_cursor_sent vfd true) as Hreset.
    assert (Hclock : exists ps : list (list Z),
               sent_since vfd
                 (vfd_set_clock valid rtc
                    (upd_mode (vfd_reset_cursor vfd true) DRIVER_MODE_CLOCK)) ps /\
               Forall valid_packet ps).
    { eexists. split.
      - eapply sent_since_trans; [exact Hreset|].
        apply (vfd_set_clock_packets valid rtc
                 (upd_mode (vfd_reset_cursor vfd true) DRIVER_MODE_CLOCK)).
        exact Hwfr.
      - cbn [app]. constructor; [apply (valid_reset_packet true)|].
        repeat (constructor; [solve_valid_packet|]). constructor. }
    assert (Htext : exists ps : list (list Z),
               sent_since vfd
                 (vfd_set_text
                    (upd_mode (vfd_reset_cursor vfd true) DRIVER_MODE_TEXT)
                    SHUTTLE_VFD_WIDTH) ps /\
               Forall valid_packet ps).
    { eexists. split.
      - eapply sent_since_trans; [exact Hreset|].
        apply (vfd_set_text_full
                 (upd_mode (vfd_reset_cursor vfd true) DRIVER_MODE_TEXT)).
        exact Hwfr.
      - cbn [app]. constructor; [apply (valid_reset_packet true)|].
        apply valid_text_packets. apply Hwfr. }
    assert (Hnone : exists ps : list (list Z),
               sent_since vfd vfd ps /\ Forall valid_packet ps).
    { exists []. split; [unfold sent_since; now rewrite app_nil_r | constructor]. }
    destruct (sscanf_5s_spec buf) as [E|(cmd & E & _)].
    + unfold set_vfd_mode_handler. rewrite E. exact Hnone.
    + rewrite (set_vfd_mode_handler_word valid rtc vfd buf cmd E).
      destruct (list_eq_dec Z.eq_dec cmd (cstr "clock")); [exact Hclock|].
      destruct (list_eq_dec Z.eq_dec cmd (cstr "clk")); [exact Hclock|].
      destruct (list_eq_dec Z.eq_dec cmd (cstr "text")); [exact Htext|].
      destruct (list_eq_dec Z.eq_dec cmd (cstr "txt")); [exact Htext|].
      exact Hnone.
Qed.

Lemma handlers_send_valid_packets_witness :
  exists ps : list (list Z),
    sent_since (shuttle_vfd_probe true)
      (snd (set_vfd_mode_handler linux_rtc_valid_tm RtcAbsent (shuttle_vfd_probe true)
              (cstr "clock"))) ps /\
    Forall valid_packet ps.
Proof.
  destruct (handlers_send_valid_packets linux_rtc_valid_tm RtcAbsent
              (shuttle_vfd_probe true) (cstr "clock")) as (_ & _ & H).
  - split; reflexivity.
  - exact H.
Defined.

(** ** Reading the icons back *)

Lemma get_icons_loop_concat (tbl : list vfd_icons) (mask : Z) :
  forall out : list Z,
    get_icons_loop tbl mask out
    = out ++ List.concat (map (fun ic => icon_display ic ++ cstr " ")
                         (filter (fun ic => negb (Z.land (value ic) mask =? 0)) tbl)).
Proof.
  induction tbl as [|ic tbl IH]; intros out; cbn [get_icons_loop filter map List.concat].
  - now rewrite app_nil_r.
  - rewrite IH. destruct (negb (Z.land (value ic) mask =? 0)).
    + cbn [map List.concat]. unfold icon_display. now rewrite <- !app_assoc.
    + reflexivity.
Qed.

(** The fifteen entries that are printed are the fifteen base bits. *)
Lemma base_icons_are_bits (ic : vfd_icons) :
  In ic (firstn (length icons - 3) icons) ->
  exists k : Z, 0 <= k < 15 /\ value ic = 2 ^ k /\
                lookup (icon_display ic) = Some (value ic) /\
                icon_display ic <> [] /\
                forallb token_byte (icon_display ic) = true.
Proof.
  intros Hin. cbv [icons length Nat.sub firstn] in Hin. cbn [In] in Hin.
  assert (Hk : forall k : Z, 0 <= k < 15 ->
               value ic = Z.shiftl 1 k ->
               lookup (icon_display ic) = Some (value ic) ->
               icon_display ic <> [] ->
               forallb token_byte (icon_display ic) = true ->
               exists k : Z, 0 <= k < 15 /\ value ic = 2 ^ k /\
                 lookup (icon_display ic) = Some (value ic) /\
                 icon_display ic <> [] /\
                 forallb token_byte (icon_display ic) = true).
  { intros k Hk Hv Hl Hne Hb. exists k. rewrite Hv, Z.shiftl_1_l in *. auto. }
  repeat (destruct Hin as [<-|Hin];
          [eapply Hk; [ | reflexivity | reflexivity | discriminate | reflexivity]; lia|]).
  contradiction.
Qed.

Lemma base_icons_cover (k : Z) :
  0 <= k < 15 ->
  exists ic : vfd_icons, In ic (firstn (length icons - 3) icons) /\ value ic = 2 ^ k.
Proof.
  intros Hk.
  assert (Hex : existsb (fun ic => value ic =? 2 ^ k) (firstn (length icons - 3) icons)
                = true).
  { assert (Hcases : k = 0 \/ k = 1 \/ k = 2 \/ k = 3 \/ k = 4 \/ k = 5 \/ k = 6
                     \/ k = 7 \/ k = 8 \/ k = 9 \/ k = 10 \/ k = 11 \/ k = 12
                     \/ k = 13 \/ k = 14) by lia.
    repeat (destruct Hcases as [->|Hcases]; [reflexivity|]). subst k. reflexivity. }
  apply existsb_exists in Hex. destruct Hex as (ic & Hin & Hv).
  exists ic. split; [exact Hin | now apply Z.eqb_eq].
Qed.

Lemma land_pow2_nonzero (m k : Z) :
  0 <= k -> negb (Z.land (2 ^ k) m =? 0) = Z.testbit m k.
Proof.
  intros Hk. rewrite Z.land_comm, <- Z.shiftl_1_l, land_bit_eqb by lia.
  apply negb_involutive.
Qed.

(** The printed entries are those whose bit is set. *)
Lemma shown_icons_spec (mask : Z) (ic : vfd_icons) :
  In ic (shown_icons mask) <->
  In ic (firstn (length icons - 3) icons) /\
  exists k : Z, 0 <= k < 15 /\ value ic = 2 ^ k /\ Z.testbit mask k = true.
Proof.
  unfold shown_icons. rewrite filter_In. split.
  - intros [Hin Hb]. split; [exact Hin|].
    destruct (base_icons_are_bits ic Hin) as (k & Hk & Hv & _).
    exists k. split; [exact Hk|]. split; [exact Hv|].
    rewrite Hv, land_pow2_nonzero in Hb by lia. exact Hb.
  - intros [Hin (k & Hk & Hv & Hb)]. split; [exact Hin|].
    rewrite Hv, land_pow2_nonzero by lia. exact Hb.
Qed.

Lemma shown_icons_nil (mask : Z) :
  shown_icons mask = [] <-> base_bits mask = 0.
Proof.
  split.
  - intros Hnil. apply Z.bits_inj'. intros n Hn.
    rewrite testbit_base_bits, Z.bits_0 by lia.
    destruct (Z.ltb_spec n 15) as [Hlt|Hge]; [|apply andb_false_r].
    rewrite andb_true_r.
    destruct (Z.testbit mask n) eqn:E; [|reflexivity].
    destruct (base_icons_cover n ltac:(lia)) as (ic & Hin & Hv).
    assert (Hs : In ic (shown_icons mask)).
    { apply shown_icons_spec. split; [exact Hin|]. exists n. auto with zarith. }
    rewrite Hnil in Hs. contradiction.
  - intros Hb. destruct (shown_icons mask) as [|ic l] eqn:E; [reflexivity|].
    assert (Hs : In ic (shown_icons mask)) by (rewrite E; now left).
    apply shown_icons_spec in Hs. destruct Hs as [_ (k & Hk & _ & Hbit)].
    assert (Hz : Z.testbit (base_bits mask) k = true).
    { rewrite testbit_base_bits, Hbit by lia.
      destruct (Z.ltb_spec k 15); [reflexivity | lia]. }
    rewrite Hb, Z.bits_0 in Hz. discriminate.
Qed.

(** The text printed before the final newline. *)
Lemma get_vfd_icons_handler_text (vfd : shuttle_vfd) :
  get_vfd_icons_handler vfd
    = (let words := List.concat (map (fun ic => icon_display ic ++ cstr " ")
                                     (shown_icons (icons_mask vfd))) in
       let out := if SHUTTLE_VFD_ICON_VOL_01 <=? icons_mask vfd
                  then words ++ cstr "vol" ++ print_ld (vol_field (icons_mask vfd))
                  else words in
       (if (length out =? 0)%nat then cstr "none" else out) ++ [10]).
Proof.
  unfold get_vfd_icons_handler. rewrite get_icons_loop_concat. reflexivity.
Qed.

Lemma shown_words_space (mask : Z) :
  shown_icons mask <> [] ->
  In 32 (List.concat (map (fun ic => icon_display ic ++ cstr " ") (shown_icons mask))).
Proof.
  intros Hne. destruct (shown_icons mask) as [|ic l]; [contradiction|].
  cbn [map List.concat]. apply in_or_app. left. apply in_or_app. right. now left.
Qed.

(** X20. get_icons prints "none" exactly when no icon is set: for a
    non-negative icons_mask the output is "none" and a newline if and only
    if the mask is 0. *)
Theorem get_icons_none_iff_zero (vfd : shuttle_vfd) :
  0 <= icons_mask vfd ->
  (get_vfd_icons_handler vfd = cstr "none" ++ [10] <-> icons_mask vfd = 0).
Proof.
  intros Hm. split.
  - rewrite get_vfd_icons_handler_text. cbv zeta.
    set (words := List.concat _).
    assert (Hnot_none : forall out : list Z,
               (In 32 out \/ In 118 out) ->
               (if (length out =? 0)%nat then cstr "none" else out) ++ [10]
               = cstr "none" ++ [10] -> False).
    { intros out Hin Heq.
      destruct out as [|c out']; [destruct Hin as [[]|[]]|].
      cbn [length Nat.eqb] in Heq. apply app_inv_tail in Heq. rewrite Heq in Hin.
      cbv in Hin. intuition discriminate. }
    destruct (Z.leb_spec SHUTTLE_VFD_ICON_VOL_01 (icons_mask vfd)) as [Hge|Hlt].
    + intros Heq. exfalso. refine (Hnot_none _ _ Heq). right.
      apply in_or_app. right. now left.
    + intros Heq.
      destruct (shown_icons (icons_mask vfd)) as [|ic l] eqn:Es.
      * apply shown_icons_nil in Es.
        unfold base_bits in Es. change SHUTTLE_VFD_BASE_MASK with (Z.ones 15) in Es.
        rewrite Z.land_ones in Es by lia.
        change SHUTTLE_VFD_ICON_VOL_01 with (2 ^ 15) in Hlt.
        rewrite Z.mod_small in Es by lia. exact Es.
      * exfalso. apply (Hnot_none words); [|exact Heq]. left.
        pose proof (shown_words_space (icons_mask vfd)) as Hsp.
        rewrite Es in Hsp. apply Hsp. discriminate.
  - intros E. unfold get_vfd_icons_handler. rewrite E. reflexivity.
Qed.

Lemma get_icons_none_iff_zero_witness :
  get_vfd_icons_handler (shuttle_vfd_probe true) = cstr "none" ++ [10].
Proof.
  apply (get_icons_none_iff_zero (shuttle_vfd_probe true)).
  - vm_compute. discriminate.
  - reflexivity.
Defined.

Lemma icon_tokens_from_word (w : list Z) :
  forall cur rest : list Z,
    forallb token_byte w = true ->
    icon_tokens_from cur (w ++ rest) = icon_tokens_from (cur ++ w) rest.
Proof.
  induction w as [|c w IH]; intros cur rest Hw.
  - now rewrite app_nil_r.
  - cbn [forallb] in Hw. apply andb_true_iff in Hw. destruct Hw as [Hc Hw].
    unfold token_byte in Hc. apply andb_true_iff in Hc. destruct Hc as [Hnul Hsep].
    apply negb_true_iff in Hnul. apply negb_true_iff in Hsep.
    cbn [app icon_tokens_from]. rewrite Hnul, Hsep.
    rewrite IH by exact Hw. now rewrite <- app_assoc.
Qed.

(** Words separated by spaces are the tokens of their concatenation. *)
Lemma icon_tokens_from_words (ws : list (list Z)) (rest : list Z) :
  Forall (fun w => w <> [] /\ forallb token_byte w = true) ws ->
  icon_tokens_from [] (List.concat (map (fun w => w ++ cstr " ") ws) ++ rest)
    = ws ++ icon_tokens_from [] rest.
Proof.
  induction ws as [|w ws IH]; intros Hws; [reflexivity|].
  inversion Hws as [|? ? [Hne Hw] Hws']; subst.
  cbn [map List.concat]. rewrite <- !app_assoc.
  rewrite icon_tokens_from_word by exact Hw.
  cbn [app]. change (cstr " " ++ List.concat (map (fun w0 => w0 ++ cstr " ") ws) ++ rest)
    with (32 :: List.concat (map (fun w0 => w0 ++ cstr " ") ws) ++ rest).
  cbn [icon_tokens_from]. change (32 =? 0) with false. change (is_separator 32) with true.
  cbv iota. destruct w as [|c w']; [contradiction|].
  rewrite IH by exact Hws'. reflexivity.
Qed.

Lemma resolved_mask_app (a b : list (list Z)) :
  resolved_mask (a ++ b) = Z.lor (resolved_mask a) (resolved_mask b).
Proof.
  apply Z.bits_inj'. intros n Hn. unfold resolved_mask.
  rewrite Z.lor_spec, !fold_lookup_testbit, !Z.bits_0, !orb_false_l.
  apply existsb_app.
Qed.

(** The names printed for a mask resolve to its base bits. *)
Lemma resolved_mask_shown (mask : Z) :
  resolved_mask (map icon_display (shown_icons mask)) = base_bits mask.
Proof.
  apply Z.bits_inj'. intros n Hn. unfold resolved_mask.
  rewrite fold_lookup_testbit, Z.bits_0, orb_false_l, testbit_base_bits by lia.
  apply eq_true_iff_eq. rewrite existsb_exists, andb_true_iff. split.
  - intros (t & Hin & Ht). apply in_map_iff in Hin. destruct Hin as (ic & <- & Hic).
    apply shown_icons_spec in Hic. destruct Hic as [H15 (k & Hk & Hv & Hbit)].
    destruct (base_icons_are_bits ic H15) as (_ & _ & _ & Hl & _).
    rewrite Hl, Hv, Z.pow2_bits_eqb in Ht by lia. apply Z.eqb_eq in Ht. subst n.
    split; [exact Hbit | apply Z.ltb_lt; lia].
  - intros [Hbit Hlt]. apply Z.ltb_lt in Hlt.
    destruct (base_icons_cover n ltac:(lia)) as (ic & H15 & Hv).
    exists (icon_display ic). split.
    + apply in_map. apply shown_icons_spec. split; [exact H15|].
      exists n. split; [lia|]. split; [exact Hv | exact Hbit].
    + destruct (base_icons_are_bits ic H15) as (_ & _ & _ & Hl & _).
      rewrite Hl, Hv. apply Z.pow2_bits_true. lia.
Qed.

(** A mask of 19 bits is its base bits and its volume level. *)
Lemma mask_base_and_volume (m : Z) :
  0 <= m < 2 ^ 19 ->
  Z.lor (base_bits m) (Z.shiftl (vol_field m) 15) = m.
Proof.
  intros Hm. apply (below_pow2_bits 19 m ltac:(lia)) in Hm. destruct Hm as [_ Hhigh].
  apply Z.bits_inj'. intros n Hn.
  rewrite Z.lor_spec, testbit_base_bits, Z.shiftl_spec by lia.
  destruct (Z.ltb_spec n 15) as [Hlt|Hge].
  - rewrite (Z.testbit_neg_r _ (n - 15)) by lia.
    now rewrite andb_true_r, orb_false_r.
  - rewrite testbit_vol_field by lia. replace (n - 15 + 15) with n by lia.
    rewrite andb_false_r, orb_false_l.
    destruct (Z.ltb_spec (n - 15) 4) as [H4|H4]; [apply andb_true_r|].
    rewrite andb_false_r. symmetry. apply Hhigh. lia.
Qed.

Lemma shown_icons_words (mask : Z) :
  Forall (fun w => w <> [] /\ forallb token_byte w = true)
         (map icon_display (shown_icons mask)).
Proof.
  apply Forall_forall. intros w Hw. apply in_map_iff in Hw.
  destruct Hw as (ic & <- & Hic). apply shown_icons_spec in Hic.
  destruct Hic as [H15 _].
  destruct (base_icons_are_bits ic H15) as (_ & _ & _ & _ & Hne & Hb). auto.
Qed.

(** The tokens and the accumulated mask of what get_icons prints for a
    non-zero mask with a volume level of at most 12. *)
Lemma resolved_mask_get_icons (vfd : shuttle_vfd) :
  0 <= icons_mask vfd < 2 ^ 19 ->
  icons_mask vfd <> 0 ->
  vol_field (icons_mask vfd) <= 12 ->
  resolved_mask (icon_tokens (get_vfd_icons_handler vfd)) = icons_mask vfd.
Proof.
  intros Hm Hnz Hvol. set (m := icons_mask vfd) in *.
  rewrite get_vfd_icons_handler_text. cbv zeta. fold m.
  rewrite <- (map_map icon_display (fun w => w ++ cstr " ")).
  set (ws := map icon_display (shown_icons m)).
  pose proof (shown_icons_words m) as Hws. fold ws in Hws.
  pose proof (resolved_mask_shown m) as Hres. fold ws in Hres.
  pose proof (mask_base_and_volume m Hm) as Hsplit.
  pose proof (vol_field_range m) as Hrange.
  destruct (Z.leb_spec SHUTTLE_VFD_ICON_VOL_01 m) as [Hge|Hlt].
  - assert (Hv : vol_field m <> 0).
    { intros Hv0. rewrite Hv0, Z.shiftl_0_l, Z.lor_0_r in Hsplit.
      assert (Hb : 0 <= base_bits m < 2 ^ 15).
      { unfold base_bits. change SHUTTLE_VFD_BASE_MASK with (Z.ones 15).
        rewrite Z.land_ones by lia. apply Z.mod_pos_bound. reflexivity. }
      change SHUTTLE_VFD_ICON_VOL_01 with (2 ^ 15) in Hge. lia. }
    assert (Hlen : (length (List.concat (map (fun w => w ++ cstr " ") ws)
                            ++ cstr "vol" ++ print_ld (vol_field m)) =? 0)%nat = false).
    { apply Nat.eqb_neq. rewrite !length_app.
      change (length (cstr "vol")) with 3%nat. lia. }
    rewrite Hlen. unfold icon_tokens. rewrite <- !app_assoc.
    rewrite icon_tokens_from_words by exact Hws.
    assert (Htail : icon_tokens_from [] (cstr "vol" ++ print_ld (vol_field m) ++ [10])
                    = [cstr "vol" ++ print_ld (vol_field m)] /\
                    lookup (cstr "vol" ++ print_ld (vol_field m))
                    = Some (Z.shiftl (vol_field m) 15)).
    { assert (Hcases : vol_field m = 1 \/ vol_field m = 2 \/ vol_field m = 3
                       \/ vol_field m = 4 \/ vol_field m = 5 \/ vol_field m = 6
                       \/ vol_field m = 7 \/ vol_field m = 8 \/ vol_field m = 9
                       \/ vol_field m = 10 \/ vol_field m = 11 \/ vol_field m = 12)
        by lia.
      repeat (destruct Hcases as [E|Hcases]; [rewrite E; split; reflexivity|]).
      rewrite Hcases. split; reflexivity. }
    destruct Htail as [Htoks Hlook]. rewrite Htoks, resolved_mask_app, Hres.
    unfold resolved_mask at 1. cbn [fold_left]. rewrite Hlook, Z.lor_0_l.
    exact Hsplit.
  - assert (Hb : base_bits m = m).
    { unfold base_bits. change SHUTTLE_VFD_BASE_MASK with (Z.ones 15).
      rewrite Z.land_ones by lia. apply Z.mod_small.
      change SHUTTLE_VFD_ICON_VOL_01 with (2 ^ 15) in Hlt. lia. }
    assert (Hne : shown_icons m <> []).
    { intros Hnil. apply shown_icons_nil in Hnil. congruence. }
    assert (Hlen : (length (List.concat (map (fun w => w ++ cstr " ") ws)) =? 0)%nat
                   = false).
    { apply Nat.eqb_neq. subst ws.
      destruct (shown_icons m) as [|ic l]; [contradiction|].
      cbn [map List.concat]. rewrite !length_app.
      change (length (cstr " ")) with 1%nat. lia. }
    rewrite Hlen. unfold icon_tokens.
    rewrite icon_tokens_from_words by exact Hws.
    cbn [icon_tokens_from]. change (10 =? 0) with false.
    change (is_separator 10) with true. cbv iota.
    rewrite app_nil_r, Hres. exact Hb.
Qed.

(** X21. Round trip of the icons: what get_icons prints is a request that
    set_icons understands.  For a device whose mask is within the 19 icon
    bits with a volume level of at most 12, sending the output of get_icons
    to a device without icons stores exactly that mask. *)
Theorem get_icons_set_icons_round_trip (blank vfd : shuttle_vfd) :
  icons_mask blank = 0 ->
  0 <= icons_mask vfd < 2 ^ 19 ->
  vol_field (icons_mask vfd) <= 12 ->
  icons_mask (set_vfd_icons_handler blank (get_vfd_icons_handler vfd))
    = icons_mask vfd.
Proof.
  intros Hblank Hm Hvol.
  rewrite (proj1 (set_vfd_icons_handler_tokens blank _)), Hblank.
  destruct (Z.eq_dec (icons_mask vfd) 0) as [E|E].
  - unfold get_vfd_icons_handler. rewrite E. reflexivity.
  - rewrite (resolved_mask_get_icons vfd Hm E Hvol).
    pose proof Hm as Hbits.
    apply (below_pow2_bits 19 _ ltac:(lia)) in Hbits. destruct Hbits as [_ Hhigh].
    destruct (Z.lt_ge_cases (icons_mask vfd) SHUTTLE_VFD_ICON_VOL_01) as [Hlt|Hge].
    + rewrite icons_merge_toggle by (try apply Hhigh; lia). apply Z.lxor_0_l.
    + assert (Hv : vol_field (icons_mask vfd) <> 0).
      { intros Hv0. pose proof (mask_base_and_volume _ Hm) as Hsplit.
        rewrite Hv0, Z.shiftl_0_l, Z.lor_0_r in Hsplit.
        assert (Hb : 0 <= base_bits (icons_mask vfd) < 2 ^ 15).
        { unfold base_bits. change SHUTTLE_VFD_BASE_MASK with (Z.ones 15).
          rewrite Z.land_ones by lia. apply Z.mod_pos_bound. reflexivity. }
        change SHUTTLE_VFD_ICON_VOL_01 with (2 ^ 15) in Hge. lia. }
      rewrite icons_merge_volume by (try apply Hhigh; lia || exact Hv).
      change (vol_field 0) with 0.
      rewrite (proj2 (Z.eqb_neq 0 _) (not_eq_sym Hv)).
      change (Z.land 0 SHUTTLE_VFD_BASE_MASK) with 0. apply Z.lxor_0_l.
Qed.

Lemma get_icons_set_icons_round_trip_witness :
  let vfd := set_vfd_icons_handler (shuttle_vfd_probe false)
               (cstr "play,rec,mute,vol11") in
  get_vfd_icons_handler vfd = cstr "record play vol0 vol11" ++ [10] /\
  icons_mask (set_vfd_icons_handler (shuttle_vfd_probe true)
                (get_vfd_icons_handler vfd)) = icons_mask vfd.
Proof.
  intros vfd. split; [reflexivity|].
  apply (get_icons_set_icons_round_trip (shuttle_vfd_probe true) vfd).
  - reflexivity.
  - vm_compute. split; [discriminate | reflexivity].
  - vm_compute. discriminate.
Defined.

(** ** One writer per field *)

Lemma set_vfd_mode_handler_frame
  (valid : rtc_time -> Z) (rtc : rtc_source) (vfd : shuttle_vfd) (buf : list Z) :
  let vfd' := snd (set_vfd_mode_handler valid rtc vfd buf) in
  screen vfd' = screen vfd /\ icons_mask vfd' = icons_mask vfd /\
  text_style vfd' = text_style vfd.
Proof.
  intros vfd'. subst vfd'.
  destruct (sscanf_5s_spec buf) as [E|(cmd & E & _)].
  - unfold set_vfd_mode_handler. rewrite E. cbn [snd negb Z.eqb]. auto.
  - rewrite (set_vfd_mode_handler_word valid rtc vfd buf cmd E).
    destruct (vfd_set_clock_frame valid rtc
                (upd_mode (vfd_reset_cursor vfd true) DRIVER_MODE_CLOCK))
      as (C1 & C2 & _ & C4).
    destruct (vfd_set_text_frame
                (upd_mode (vfd_reset_cursor vfd true) DRIVER_MODE_TEXT)
                SHUTTLE_VFD_WIDTH) as (T1 & T2 & _ & T4 & _).
    destruct (vfd_reset_cursor_frame vfd true) as (R1 & R2 & _ & R4 & _).
    cbv zeta in *.
    assert (Hc : screen (vfd_set_clock valid rtc
                           (upd_mode (vfd_reset_cursor vfd true) DRIVER_MODE_CLOCK))
                 = screen vfd /\
                 icons_mask (vfd_set_clock valid rtc
                               (upd_mode (vfd_reset_cursor vfd true) DRIVER_MODE_CLOCK))
                 = icons_mask vfd /\
                 text_style (vfd_set_clock valid rtc
                               (upd_mode (vfd_reset_cursor vfd true) DRIVER_MODE_CLOCK))
                 = text_style vfd).
    { rewrite C1, C2, C4. cbn [upd_mode screen icons_mask text_style].
      rewrite R1, R2, R4. auto. }
    assert (Ht : screen (vfd_set_text
                           (upd_mode (vfd_reset_cursor vfd true) DRIVER_MODE_TEXT)
                           SHUTTLE_VFD_WIDTH)
                 = screen vfd /\
                 icons_mask (vfd_set_text
                               (upd_mode (vfd_reset_cursor vfd true) DRIVER_MODE_TEXT)
                               SHUTTLE_VFD_WIDTH)
                 = icons_mask vfd /\
                 text_style (vfd_set_text
                               (upd_mode (vfd_reset_cursor vfd true) DRIVER_MODE_TEXT)
                               SHUTTLE_VFD_WIDTH)
                 = text_style vfd).
    { rewrite T1, T2, T4. cbn [upd_mode screen icons_mask text_style].
      rewrite R1, R2, R4. auto. }
    destruct (list_eq_dec Z.eq_dec cmd (cstr "clock")); [exact Hc|].
    destruct (list_eq_dec Z.eq_dec cmd (cstr "clk")); [exact Hc|].
    destruct (list_eq_dec Z.eq_dec cmd (cstr "text")); [exact Ht|].
    destruct (list_eq_dec Z.eq_dec cmd (cstr "txt")); [exact Ht|].
    cbn [snd]. auto.
Qed.

(** X22. Each field of the display state has one writer: only set_text
    changes the screen, only set_icons changes icons_mask, only set_mode
    changes the mode and only set_text_style changes the style - whatever
    the request, accepted or refused. *)
Theorem one_writer_per_field
  (valid : rtc_time -> Z) (rtc : rtc_source) (vfd : shuttle_vfd) (buf : list Z) :
  (let v := set_vfd_text_handler vfd buf in
   icons_mask v = icons_mask vfd /\ mode v = mode vfd /\
   text_style v = text_style vfd) /\
  (let v := set_vfd_icons_handler vfd buf in
   screen v = screen vfd /\ mode v = mode vfd /\ text_style v = text_style vfd) /\
  (let v := snd (set_vfd_mode_handler valid rtc vfd buf) in
   screen v = screen vfd /\ icons_mask v = icons_mask vfd /\
   text_style v = text_style vfd) /\
  (let v := snd (set_vfd_text_style_handler vfd buf) in
   screen v = screen vfd /\ icons_mask v = icons_mask vfd /\ mode v = mode vfd /\
   udev v = udev vfd).
Proof.
  split; [|split; [|split]].
  - apply set_vfd_text_handler_frame.
  - destruct (set_vfd_icons_handler_frame vfd buf) as (H1 & H2 & H3).
    cbv zeta in *. auto.
  - apply set_vfd_mode_handler_frame.
  - cbv zeta. unfold set_vfd_text_style_handler.
    destruct (sscanf_5s buf) as [ret cmd].
    destruct (negb (ret =? 1)); [cbn [snd]; auto|].
    destruct ((strcmp cmd (cstr "left") =? 0) || (strcmp cmd (cstr "l") =? 0));
      [cbn; auto|].
    destruct ((strcmp cmd (cstr "right") =? 0) || (strcmp cmd (cstr "r") =? 0));
      [cbn; auto|].
    destruct ((strcmp cmd (cstr "center") =? 0) || (strcmp cmd (cstr "c") =? 0));
      cbn; auto.
Qed.

(** X23. Switching to Text mode shows the stored screen: when set_mode
    recognizes "text" or "txt" it sends the full-erase reset packet and then
    the three text packets of the screen as the last set_text left it
    (also one made while the clock was shown), and sets mode to Text. *)
Theorem set_mode_text_replays_screen
  (valid : rtc_time -> Z) (rtc : rtc_source) (vfd : shuttle_vfd) (buf cmd : list Z) :
  wf_vfd vfd ->
  sscanf_5s buf = (1, cmd) ->
  cmd = cstr "text" \/ cmd = cstr "txt" ->
  let vfd' := snd (set_vfd_mode_handler valid rtc vfd buf) in
  sent_since vfd vfd'
    [ [0x11; 1; 0; 0; 0; 0; 0; 0];
      0x97 :: firstn 7 (screen vfd);
      0x97 :: firstn 7 (skipn 7 (screen vfd));
      0x96 :: skipn 14 (screen vfd) ++ [0] ] /\
  mode vfd' = DRIVER_MODE_TEXT /\ screen vfd' = screen vfd.
Proof.
  intros Hwf E Hcmd vfd'. subst vfd'.
  rewrite (set_vfd_mode_handler_word valid rtc vfd buf cmd E).
  destruct (wf_packet_builders valid rtc true vfd Hwf) as (Hwfr & _).
  pose proof (vfd_reset_cursor_sent vfd true) as Hreset.
  pose proof (vfd_set_text_full
                (upd_mode (vfd_reset_cursor vfd true) DRIVER_MODE_TEXT) Hwfr) as Htext.
  destruct (vfd_set_text_frame
              (upd_mode (vfd_reset_cursor vfd true) DRIVER_MODE_TEXT)
              SHUTTLE_VFD_WIDTH) as (T1 & _ & T3 & _).
  destruct (vfd_reset_cursor_frame vfd true) as (R1 & _).
  cbv zeta in T1, T3, R1.
  assert (Hscr : screen (upd_mode (vfd_reset_cursor vfd true) DRIVER_MODE_TEXT)
                 = screen vfd) by exact R1.
  rewrite Hscr in Htext.
  assert (Hres : sent_since vfd
                   (vfd_set_text (upd_mode (vfd_reset_cursor vfd true) DRIVER_MODE_TEXT)
                      SHUTTLE_VFD_WIDTH)
                   [ [0x11; 1; 0; 0; 0; 0; 0; 0];
                     0x97 :: firstn 7 (screen vfd);
                     0x97 :: firstn 7 (skipn 7 (screen vfd));
                     0x96 :: skipn 14 (screen vfd) ++ [0] ] /\
                 mode (vfd_set_text
                         (upd_mode (vfd_reset_cursor vfd true) DRIVER_MODE_TEXT)
                         SHUTTLE_VFD_WIDTH) = DRIVER_MODE_TEXT /\
                 screen (vfd_set_text
                           (upd_mode (vfd_reset_cursor vfd true) DRIVER_MODE_TEXT)
                           SHUTTLE_VFD_WIDTH) = screen vfd).
  { split; [|split].
    - exact (sent_since_trans _ _ _ _ _ Hreset Htext).
    - rewrite T3. reflexivity.
    - rewrite T1. exact Hscr. }
  destruct Hcmd as [-> | ->].
  - destruct (list_eq_dec Z.eq_dec (cstr "text") (cstr "clock")); [discriminate|].
    destruct (list_eq_dec Z.eq_dec (cstr "text") (cstr "clk")); [discriminate|].
    destruct (list_eq_dec Z.eq_dec (cstr "text") (cstr "text")); [|contradiction].
    exact Hres.
  - destruct (list_eq_dec Z.eq_dec (cstr "txt") (cstr "clock")); [discriminate|].
    destruct (list_eq_dec Z.eq_dec (cstr "txt") (cstr "clk")); [discriminate|].
    destruct (list_eq_dec Z.eq_dec (cstr "txt") (cstr "text")); [discriminate|].
    destruct (list_eq_dec Z.eq_dec (cstr "txt") (cstr "txt")); [|contradiction].
    exact Hres.
Qed.

Lemma set_mode_text_replays_screen_witness :
  let clock := snd (set_vfd_mode_handler linux_rtc_valid_tm RtcAbsent
                      (shuttle_vfd_probe false) (cstr "clk")) in
  let written := set_vfd_text_handler clock (cstr "Linux") in
  sent_since clock written [] /\
  sent_since written
    (snd (set_vfd_mode_handler linux_rtc_valid_tm RtcAbsent written (cstr "text")))
    [ [0x11; 1; 0; 0; 0; 0; 0; 0];
      0x97 :: repeat 0x20 7;
      0x97 :: cstr "Linux" ++ [0x20; 0x20];
      [0x96; 0x20; 0x20; 0x20; 0x20; 0x20; 0x20; 0] ].
Proof.
  intros clock written. split; [vm_compute; reflexivity|].
  destruct (set_mode_text_replays_screen linux_rtc_valid_tm RtcAbsent written
              (cstr "text") (cstr "text")) as (H & _).
  - split; vm_compute; reflexivity.
  - reflexivity.
  - left. reflexivity.
  - unfold sent_since in *. rewrite H. vm_compute. reflexivity.
Defined.
